(** * Basis Trading Monitor: the Streamlit dashboard script

    A shallow embedding of [src/streamlit/app.py].  The script is a
    top-to-bottom program that Streamlit executes once per render cycle.
    Its effects are written out: the calls to [requests], the widgets it
    hands to Streamlit, the reads of the wall clock and the writes to
    [st.session_state] are threaded through a state-and-exception monad
    whose state carries the trace of the run.

    Conventions of the model
    - Python floats ([time.time()], the number inputs, JSON numbers) are
      rationals: rounding is not modelled.
    - [exn] stands for instances of Python's [Exception]; the control
      signal raised by [st.rerun()] derives from [BaseException] and is a
      separate outcome that [except Exception] does not intercept.
    - JSON payloads have the two shapes the backend API declares: a list
      of flat records, or one flat record.
    - Layout containers (sidebar, columns) are not recorded: a widget is
      recorded by what it shows, not where.
    - Library calls are modelled where the script's data can take them
      (columns of strings, plain ASCII text); what the libraries do
      elsewhere is a parameter of the environment, not a guess. *)

From Stdlib Require Import String Ascii.
From Stdlib Require Import List Bool Arith ZArith QArith Lia.
From Stdlib Require Import DecimalString.
Import ListNotations.

Open Scope string_scope.
Open Scope nat_scope.

(* ================================================================== *)
(** * Python values, JSON payloads, exceptions *)
(* ================================================================== *)

(** A scalar as found in a JSON record or a DataFrame cell.  [VNull] is
    both JSON [null] and pandas' missing value; [VTime] is a parsed
    timestamp (nanoseconds since the epoch). *)
Inductive value : Type :=
| VNull
| VBool (b : bool)
| VNum (q : Q)
| VStr (s : string)
| VTime (ns : Z).

(** A Python [dict] with string keys, in insertion order. *)
Definition record : Type := list (string * value).

Inductive json : Type :=
| JList (rows : list record)
| JDict (r : record).

(** [Exn cls msg]: an exception of class [cls] with [str(e) = msg]. *)
Inductive exn : Type :=
| Exn (cls : string) (msg : string).

Definition str_exn (e : exn) : string :=
  match e with Exn _ msg => msg end.

Definition str_nat (n : nat) : string :=
  NilEmpty.string_of_uint (Nat.to_uint n).

(** [d.get(key)] on a dict. *)
Fixpoint dict_get (key : string) (d : record) : option value :=
  match d with
  | [] => None
  | (k, v) :: rest => if String.eqb k key then Some v else dict_get key rest
  end.

(** [d.get(key, default)]. *)
Definition dict_get_default (key : string) (default : value) (d : record) : value :=
  match dict_get key d with
  | Some v => v
  | None => default
  end.

Definition dict_keys (d : record) : list string := map fst d.

(** Python truthiness of a payload: [if snapshots:]. *)
Definition truthy (j : json) : bool :=
  match j with
  | JList [] => false
  | JList (_ :: _) => true
  | JDict [] => false
  | JDict (_ :: _) => true
  end.

(* ================================================================== *)
(** * Results of pure library calls *)
(* ================================================================== *)

Inductive res (A : Type) : Type :=
| Ok (a : A)
| Err (e : exn).
Arguments Ok {A} a.
Arguments Err {A} e.

Class Monad (F : Type -> Type) : Type := {
  ret : forall {A : Type}, A -> F A;
  bind : forall {A B : Type}, F A -> (A -> F B) -> F B
}.

Declare Scope monad_scope.
Delimit Scope monad_scope with monad.
Notation "x <- m ;; k" := (bind m (fun x => k))
  (at level 61, m at next level, right associativity) : monad_scope.
Notation "m ;; k" := (bind m (fun _ => k))
  (at level 61, right associativity) : monad_scope.
Open Scope monad_scope.

#[global] Instance Monad_res : Monad res := {
  ret := fun A a => Ok a;
  bind := fun A B m k => match m with Ok a => k a | Err e => Err e end
}.

(** Apply a fallible function to every element, left to right; the first
    failure is the failure of the whole. *)
Fixpoint mapM_res {A B : Type} (f : A -> res B) (l : list A) : res (list B) :=
  match l with
  | [] => Ok []
  | a :: rest =>
      match f a with
      | Err e => Err e
      | Ok b =>
          match mapM_res f rest with
          | Err e => Err e
          | Ok bs => Ok (b :: bs)
          end
      end
  end.

(* ================================================================== *)
(** * pandas: Series and DataFrame *)
(* ================================================================== *)

(** A column of cells.  Every Series of the script carries the default
    index 0..n-1, so a Series is the list of its cells. *)
Definition Series : Type := list value.

(** A frame keeps its number of rows apart from its columns: a frame
    built from [[{}]] has one row and no column. *)
Record DataFrame : Type := mkDataFrame {
  nrows : nat;
  columns : list (string * Series)
}.

Definition TypeError : exn := Exn "TypeError" "unsupported operand type(s)".
Definition KeyError (key : string) : exn := Exn "KeyError" key.
Definition ValueError (msg : string) : exn := Exn "ValueError" msg.
Definition AttributeError (msg : string) : exn := Exn "AttributeError" msg.

(** A Python [bool] is an [int]. *)
Definition as_num (v : value) : option Q :=
  match v with
  | VNum q => Some q
  | VBool true => Some 1%Q
  | VBool false => Some 0%Q
  | _ => None
  end.

(** Elementwise [==] of a cell with a scalar: a missing cell equals
    nothing, not even another missing value. *)
Definition value_eqb (v w : value) : bool :=
  match v, w with
  | VNull, _ | _, VNull => false
  | VStr a, VStr b => String.eqb a b
  | VTime a, VTime b => Z.eqb a b
  | _, _ =>
      match as_num v, as_num w with
      | Some a, Some b => Qeq_bool a b
      | _, _ => false
      end
  end.

(** Sameness of keys in [unique()]: as [==], but all missing values are
    one key. *)
Definition same_key (v w : value) : bool :=
  match v, w with
  | VNull, VNull => true
  | _, _ => value_eqb v w
  end.

(** Elementwise [+] on object cells: strings concatenate, numbers add,
    a missing operand gives a missing result. *)
Definition value_add (v w : value) : res value :=
  match v, w with
  | VNull, _ | _, VNull => Ok VNull
  | VStr a, VStr b => Ok (VStr (a ++ b))
  | _, _ =>
      match as_num v, as_num w with
      | Some a, Some b => Ok (VNum (a + b))
      | _, _ => Err TypeError
      end
  end.

(** [series + scalar]. *)
Definition series_add_scalar (s : Series) (c : value) : res Series :=
  mapM_res (fun v => value_add v c) s.

(** [series + series]: labels are aligned; a label present on one side
    only gives a missing value. *)
Fixpoint series_add (a b : Series) : res Series :=
  match a, b with
  | [], _ => Ok (map (fun _ => VNull) b)
  | _ :: _, [] => Ok (map (fun _ => VNull) a)
  | x :: a', y :: b' =>
      match value_add x y with
      | Err e => Err e
      | Ok v =>
          match series_add a' b' with
          | Err e => Err e
          | Ok r => Ok (v :: r)
          end
      end
  end.

(** [series == scalar]: the boolean mask. *)
Definition series_eq_scalar (s : Series) (c : value) : list bool :=
  map (fun v => value_eqb v c) s.

(** The cells of [s] at the positions where [mask] holds. *)
Fixpoint series_take (mask : list bool) (s : Series) : Series :=
  match mask, s with
  | true :: m, v :: r => v :: series_take m r
  | false :: m, _ :: r => series_take m r
  | _, _ => []
  end.

Definition count_true (mask : list bool) : nat :=
  length (filter (fun b => b) mask).

(** [series.unique()]: the distinct cells in order of first appearance. *)
Fixpoint unique_from (seen : list value) (s : Series) : list value :=
  match s with
  | [] => []
  | v :: r =>
      if existsb (same_key v) seen then unique_from seen r
      else v :: unique_from (v :: seen) r
  end.

Definition series_unique (s : Series) : list value := unique_from [] s.

(** The distinct strings of a list in order of first appearance: the
    columns of a frame built from records. *)
Fixpoint unique_keys_from (seen : list string) (l : list string) : list string :=
  match l with
  | [] => []
  | k :: r =>
      if existsb (String.eqb k) seen then unique_keys_from seen r
      else k :: unique_keys_from (k :: seen) r
  end.

(** The frame of a list of dicts: one row per dict and one column per
    key, in order of first appearance; a key absent from a dict gives a
    missing cell. *)
Definition records_frame (rows : list record) : DataFrame :=
  let keys := unique_keys_from [] (concat (map dict_keys rows)) in
  {| nrows := length rows;
     columns := map (fun k => (k, map (dict_get_default k VNull) rows)) keys |}.

(** [pd.DataFrame(payload)].  A non-empty dict of scalars is refused by
    pandas. *)
Definition pd_DataFrame (j : json) : res DataFrame :=
  match j with
  | JList rows => Ok (records_frame rows)
  | JDict [] => Ok {| nrows := 0; columns := [] |}
  | JDict (_ :: _) =>
      Err (ValueError "If using all scalar values, you must pass an index")
  end.

(** [df.empty]. *)
Definition df_empty (df : DataFrame) : bool :=
  (nrows df =? 0) || (length (columns df) =? 0).

Fixpoint assoc_get {A : Type} (key : string) (l : list (string * A)) : option A :=
  match l with
  | [] => None
  | (k, v) :: rest => if String.eqb k key then Some v else assoc_get key rest
  end.

(** [df[key]]. *)
Definition df_getitem (key : string) (df : DataFrame) : res Series :=
  match assoc_get key (columns df) with
  | Some s => Ok s
  | None => Err (KeyError key)
  end.

Fixpoint assoc_set {A : Type} (key : string) (a : A) (l : list (string * A))
  : list (string * A) :=
  match l with
  | [] => [(key, a)]
  | (k, v) :: rest =>
      if String.eqb k key then (k, a) :: rest else (k, v) :: assoc_set key a rest
  end.

(** [df[key] = series]: an existing column is replaced in place, a new
    one is added last. *)
Definition df_setitem (key : string) (s : Series) (df : DataFrame) : res DataFrame :=
  if length s =? nrows df
  then Ok {| nrows := nrows df; columns := assoc_set key s (columns df) |}
  else Err (ValueError "Length of values does not match length of index").

(** [df[[k1, ..., kn]]]. *)
Definition df_select (keys : list string) (df : DataFrame) : res DataFrame :=
  match mapM_res (fun k => match df_getitem k df with
                           | Ok s => Ok (k, s)
                           | Err e => Err e
                           end) keys with
  | Ok cols => Ok {| nrows := nrows df; columns := cols |}
  | Err e => Err e
  end.

(** [df[mask]]. *)
Definition df_mask (mask : list bool) (df : DataFrame) : DataFrame :=
  {| nrows := count_true (firstn (nrows df) mask);
     columns := map (fun kc => (fst kc, series_take mask (snd kc))) (columns df) |}.

(** A Python slice [l[-n:]] for [n > 0]. *)
Definition last_n {A : Type} (n : nat) (l : list A) : list A :=
  skipn (length l - n) l.

(** [df.tail(n)]. *)
Definition df_tail (n : nat) (df : DataFrame) : DataFrame :=
  {| nrows := Nat.min n (nrows df);
     columns := map (fun kc => (fst kc, last_n n (snd kc))) (columns df) |}.

(** Row [i] of a frame, as the cells of its columns. *)
Definition df_row (i : nat) (df : DataFrame) : list (string * option value) :=
  map (fun kc => (fst kc, nth_error (snd kc) i)) (columns df).

(* ================================================================== *)
(** * plotly figures *)
(* ================================================================== *)

Inductive TraceKind : Type := Scatter | Bar.

Record Trace : Type := mkTrace {
  kind : TraceKind;
  name : value;
  xs : Series;
  ys : Series;
  mode : option string;
  line_width : option nat;
  marker_size : option nat;
  marker_color : option string
}.

Record Layout : Type := mkLayout {
  title : option string;
  xaxis_title : option string;
  yaxis_title : option string;
  height : option nat;
  hovermode : option string
}.

Record Figure : Type := mkFigure {
  traces : list Trace;
  layout : Layout
}.

(** [go.Figure()]. *)
Definition go_Figure : Figure :=
  {| traces := [];
     layout := {| title := None; xaxis_title := None; yaxis_title := None;
                  height := None; hovermode := None |} |}.

(** [fig.add_trace(t)]. *)
Definition add_trace (fig : Figure) (t : Trace) : Figure :=
  {| traces := traces fig ++ [t]; layout := layout fig |}.

(** [fig.update_layout(...)] with all five properties given. *)
Definition update_layout (fig : Figure) (l : Layout) : Figure :=
  {| traces := traces fig; layout := l |}.

(** The points of a trace, in the order they are drawn. *)
Definition points (t : Trace) : list (value * value) := combine (xs t) (ys t).

(* ================================================================== *)
(** * Streamlit widgets, HTTP requests, the trace of a run *)
(* ================================================================== *)

Inductive Widget : Type :=
| StPageConfig (page_title page_icon layout_mode sidebar_state : string)
| StMarkdown (body : string)
| StTitle (body : string)
| StHeader (body : string)
| StSubheader (body : string)
| StWrite (body : string)
| StCaption (body : string)
| StCheckbox (label : string) (value : bool)
| StSlider (label : string) (min_value max_value value : Z)
| StTextInput (label : string) (value : string)
| StNumberInput (label : string) (min_value value step : Q)
| StFormSubmitButton (label : string)
| StSuccess (body : string)
| StError (body : string)
| StInfo (body : string)
| StMetric (label : string) (value : string) (delta : option string)
| StPlotlyChart (fig : Figure)
| StDataframe (df : DataFrame).

Inductive Request : Type :=
| GET (url : string)
| POST (url : string) (body : record).

Record Response : Type := mkResponse {
  status_code : nat;
  text : string;
  (** what [response.json()] does: the parsed body, or the decoder's
      exception *)
  json_body : res json
}.

Inductive HttpOutcome : Type :=
| HttpResponse (r : Response)
| HttpFailure (e : exn).

Inductive Event : Type :=
| EvRequest (r : Request)            (* a call of [requests.get] / [requests.post] *)
| EvUI (w : Widget)                  (* a widget handed to Streamlit *)
| EvSetLastUpdate (t : Q).           (* [st.session_state.last_update = t] *)

(** What a run depends on and does not control: the wall clock, the
    backend, and the library functions whose results the script only
    passes on. *)
Record Env : Type := mkEnv {
  (** the k-th reading of the wall clock, in seconds *)
  clock : nat -> Q;
  (** the backend's reaction to a request, given the run so far *)
  network : list Event -> Request -> HttpOutcome;
  (** [pd.to_datetime] on one cell *)
  to_datetime : value -> res value;
  (** plotly express' default colour sequence *)
  color_discrete_sequence : list string;
  (** the format specs [:.2f] and [:,.2f] *)
  format_2f : value -> res string;
  format_comma_2f : value -> res string;
  (** [strftime('%Y-%m-%d %H:%M:%S')] of a clock reading *)
  strftime : Q -> string;
  (** [str.upper()] of a string that is not plain ASCII *)
  upper_non_ascii : string -> string;
  (** what [go.Scatter] makes of a [name] that is neither a string nor
      a missing value: by its Python type the cell is turned into a
      string or refused *)
  scatter_name_other : value -> res value;
  (** the traces [px.bar] draws from the x, y and colour columns when
      the colour column is not a non-empty column of strings (a numeric
      column is drawn as one trace on a continuous colour scale) *)
  px_bar_other : Series -> Series -> Series -> list Trace
}.

(** The state a run works on.  [last_update] is the entry of
    [st.session_state], which outlives the run; [ticks] counts the clock
    readings taken; [trace] lists the events of the run, oldest first. *)
Record World : Type := mkWorld {
  last_update : option Q;
  ticks : nat;
  trace : list Event
}.

(** How a run of script code ends: normally, with an exception, or with
    Streamlit's rerun signal. *)
Inductive outcome (A : Type) : Type :=
| Returned (a : A)
| Raised (e : exn)
| RerunRequested.
Arguments Returned {A} a.
Arguments Raised {A} e.
Arguments RerunRequested {A}.

Definition M (A : Type) : Type := World -> outcome A * World.

#[global] Instance Monad_M : Monad M := {
  ret := fun A a w => (Returned a, w);
  bind := fun A B m k w =>
    match m w with
    | (Returned a, w') => k a w'
    | (Raised e, w') => (Raised e, w')
    | (RerunRequested, w') => (RerunRequested, w')
    end
}.

Definition raise {A : Type} (e : exn) : M A :=
  fun w => (Raised e, w).

(** A pure library call inside the script. *)
Definition lift {A : Type} (r : res A) : M A :=
  match r with
  | Ok a => ret a
  | Err e => raise e
  end.

(** [try: body  except Exception as e: handler e]. *)
Definition try_except {A : Type} (body : M A) (handler : exn -> M A) : M A :=
  fun w =>
    match body w with
    | (Raised e, w') => handler e w'
    | other => other
    end.

Definition emit (ev : Event) : M unit :=
  fun w => (Returned tt,
            {| last_update := last_update w; ticks := ticks w;
               trace := trace w ++ [ev] |}).

Definition show (wd : Widget) : M unit := emit (EvUI wd).

(** The events of a trace, by sort. *)
Definition requests_of (tr : list Event) : list Request :=
  flat_map (fun ev => match ev with EvRequest r => [r] | _ => [] end) tr.

Definition widgets_of (tr : list Event) : list Widget :=
  flat_map (fun ev => match ev with EvUI wd => [wd] | _ => [] end) tr.

Definition resets_of (tr : list Event) : list Q :=
  flat_map (fun ev => match ev with EvSetLastUpdate t => [t] | _ => [] end) tr.

Definition errors_of (tr : list Event) : list string :=
  flat_map (fun ev => match ev with EvUI (StError msg) => [msg] | _ => [] end) tr.

Definition infos_of (tr : list Event) : list string :=
  flat_map (fun ev => match ev with EvUI (StInfo msg) => [msg] | _ => [] end) tr.

Definition charts_of (tr : list Event) : list Figure :=
  flat_map (fun ev => match ev with EvUI (StPlotlyChart f) => [f] | _ => [] end) tr.

Definition tables_of (tr : list Event) : list DataFrame :=
  flat_map (fun ev => match ev with EvUI (StDataframe d) => [d] | _ => [] end) tr.

Definition is_get (r : Request) : bool :=
  match r with GET _ => true | POST _ _ => false end.

Definition is_post (r : Request) : bool :=
  match r with GET _ => false | POST _ _ => true end.

(* ================================================================== *)
(** * The script *)
(* ================================================================== *)

Definition API_BASE_URL : string := "http://localhost:8080/api".

(** What the user has set in the browser when a run starts: the value
    each input widget returns to the script. *)
Record UserInput : Type := mkUserInput {
  in_auto_refresh : bool;
  in_refresh_interval : Z;
  in_spot_symbol : string;
  in_future_symbol : string;
  in_target_basis : Q;
  in_max_position : Q;
  in_min_trade_size : Q;
  in_submit : bool
}.

(** The number inputs of the form are declared with [min_value=0.0]. *)
Definition valid_numeric_fields (u : UserInput) : Prop :=
  (0 <= in_target_basis u)%Q /\
  (0 <= in_max_position u)%Q /\
  (0 <= in_min_trade_size u)%Q.

(** Input widgets: the widget is shown and the user's value returned. *)
Definition st_checkbox (label : string) (default : bool) (current : bool) : M bool :=
  show (StCheckbox label default) ;; ret current.

Definition st_slider (label : string) (lo hi default : Z) (current : Z) : M Z :=
  show (StSlider label lo hi default) ;; ret current.

Definition st_text_input (label default : string) (current : string) : M string :=
  show (StTextInput label default) ;; ret current.

Definition st_number_input (label : string) (min_value default step : Q) (current : Q)
  : M Q :=
  show (StNumberInput label min_value default step) ;; ret current.

Definition st_form_submit_button (label : string) (clicked : bool) : M bool :=
  show (StFormSubmitButton label) ;; ret clicked.

Definition st_error (msg : string) : M unit := show (StError msg).
Definition st_success (msg : string) : M unit := show (StSuccess msg).
Definition st_info (msg : string) : M unit := show (StInfo msg).
Definition st_subheader (msg : string) : M unit := show (StSubheader msg).
Definition st_plotly_chart (fig : Figure) : M unit := show (StPlotlyChart fig).
Definition st_dataframe (df : DataFrame) : M unit := show (StDataframe df).
Definition st_metric (label v : string) (delta : option string) : M unit :=
  show (StMetric label v delta).

(** [st.rerun()]: the run stops here and Streamlit executes the script
    again from the top. *)
Definition st_rerun {A : Type} : M A :=
  fun w => (RerunRequested, w).

(** ['last_update' in st.session_state] and the attribute's value. *)
Definition session_has_last_update : M bool :=
  fun w => (Returned (match last_update w with Some _ => true | None => false end), w).

Definition session_get_last_update : M Q :=
  fun w =>
    match last_update w with
    | Some t => (Returned t, w)
    | None => (Raised (AttributeError "st.session_state has no attribute last_update"), w)
    end.

Definition session_set_last_update (t : Q) : M unit :=
  fun w => (Returned tt,
            {| last_update := Some t; ticks := ticks w;
               trace := trace w ++ [EvSetLastUpdate t] |}).

(** [x > y] on floats. *)
Definition Qgt_bool (x y : Q) : bool := negb (Qle_bool x y).

(** Upper case of a plain ASCII string: [str.upper()] on such a string
    changes the letters a to z and nothing else. *)
Definition upper_ascii (c : ascii) : ascii :=
  let n := nat_of_ascii c in
  if (97 <=? n) && (n <=? 122) then ascii_of_nat (n - 32) else c.

Fixpoint upper (s : string) : string :=
  match s with
  | EmptyString => EmptyString
  | String c rest => String (upper_ascii c) (upper rest)
  end.

Fixpoint is_ascii (s : string) : bool :=
  match s with
  | EmptyString => true
  | String c rest => (nat_of_ascii c <? 128) && is_ascii rest
  end.

Definition custom_css : string := "
<style>
    .stMetric {
        background-color: #f0f2f6;
        padding: 10px;
        border-radius: 5px;
        border: 1px solid #ddd;
    }
    .metric-container {
        display: flex;
        justify-content: space-between;
        margin-bottom: 20px;
    }
</style>
".

(** The dict literal of lines 62-69. *)
Definition strategy_data (spot_symbol future_symbol : string)
  (target_basis max_position min_trade_size : Q) : record :=
  [ ("spot_symbol", VStr spot_symbol);
    ("future_symbol", VStr future_symbol);
    ("target_basis", VNum target_basis);
    ("max_position", VNum max_position);
    ("min_trade_size", VNum min_trade_size);
    ("is_active", VBool true) ].

Definition strategy_fields : list string :=
  ["spot_symbol"; "future_symbol"; "target_basis"; "max_position";
   "min_trade_size"; "is_active"].

(** The [name] of a trace must be a string.  [go.Scatter] keeps a
    string as it is and turns a missing value, a float NaN, into the
    string nan; what it makes of any other cell depends on the cell's
    Python type and is left to [other]. *)
Definition scatter_name (other : value -> res value) (symbol_pair : value) : res value :=
  match symbol_pair with
  | VStr s => Ok (VStr s)
  | VNull => Ok (VStr "nan")
  | _ => other symbol_pair
  end.

(** [go.Scatter(...)] as built in [create_basis_chart], the name
    validated. *)
Definition basis_scatter (x y : Series) (trace_name : value) : Trace :=
  {| kind := Scatter; name := trace_name; xs := x; ys := y;
     mode := Some "lines+markers"; line_width := Some 2; marker_size := Some 6;
     marker_color := None |}.

(** The loop of [create_basis_chart]: one trace per pair, added to the
    figure in the order of the pairs. *)
Fixpoint add_pair_traces (other : value -> res value) (snapshots_df : DataFrame)
  (pairs : list value) (fig : Figure) : res Figure :=
  match pairs with
  | [] => Ok fig
  | symbol_pair :: rest =>
      pair_col <- df_getitem "pair" snapshots_df ;;
      let pair_data := df_mask (series_eq_scalar pair_col symbol_pair) snapshots_df in
      x <- df_getitem "timestamp" pair_data ;;
      y <- df_getitem "basis_percent" pair_data ;;
      trace_name <- scatter_name other symbol_pair ;;
      add_pair_traces other snapshots_df rest
        (add_trace fig (basis_scatter x y trace_name))
  end.

(** ** plotly express' bar chart

    [px.bar(df, x, y, color, title, height, color_discrete_map)].  For
    a colour column of strings the rows are grouped by the value of the
    colour column, groups in order of first appearance, and each group
    is one bar trace named after its value.  A value found in
    [color_discrete_map] takes its colour from there; any other value
    is given the next colour of the default sequence and keeps it.
    What is drawn for other colour columns (numbers, missing values, no
    rows) is left to [other]. *)

Definition is_string_cell (v : value) : bool :=
  match v with VStr _ => true | _ => false end.

(** A column with at least one cell, all of them strings. *)
Definition string_column_cells (s : Series) : bool :=
  match s with
  | [] => false
  | _ :: _ => forallb is_string_cell s
  end.

Fixpoint val_map_get (val : value) (m : list (value * string)) : option string :=
  match m with
  | [] => None
  | (k, c) :: rest => if same_key k val then Some c else val_map_get val rest
  end.

Definition px_assign_colour (sequence : list string) (val : value)
  (val_map : list (value * string)) : res (list (value * string)) :=
  match val_map_get val val_map with
  | Some _ => Ok val_map
  | None =>
      match sequence with
      | [] => Err (Exn "ZeroDivisionError" "integer modulo by zero")
      | c0 :: _ =>
          Ok (val_map ++ [(val, nth (length val_map mod length sequence) sequence c0)])%list
      end
  end.

Fixpoint px_bar_traces (sequence : list string) (xcol ycol ccol : Series)
  (groups : list value) (val_map : list (value * string)) : res (list Trace) :=
  match groups with
  | [] => Ok []
  | val :: rest =>
      val_map' <- px_assign_colour sequence val val_map ;;
      let rows := series_eq_scalar ccol val in
      bars <- px_bar_traces sequence xcol ycol ccol rest val_map' ;;
      ret ({| kind := Bar; name := val;
              xs := series_take rows xcol; ys := series_take rows ycol;
              mode := None; line_width := None; marker_size := None;
              marker_color := val_map_get val val_map' |} :: bars)
  end.

Definition px_column (arg key : string) (df : DataFrame) : res Series :=
  match assoc_get key (columns df) with
  | Some s => Ok s
  | None => Err (ValueError ("Value of '" ++ arg ++ "' is not the name of a column in 'data_frame'"))
  end.

Definition px_bar (sequence : list string)
  (other : Series -> Series -> Series -> list Trace)
  (df : DataFrame) (x y color : string)
  (chart_title : string) (chart_height : nat)
  (color_discrete_map : list (value * string)) : res Figure :=
  xcol <- px_column "x" x df ;;
  ycol <- px_column "y" y df ;;
  ccol <- px_column "color" color df ;;
  bars <- (if string_column_cells ccol
           then px_bar_traces sequence xcol ycol ccol (series_unique ccol)
                  color_discrete_map
           else Ok (other xcol ycol ccol)) ;;
  ret {| traces := bars;
         layout := {| title := Some chart_title;
                      xaxis_title := Some x;
                      yaxis_title := Some y;
                      height := Some chart_height;
                      hovermode := None |} |}.

(** Colours by their name: a [#RRGGBB] code is green when its green
    channel is the strongest, red when its red channel is. *)
Definition hex_digit (c : ascii) : option nat :=
  let n := nat_of_ascii c in
  if (48 <=? n) && (n <=? 57) then Some (n - 48)
  else if (65 <=? n) && (n <=? 70) then Some (n - 55)
  else if (97 <=? n) && (n <=? 102) then Some (n - 87)
  else None.

Definition hex_byte (hi lo : ascii) : option nat :=
  match hex_digit hi, hex_digit lo with
  | Some h, Some l => Some (16 * h + l)
  | _, _ => None
  end.

Definition rgb_of_hex (s : string) : option (nat * nat * nat) :=
  match s with
  | String "#" (String r1 (String r0 (String g1 (String g0
      (String b1 (String b0 EmptyString)))))) =>
      match hex_byte r1 r0, hex_byte g1 g0, hex_byte b1 b0 with
      | Some r, Some g, Some b => Some (r, g, b)
      | _, _, _ => None
      end
  | _ => None
  end.

Definition is_green (colour : string) : bool :=
  match rgb_of_hex colour with
  | Some (r, g, b) => (r <? g) && (b <? g)
  | None => false
  end.

Definition is_red (colour : string) : bool :=
  match rgb_of_hex colour with
  | Some (r, g, b) => (g <? r) && (b <? r)
  | None => false
  end.

Definition position_color_map : list (value * string) :=
  [ (VStr "long", "#00CC88"); (VStr "short", "#FF4444") ].

Section Script.

Variable env : Env.

Definition create_position_chart (positions_df : DataFrame) : res Figure :=
  px_bar (color_discrete_sequence env) (px_bar_other env) positions_df
    "symbol" "size" "side" "Current Positions" 300 position_color_map.

Definition create_basis_chart (snapshots_df : DataFrame) : res Figure :=
  let fig := go_Figure in
  pair_col <- df_getitem "pair" snapshots_df ;;
  fig <- add_pair_traces (scatter_name_other env) snapshots_df
           (series_unique pair_col) fig ;;
  ret (update_layout fig
         {| title := Some "Basis Percentage Over Time";
            xaxis_title := Some "Time";
            yaxis_title := Some "Basis %";
            height := Some 400;
            hovermode := Some "x unified" |}).

(** [time.time()] and [datetime.now()]: the next reading of the clock. *)
Definition time_time : M Q :=
  fun w => (Returned (clock env (ticks w)),
            {| last_update := last_update w; ticks := S (ticks w);
               trace := trace w |}).

(** [requests.get(url)] / [requests.post(url, json=body)]: the request
    is recorded, then the backend answers or the call raises. *)
Definition send (r : Request) : M Response :=
  fun w =>
    let w' := {| last_update := last_update w; ticks := ticks w;
                 trace := trace w ++ [EvRequest r] |} in
    match network env (trace w) r with
    | HttpResponse resp => (Returned resp, w')
    | HttpFailure e => (Raised e, w')
    end.

Definition requests_get (url : string) : M Response := send (GET url).

Definition requests_post (url : string) (body : record) : M Response :=
  send (POST url body).

Definition response_json (response : Response) : M json :=
  lift (json_body response).

(** Lines 80-91. *)
Definition fetch_data (endpoint : string) : M json :=
  try_except
    (response <- requests_get (API_BASE_URL ++ "/" ++ endpoint) ;;
     if status_code response =? 200
     then response_json response
     else
       st_error ("Failed to fetch " ++ endpoint ++ ": "
                 ++ str_nat (status_code response)) ;;
       ret (JList []))
    (fun e =>
       st_error ("Error fetching " ++ endpoint ++ ": " ++ str_exn e) ;;
       ret (JList [])).

(** Lines 70-77: the body of the submit branch. *)
Definition submit_strategy (body : record) : M unit :=
  try_except
    (response <- requests_post (API_BASE_URL ++ "/strategies") body ;;
     if status_code response =? 201
     then st_success "Strategy added successfully!"
     else st_error ("Failed to add strategy: " ++ text response))
    (fun e => st_error ("Error: " ++ str_exn e)).

(** Lines 53-77: the body of [with st.form("new_strategy")]. *)
Definition new_strategy_form (u : UserInput) : M unit :=
  show (StWrite "Add New Strategy") ;;
  spot_symbol <- st_text_input "Spot Symbol" "BTC-USD" (in_spot_symbol u) ;;
  future_symbol <- st_text_input "Future Symbol" "BTC-PERP" (in_future_symbol u) ;;
  target_basis <- st_number_input "Target Basis (%)" 0 5 (1 # 10) (in_target_basis u) ;;
  max_position <- st_number_input "Max Position Size" 0 1 (1 # 10) (in_max_position u) ;;
  min_trade_size <-
    st_number_input "Min Trade Size" 0 (1 # 100) (1 # 1000) (in_min_trade_size u) ;;
  submitted <- st_form_submit_button "Add Strategy" (in_submit u) ;;
  if submitted
  then submit_strategy
         (strategy_data spot_symbol future_symbol target_basis max_position min_trade_size)
  else ret tt.

(** Lines 43-77: the sidebar; gives the two scheduler settings. *)
Definition sidebar (u : UserInput) : M (bool * Z) :=
  show (StHeader "Control Panel") ;;
  auto_refresh <- st_checkbox "Auto Refresh" true (in_auto_refresh u) ;;
  refresh_interval <-
    st_slider "Refresh Interval (seconds)" 1 60 5 (in_refresh_interval u) ;;
  st_subheader "Strategy Management" ;;
  new_strategy_form u ;;
  ret (auto_refresh, refresh_interval).

(** Lines 136-141.  [and] evaluates its right operand, and so reads the
    clock, only when [auto_refresh] holds. *)
Definition refresh_scheduler (auto_refresh : bool) (refresh_interval : Z) : M unit :=
  present <- session_has_last_update ;;
  (if negb present
   then t <- time_time ;; session_set_last_update t
   else ret tt) ;;
  due <- (if auto_refresh
          then now <- time_time ;;
               last <- session_get_last_update ;;
               ret (Qgt_bool (now - last) (inject_Z refresh_interval))
          else ret false) ;;
  if due
  then t <- time_time ;;
       session_set_last_update t ;;
       st_rerun
  else ret tt.

(** [j.get(key, default)]: a list has no such method. *)
Definition json_get (key : string) (default : value) (j : json) : res value :=
  match j with
  | JDict r => Ok (dict_get_default key default r)
  | JList _ => Err (AttributeError "'list' object has no attribute 'get'")
  end.

(** [s.upper()] on a string. *)
Definition py_upper (s : string) : string :=
  if is_ascii s then upper s else upper_non_ascii env s.

(** [v.upper()]: only a string has the method. *)
Definition str_upper (v : value) : res string :=
  match v with
  | VStr s => Ok (py_upper s)
  | _ => Err (AttributeError "object has no attribute 'upper'")
  end.

(** [v == s] for a string literal [s]. *)
Definition eq_str (v : value) (s : string) : bool :=
  match v with
  | VStr a => String.eqb a s
  | _ => false
  end.

(** [j[0]]. *)
Definition json_first (j : json) : res record :=
  match j with
  | JList (r :: _) => Ok r
  | JList [] => Err (Exn "IndexError" "list index out of range")
  | JDict _ => Err (KeyError "0")
  end.

(** Lines 150-154. *)
Definition health_panel (health : json) : M unit :=
  if truthy health
  then
    status <- lift (json_get "status" (VStr "Unknown") health) ;;
    shown <- lift (str_upper status) ;;
    status' <- lift (json_get "status" VNull health) ;;
    st_metric "System Status" shown
      (Some (if eq_str status' "healthy" then "Online" else "Offline"))
  else ret tt.

(** Lines 156-164. *)
Definition metrics_panel (snapshots : json) : M unit :=
  if truthy snapshots
  then
    latest_snapshot <- lift (json_first snapshots) ;;
    b <- lift (format_2f env (dict_get_default "basis_percent" (VNum 0) latest_snapshot)) ;;
    st_metric "Latest Basis" (b ++ "%") None ;;
    s <- lift (format_comma_2f env (dict_get_default "spot_price" (VNum 0) latest_snapshot)) ;;
    st_metric "Spot Price" ("$" ++ s) None ;;
    f <- lift (format_comma_2f env (dict_get_default "future_price" (VNum 0) latest_snapshot)) ;;
    st_metric "Future Price" ("$" ++ f) None
  else ret tt.

(** [pd.to_datetime(series)]. *)
Definition pd_to_datetime (s : Series) : res Series :=
  mapM_res (to_datetime env) s.

(** Lines 172-173: the two columns the basis panel derives. *)
Definition derive_snapshot_columns (snapshots_df : DataFrame) : res DataFrame :=
  raw <- df_getitem "timestamp" snapshots_df ;;
  parsed <- pd_to_datetime raw ;;
  snapshots_df <- df_setitem "timestamp" parsed snapshots_df ;;
  spot <- df_getitem "spot_symbol" snapshots_df ;;
  spot_slash <- series_add_scalar spot (VStr "/") ;;
  future <- df_getitem "future_symbol" snapshots_df ;;
  pair <- series_add spot_slash future ;;
  df_setitem "pair" pair snapshots_df.

(** Lines 166-178. *)
Definition basis_panel (snapshots : json) : M unit :=
  st_subheader "📈 Basis Analysis" ;;
  if truthy snapshots
  then
    snapshots_df <- lift (pd_DataFrame snapshots) ;;
    if negb (df_empty snapshots_df)
    then
      snapshots_df <- lift (derive_snapshot_columns snapshots_df) ;;
      basis_chart <- lift (create_basis_chart snapshots_df) ;;
      st_plotly_chart basis_chart
    else ret tt
  else st_info "No basis data available yet".

Definition position_columns : list string :=
  ["symbol"; "side"; "size"; "entry_price"; "mark_price"; "unrealized_pl"].

(** Lines 183-196. *)
Definition positions_panel (positions : json) : M unit :=
  st_subheader "📊 Active Positions" ;;
  if truthy positions
  then
    positions_df <- lift (pd_DataFrame positions) ;;
    position_chart <- lift (create_position_chart positions_df) ;;
    st_plotly_chart position_chart ;;
    table <- lift (df_select position_columns positions_df) ;;
    st_dataframe table
  else st_info "No active positions".

Definition strategy_columns : list string :=
  ["id"; "spot_symbol"; "future_symbol"; "target_basis"; "max_position"; "is_active"].

(** Lines 198-207. *)
Definition strategies_panel (strategies : json) : M unit :=
  st_subheader "🎯 Active Strategies" ;;
  if truthy strategies
  then
    strategies_df <- lift (pd_DataFrame strategies) ;;
    table <- lift (df_select strategy_columns strategies_df) ;;
    st_dataframe table
  else st_info "No active strategies".

Definition trade_columns : list string :=
  ["id"; "strategy_id"; "side"; "size"; "spot_price"; "future_price"; "basis";
   "status"; "created_at"].

(** Lines 212-219: the frame the trades table shows. *)
Definition recent_trades (trades_df : DataFrame) : res DataFrame :=
  raw <- df_getitem "created_at" trades_df ;;
  parsed <- pd_to_datetime raw ;;
  trades_df <- df_setitem "created_at" parsed trades_df ;;
  selected <- df_select trade_columns trades_df ;;
  ret (df_tail 10 selected).

(** Lines 209-221. *)
Definition trades_panel (trades : json) : M unit :=
  st_subheader "💹 Recent Trades" ;;
  if truthy trades
  then
    trades_df <- lift (pd_DataFrame trades) ;;
    table <- lift (recent_trades trades_df) ;;
    st_dataframe table
  else st_info "No trades executed yet".

(** The five fetches of lines 144-148. *)
Definition endpoints : list string :=
  ["health"; "basis/snapshots"; "strategies"; "positions"; "trades"].

(** Lines 14-40: page configuration, style sheet, title. *)
Definition page_header : M unit :=
  show (StPageConfig "Basis Trading Monitor" "📊" "wide" "expanded") ;;
  show (StMarkdown custom_css) ;;
  show (StTitle "🚀 Basis Trading Monitor") ;;
  show (StMarkdown
          "Real-time monitoring dashboard for cryptocurrency basis trading strategies").

(** Lines 150-225: everything shown from the fetched data. *)
Definition render (health snapshots strategies positions trades : json) : M unit :=
  health_panel health ;;
  metrics_panel snapshots ;;
  basis_panel snapshots ;;
  positions_panel positions ;;
  strategies_panel strategies ;;
  trades_panel trades ;;
  show (StMarkdown "---") ;;
  now <- time_time ;;
  show (StCaption ("Last updated: " ++ strftime env now)).

(** Lines 143-225: the five fetches, then the rendering. *)
Definition fetch_and_render : M unit :=
  health <- fetch_data "health" ;;
  snapshots <- fetch_data "basis/snapshots" ;;
  strategies <- fetch_data "strategies" ;;
  positions <- fetch_data "positions" ;;
  trades <- fetch_data "trades" ;;
  render health snapshots strategies positions trades.

(** One run of the script: a render cycle. *)
Definition script (u : UserInput) : M unit :=
  page_header ;;
  settings <- sidebar u ;;
  let auto_refresh := fst settings in
  let refresh_interval := snd settings in
  refresh_scheduler auto_refresh refresh_interval ;;
  fetch_and_render.

End Script.

(* ================================================================== *)
(** * Concrete environments, used to run the script on examples *)
(* ================================================================== *)

Definition plotly_colours : list string :=
  ["#636efa"; "#EF553B"; "#00cc96"; "#ab63fa"; "#FFA15A";
   "#19d3f3"; "#FF6692"; "#B6E880"; "#FF97FF"; "#FECB52"].

(** An environment with the given clock and backend; timestamps are
    kept as they come and numbers are not formatted. *)
Definition env_of (c : nat -> Q) (net : list Event -> Request -> HttpOutcome) : Env :=
  {| clock := c;
     network := net;
     to_datetime := fun v => Ok v;
     color_discrete_sequence := plotly_colours;
     format_2f := fun _ => Ok "0.00";
     format_comma_2f := fun _ => Ok "0.00";
     strftime := fun _ => "2024-01-01 00:00:00";
     upper_non_ascii := fun s => s;
     scatter_name_other := fun _ => Err (ValueError "Invalid value for the name property");
     px_bar_other := fun _ _ _ => [] |}.

(** A clock that advances by one second per reading, from [start]. *)
Definition clock_from (start : Z) (k : nat) : Q := inject_Z (start + Z.of_nat k).

(** A backend that refuses every connection. *)
Definition backend_down : list Event -> Request -> HttpOutcome :=
  fun _ _ => HttpFailure (Exn "ConnectionError" "Connection refused").

(** A backend that answers every request with the given status and an
    empty list. *)
Definition backend_status (code : nat) : list Event -> Request -> HttpOutcome :=
  fun _ _ => HttpResponse {| status_code := code; text := "Internal Server Error";
                             json_body := Ok (JList []) |}.

Definition default_input : UserInput :=
  {| in_auto_refresh := true;
     in_refresh_interval := 5;
     in_spot_symbol := "BTC-USD";
     in_future_symbol := "BTC-PERP";
     in_target_basis := 5;
     in_max_position := 1;
     in_min_trade_size := 1 # 100;
     in_submit := false |}.

Definition with_auto_refresh (b : bool) (u : UserInput) : UserInput :=
  {| in_auto_refresh := b;
     in_refresh_interval := in_refresh_interval u;
     in_spot_symbol := in_spot_symbol u;
     in_future_symbol := in_future_symbol u;
     in_target_basis := in_target_basis u;
     in_max_position := in_max_position u;
     in_min_trade_size := in_min_trade_size u;
     in_submit := in_submit u |}.

Definition with_submit (b : bool) (u : UserInput) : UserInput :=
  {| in_auto_refresh := in_auto_refresh u;
     in_refresh_interval := in_refresh_interval u;
     in_spot_symbol := in_spot_symbol u;
     in_future_symbol := in_future_symbol u;
     in_target_basis := in_target_basis u;
     in_max_position := in_max_position u;
     in_min_trade_size := in_min_trade_size u;
     in_submit := b |}.

(** Three snapshots of two pairs, newest first. *)
Definition example_snapshots : list record :=
  [ [ ("timestamp", VStr "2024-01-01T00:02:00Z");
      ("spot_symbol", VStr "BTC-USD"); ("future_symbol", VStr "BTC-PERP");
      ("spot_price", VNum 42000); ("future_price", VNum 42100);
      ("basis_percent", VNum (24 # 100)) ];
    [ ("timestamp", VStr "2024-01-01T00:01:00Z");
      ("spot_symbol", VStr "ETH-USD"); ("future_symbol", VStr "ETH-PERP");
      ("spot_price", VNum 2200); ("future_price", VNum 2211);
      ("basis_percent", VNum (50 # 100)) ];
    [ ("timestamp", VStr "2024-01-01T00:00:00Z");
      ("spot_symbol", VStr "BTC-USD"); ("future_symbol", VStr "BTC-PERP");
      ("spot_price", VNum 41900); ("future_price", VNum 42000);
      ("basis_percent", VNum (23 # 100)) ] ].

(** The frame a chart is drawn from, with its three columns. *)
Definition example_snapshots_df : DataFrame :=
  {| nrows := 3;
     columns :=
       [ ("timestamp", [VTime 120; VTime 60; VTime 0]);
         ("basis_percent", [VNum (24 # 100); VNum (50 # 100); VNum (23 # 100)]);
         ("pair", [VStr "BTC-USD/BTC-PERP"; VStr "ETH-USD/ETH-PERP";
                   VStr "BTC-USD/BTC-PERP"]) ] |}.

(** Twelve trades, oldest first. *)
Definition example_trade (id : Z) : record :=
  [ ("id", VNum (inject_Z id)); ("strategy_id", VNum 1); ("side", VStr "long");
    ("size", VNum (1 # 10)); ("spot_price", VNum 42000); ("future_price", VNum 42100);
    ("basis", VNum (24 # 100)); ("status", VStr "filled");
    ("created_at", VStr "2024-01-01T00:00:00Z") ].

Definition example_trades : list record :=
  map example_trade [1; 2; 3; 4; 5; 6; 7; 8; 9; 10; 11; 12]%Z.

(** Three positions: two long, one short. *)
Definition example_positions_df : DataFrame :=
  {| nrows := 3;
     columns :=
       [ ("symbol", [VStr "BTC-PERP"; VStr "ETH-PERP"; VStr "SOL-PERP"]);
         ("side", [VStr "long"; VStr "short"; VStr "long"]);
         ("size", [VNum 1; VNum 2; VNum 3]) ] |}.

(** A session that starts: nothing in [st.session_state], no event. *)
Definition fresh_world : World :=
  {| last_update := None; ticks := 0; trace := [] |}.

(** A session whose last refresh was at time [t]. *)
Definition world_at (t : Q) : World :=
  {| last_update := Some t; ticks := 0; trace := [] |}.

Open Scope list_scope.

(** The events a computation adds to the trace when run from [w]. *)
Definition events_of_run {A : Type} (m : M A) (w : World) : list Event :=
  skipn (length (trace w)) (trace (snd (m w))).

(** [w] with further events. *)
Definition add_events (w : World) (evs : list Event) : World :=
  {| last_update := last_update w; ticks := ticks w; trace := trace w ++ evs |}.

(** [runs m w r w' evs]: run from [w], [m] ends as [r] in [w'], having
    added the events [evs]. *)
Definition runs {A : Type} (m : M A) (w : World) (r : outcome A) (w' : World)
  (evs : list Event) : Prop :=
  m w = (r, w') /\ trace w' = trace w ++ evs.

(** Script code that neither talks to the backend nor touches the
    session entry nor asks for a rerun: all it does is show widgets,
    read the clock, and possibly raise. *)
Definition passive {A : Type} (m : M A) : Prop :=
  forall w, exists r w' evs,
    runs m w r w' evs /\
    r <> RerunRequested /\
    last_update w' = last_update w /\
    requests_of evs = [] /\
    resets_of evs = [].

(** Script code whose outcome and events are the same whatever state
    it is run from. *)
Definition steady {A : Type} (m : M A) : Prop :=
  exists r evs, forall w, m w = (r, add_events w evs).

(** The fetch of [endpoint] fails: the call raises, or the status is
    not 200. *)
Definition fetch_fails (env : Env) (endpoint : string) (w : World) : Prop :=
  match network env (trace w) (GET (API_BASE_URL ++ "/" ++ endpoint)) with
  | HttpFailure _ => True
  | HttpResponse resp => status_code resp <> 200
  end.

(** The input widgets among the widgets shown. *)
Definition is_input_widget (wd : Widget) : bool :=
  match wd with
  | StCheckbox _ _ | StSlider _ _ _ _ | StTextInput _ _ | StNumberInput _ _ _ _ => true
  | _ => false
  end.

Definition is_checkbox (wd : Widget) : bool :=
  match wd with
  | StCheckbox _ _ => true
  | _ => false
  end.

(** The inputs a run of the strategy form collects from the user. *)
Definition form_inputs (env : Env) (u : UserInput) (w : World) : list Widget :=
  filter is_input_widget (widgets_of (events_of_run (new_strategy_form env u) w)).

(** The widgets of the strategy form, in the order the script shows them. *)
Definition form_widgets : list Widget :=
  [ StWrite "Add New Strategy";
    StTextInput "Spot Symbol" "BTC-USD";
    StTextInput "Future Symbol" "BTC-PERP";
    StNumberInput "Target Basis (%)" 0 5 (1 # 10);
    StNumberInput "Max Position Size" 0 1 (1 # 10);
    StNumberInput "Min Trade Size" 0 (1 # 100) (1 # 1000);
    StFormSubmitButton "Add Strategy" ].

(** The body the form posts for the user's values. *)
Definition posted_body (u : UserInput) : record :=
  strategy_data (in_spot_symbol u) (in_future_symbol u) (in_target_basis u)
    (in_max_position u) (in_min_trade_size u).

Definition create_request (u : UserInput) : Request :=
  POST (API_BASE_URL ++ "/strategies") (posted_body u).

(** The requests of the five fetches, in order. *)
Definition fetch_requests : list Request :=
  map (fun endpoint => GET (API_BASE_URL ++ "/" ++ endpoint)) endpoints.

(** The five inputs of the strategy form. *)
Definition strategy_inputs : list Widget :=
  [ StTextInput "Spot Symbol" "BTC-USD";
    StTextInput "Future Symbol" "BTC-PERP";
    StNumberInput "Target Basis (%)" 0 5 (1 # 10);
    StNumberInput "Max Position Size" 0 1 (1 # 10);
    StNumberInput "Min Trade Size" 0 (1 # 100) (1 # 1000) ].

(** The statement on the strategy form as the specification words it:
    one create request with the six fields and [is_active] true, the
    six fields collected from the form, an active flag among them. *)
Definition six_fields_collected (env : Env) (u : UserInput) (w : World) : Prop :=
  valid_numeric_fields u ->
  in_submit u = true ->
  (exists body,
      requests_of (events_of_run (new_strategy_form env u) w) =
      [POST (API_BASE_URL ++ "/strategies") body] /\
      dict_keys body = strategy_fields /\
      dict_get "is_active" body = Some (VBool true)) /\
  length (form_inputs env u w) = 6 /\
  existsb is_checkbox (form_inputs env u w) = true.

(** ** Well-formed records of the API *)

Definition is_str (v : option value) : bool :=
  match v with
  | Some (VStr _) => true
  | _ => false
  end.

Definition has_key (key : string) (r : record) : bool :=
  match dict_get key r with
  | Some _ => true
  | None => false
  end.

(** The string a record holds under a key. *)
Definition str_field (key : string) (r : record) : string :=
  match dict_get key r with
  | Some (VStr s) => s
  | _ => EmptyString
  end.

(** A snapshot record carries a timestamp, a basis and its two symbols,
    the symbols being strings. *)
Definition is_snapshot_record (r : record) : bool :=
  has_key "timestamp" r && has_key "basis_percent" r &&
  is_str (dict_get "spot_symbol" r) && is_str (dict_get "future_symbol" r).

(** A trade record carries the nine fields of the trades table. *)
Definition is_trade_record (r : record) : bool :=
  forallb (fun key => has_key key r) trade_columns.

(** [pd.to_datetime] accepts the column [key] of the records. *)
Definition column_parses (env : Env) (key : string) (rows : list record) : Prop :=
  exists parsed,
    pd_to_datetime env (map (dict_get_default key VNull) rows) = Ok parsed.

(** Lines 170-173 on a list of records: the frame with its derived
    columns. *)
Definition snapshots_frame (env : Env) (rows : list record) : res DataFrame :=
  snapshots_df <- pd_DataFrame (JList rows) ;;
  derive_snapshot_columns env snapshots_df.

(** The rows of a chart's input as the chart sees them: pair, time,
    basis. *)
Definition chart_rows (pairs times bases : Series) : list (value * (value * value)) :=
  combine pairs (combine times bases).

(** The points of the rows whose pair is [symbol_pair], in the order of
    the rows. *)
Definition points_of_pair (symbol_pair : value)
  (rows : list (value * (value * value))) : list (value * value) :=
  map snd (filter (fun row => value_eqb (fst row) symbol_pair) rows).

(** The column holds the two pairs [p] and [q] and nothing else. *)
Definition two_pairs (pairs : Series) (p q : string) : Prop :=
  p <> q /\
  In (VStr p) pairs /\
  In (VStr q) pairs /\
  Forall (fun v => v = VStr p \/ v = VStr q) pairs.

(** The rows of the positions frame as the chart sees them: side, then
    symbol and size. *)
Definition position_rows (sides symbols sizes : Series)
  : list (value * (value * value)) :=
  combine sides (combine symbols sizes).

(** The bars (symbol, size) of the rows whose side is [side], in the
    order of the rows. *)
Definition bars_of_side (side : string) (rows : list (value * (value * value)))
  : list (value * value) :=
  map snd (filter (fun row => eq_str (fst row) side) rows).

(** What a bar trace of the position chart must be: named after a
    side, holding the bars of the rows of that side, and green for long
    and red for short. *)
Definition bar_of_a_side (symbols sizes sides : Series) (tr : Trace) : Prop :=
  kind tr = Bar /\
  exists side : string,
    name tr = VStr side /\
    combine (xs tr) (ys tr) = bars_of_side side (position_rows sides symbols sizes) /\
    (side = "long"%string -> marker_color tr = Some "#00CC88"%string) /\
    (side = "short"%string -> marker_color tr = Some "#FF4444"%string).

(** A backend out of reach: every request raises, the exception naming
    the address asked for. *)
Definition request_url (r : Request) : string :=
  match r with
  | GET url => url
  | POST url _ => url
  end.

Definition backend_unreachable : list Event -> Request -> HttpOutcome :=
  fun _ r =>
    HttpFailure (Exn "ConnectionError" ("Max retries exceeded with url: " ++ request_url r)).

(** What the traces built by the model of [px.bar] are, by its columns. *)
Definition position_bar_ok (symbols sizes sides : Series) (tr : Trace) : Prop :=
  kind tr = Bar /\
  xs tr = series_take (series_eq_scalar sides (name tr)) symbols /\
  ys tr = series_take (series_eq_scalar sides (name tr)) sizes /\
  (name tr = VStr "long" -> marker_color tr = Some "#00CC88"%string) /\
  (name tr = VStr "short" -> marker_color tr = Some "#FF4444"%string).

(** The fetches among the requests of a run of the script. *)
Definition fetches_of_cycle (env : Env) (u : UserInput) (w : World) : list Request :=
  filter is_get (requests_of (events_of_run (script env u) w)).

(** The statement on a disabled auto-refresh as the specification words
    it: the render cycle issues no fetch. *)
Definition no_fetch_when_disabled (env : Env) (u : UserInput) (w : World) : Prop :=
  in_auto_refresh u = false ->
  fetches_of_cycle env u w = [].

(** The statement on the 5-second interval as the specification words
    it: the rerun is triggered exactly when at least 5 seconds have
    passed since the last refresh. *)
Definition refetch_from_five_seconds (env : Env) (u : UserInput) (w : World) : Prop :=
  forall last : Q,
    in_auto_refresh u = true ->
    in_refresh_interval u = 5%Z ->
    last_update w = Some last ->
    (fst (script env u w) = RerunRequested <-> (5 <= clock env (ticks w) - last)%Q).

(* ================================================================== *)
(** * Reasoning about runs *)
(* ================================================================== *)

Lemma bind_returned {A B : Type} (m : M A) (k : A -> M B) w a w1 :
  m w = (Returned a, w1) -> bind m k w = k a w1.
Proof. intros H. simpl. rewrite H. reflexivity. Qed.

Lemma bind_raised {A B : Type} (m : M A) (k : A -> M B) w e w1 :
  m w = (Raised e, w1) -> bind m k w = (Raised e, w1).
Proof. intros H. simpl. rewrite H. reflexivity. Qed.

Lemma bind_rerun {A B : Type} (m : M A) (k : A -> M B) w w1 :
  m w = (RerunRequested, w1) -> bind m k w = (RerunRequested, w1).
Proof. intros H. simpl. rewrite H. reflexivity. Qed.

Lemma requests_of_app l1 l2 :
  requests_of (l1 ++ l2) = requests_of l1 ++ requests_of l2.
Proof. unfold requests_of. apply flat_map_app. Qed.

Lemma resets_of_app l1 l2 :
  resets_of (l1 ++ l2) = resets_of l1 ++ resets_of l2.
Proof. unfold resets_of. apply flat_map_app. Qed.

Lemma widgets_of_app l1 l2 :
  widgets_of (l1 ++ l2) = widgets_of l1 ++ widgets_of l2.
Proof. unfold widgets_of. apply flat_map_app. Qed.

Lemma errors_of_app l1 l2 :
  errors_of (l1 ++ l2) = errors_of l1 ++ errors_of l2.
Proof. unfold errors_of. apply flat_map_app. Qed.

Lemma skipn_length_app {A : Type} (l evs : list A) :
  skipn (length l) (l ++ evs) = evs.
Proof. induction l as [| x l IH]; simpl; auto. Qed.

Lemma events_of_run_runs {A : Type} (m : M A) w r w' evs :
  runs m w r w' evs -> events_of_run m w = evs.
Proof.
  intros [Hrun Htr]. unfold events_of_run. rewrite Hrun. simpl.
  rewrite Htr. apply skipn_length_app.
Qed.

Lemma events_of_run_add {A : Type} (m : M A) w r evs :
  m w = (r, add_events w evs) -> events_of_run m w = evs.
Proof.
  intros H. apply (events_of_run_runs m w r (add_events w evs)).
  split; [exact H | reflexivity].
Qed.

Lemma add_events_nil w : add_events w [] = w.
Proof. destruct w. unfold add_events. simpl. rewrite app_nil_r. reflexivity. Qed.

Lemma add_events_add w l1 l2 :
  add_events (add_events w l1) l2 = add_events w (l1 ++ l2).
Proof. unfold add_events. simpl. rewrite app_assoc. reflexivity. Qed.

Lemma show_run wd w : show wd w = (Returned tt, add_events w [EvUI wd]).
Proof. reflexivity. Qed.

(** ** Passive code composes *)

Lemma passive_ret {A : Type} (a : A) : passive (ret a : M A).
Proof.
  intros w. exists (Returned a), w, []. unfold runs. simpl.
  rewrite app_nil_r. repeat split; auto; discriminate.
Qed.

Lemma passive_raise {A : Type} (e : exn) : passive (raise e : M A).
Proof.
  intros w. exists (Raised e), w, []. unfold runs, raise. simpl.
  rewrite app_nil_r. repeat split; auto; discriminate.
Qed.

Lemma passive_lift {A : Type} (r : res A) : passive (lift r).
Proof. destruct r; [apply passive_ret | apply passive_raise]. Qed.

Lemma passive_show wd : passive (show wd).
Proof.
  intros w. exists (Returned tt), (add_events w [EvUI wd]), [EvUI wd].
  unfold runs. simpl. repeat split; auto; discriminate.
Qed.

Lemma passive_time_time env : passive (time_time env).
Proof.
  intros w. eexists _, _, []. unfold runs, time_time. simpl.
  rewrite app_nil_r. repeat split; auto; discriminate.
Qed.

Lemma passive_bind {A B : Type} (m : M A) (k : A -> M B) :
  passive m -> (forall a, passive (k a)) -> passive (bind m k).
Proof.
  intros Hm Hk w.
  destruct (Hm w) as (r & w1 & evs1 & [Hrun Htr] & Hr & Hlu & Hreq & Hres).
  destruct r as [a | e |].
  - destruct (Hk a w1) as (r2 & w2 & evs2 & [Hrun2 Htr2] & Hr2 & Hlu2 & Hreq2 & Hres2).
    exists r2, w2, (evs1 ++ evs2). unfold runs.
    rewrite (bind_returned _ _ _ _ _ Hrun), Hrun2, Htr2, Htr, app_assoc.
    rewrite requests_of_app, resets_of_app, Hreq, Hreq2, Hres, Hres2.
    repeat split; auto. congruence.
  - exists (Raised e), w1, evs1. unfold runs.
    rewrite (bind_raised _ _ _ _ _ Hrun). repeat split; auto. discriminate.
  - contradiction Hr. reflexivity.
Qed.

Lemma passive_if {A : Type} (b : bool) (m1 m2 : M A) :
  passive m1 -> passive m2 -> passive (if b then m1 else m2).
Proof. destruct b; auto. Qed.

Ltac passive_tac :=
  repeat first
    [ apply passive_ret
    | apply passive_lift
    | apply passive_show
    | apply passive_time_time
    | apply passive_if
    | apply passive_bind; [| intros ? ] ].

Lemma passive_health_panel env health : passive (health_panel env health).
Proof. unfold health_panel, st_metric. passive_tac. Qed.

Lemma passive_metrics_panel env snapshots : passive (metrics_panel env snapshots).
Proof. unfold metrics_panel, st_metric. passive_tac. Qed.

Lemma passive_basis_panel env snapshots : passive (basis_panel env snapshots).
Proof.
  unfold basis_panel, st_subheader, st_info, st_plotly_chart. passive_tac.
Qed.

Lemma passive_positions_panel env positions : passive (positions_panel env positions).
Proof.
  unfold positions_panel, st_subheader, st_info, st_plotly_chart, st_dataframe.
  passive_tac.
Qed.

Lemma passive_strategies_panel strategies : passive (strategies_panel strategies).
Proof.
  unfold strategies_panel, st_subheader, st_info, st_dataframe. passive_tac.
Qed.

Lemma passive_trades_panel env trades : passive (trades_panel env trades).
Proof.
  unfold trades_panel, st_subheader, st_info, st_dataframe. passive_tac.
Qed.

(** Everything the script does after its five fetches is passive. *)
Lemma passive_render env health snapshots strategies positions trades :
  passive (render env health snapshots strategies positions trades).
Proof.
  unfold render.
  apply passive_bind; [apply passive_health_panel | intros _].
  apply passive_bind; [apply passive_metrics_panel | intros _].
  apply passive_bind; [apply passive_basis_panel | intros _].
  apply passive_bind; [apply passive_positions_panel | intros _].
  apply passive_bind; [apply passive_strategies_panel | intros _].
  apply passive_bind; [apply passive_trades_panel | intros _].
  passive_tac.
Qed.

(* ================================================================== *)
(** * The data fetcher *)
(* ================================================================== *)

(** What [fetch_data] does in each of its four cases. *)
Lemma fetch_data_cases env endpoint w :
  let url := (API_BASE_URL ++ "/" ++ endpoint)%string in
  match network env (trace w) (GET url) with
  | HttpFailure e =>
      fetch_data env endpoint w =
      (Returned (JList []),
       add_events w [EvRequest (GET url);
                     EvUI (StError ("Error fetching " ++ endpoint ++ ": " ++ str_exn e))])
  | HttpResponse resp =>
      if status_code resp =? 200
      then match json_body resp with
           | Ok j =>
               fetch_data env endpoint w =
               (Returned j, add_events w [EvRequest (GET url)])
           | Err e =>
               fetch_data env endpoint w =
               (Returned (JList []),
                add_events w
                  [EvRequest (GET url);
                   EvUI (StError ("Error fetching " ++ endpoint ++ ": " ++ str_exn e))])
           end
      else
        fetch_data env endpoint w =
        (Returned (JList []),
         add_events w
           [EvRequest (GET url);
            EvUI (StError ("Failed to fetch " ++ endpoint ++ ": "
                           ++ str_nat (status_code resp)))])
  end.
Proof.
  intros url. unfold fetch_data, try_except, requests_get, send.
  fold url. cbn -[String.append str_nat].
  destruct (network env (trace w) (GET url)) as [resp | e].
  - destruct (status_code resp =? 200) eqn:Hcode.
    + unfold response_json. destruct (json_body resp) as [j | e].
      * reflexivity.
      * cbn -[String.append str_nat]. unfold add_events.
        cbn -[String.append str_nat]. rewrite <- app_assoc. reflexivity.
    + cbn -[String.append str_nat]. unfold add_events.
      cbn -[String.append str_nat]. rewrite <- app_assoc. reflexivity.
  - cbn -[String.append str_nat]. unfold add_events.
    cbn -[String.append str_nat]. rewrite <- app_assoc. reflexivity.
Qed.

(** A fetch always returns, issues exactly one GET and leaves the
    session entry and the clock alone. *)
Lemma fetch_data_runs env endpoint w :
  exists j w' evs,
    runs (fetch_data env endpoint) w (Returned j) w' evs /\
    last_update w' = last_update w /\
    ticks w' = ticks w /\
    requests_of evs = [GET (API_BASE_URL ++ "/" ++ endpoint)] /\
    resets_of evs = [].
Proof.
  pose proof (fetch_data_cases env endpoint w) as H. cbv zeta in H.
  unfold runs.
  destruct (network env (trace w) (GET (API_BASE_URL ++ "/" ++ endpoint)))
    as [resp | e].
  - destruct (status_code resp =? 200).
    + destruct (json_body resp) as [j | e];
        rewrite H; eexists _, _, _; repeat split; reflexivity.
    + rewrite H; eexists _, _, _; repeat split; reflexivity.
  - rewrite H; eexists _, _, _; repeat split; reflexivity.
Qed.

(** C1.  A call of [fetch_data] never lets an exception (or anything
    but a normal return) pass; and when the request raises or the
    status is not 200, it returns the empty list, having issued its one
    GET and shown exactly one error message. *)
Theorem fetch_data_error_boundary :
  forall (env : Env) (endpoint : string) (w : World),
    (exists j w', fetch_data env endpoint w = (Returned j, w')) /\
    (fetch_fails env endpoint w ->
     exists msg,
       fetch_data env endpoint w =
       (Returned (JList []),
        add_events w [EvRequest (GET (API_BASE_URL ++ "/" ++ endpoint));
                      EvUI (StError msg)]) /\
       errors_of (events_of_run (fetch_data env endpoint) w) = [msg]).
Proof.
  intros env endpoint w.
  pose proof (fetch_data_cases env endpoint w) as H. cbv zeta in H.
  unfold fetch_fails.
  destruct (network env (trace w) (GET (API_BASE_URL ++ "/" ++ endpoint)))
    as [resp | e].
  - destruct (status_code resp =? 200) eqn:Hcode.
    + split.
      * destruct (json_body resp); eauto.
      * intros Hne. apply Nat.eqb_eq in Hcode. contradiction.
    + split; [eauto |]. intros _. eexists. split; [exact H |].
      rewrite (events_of_run_add _ _ _ _ H). reflexivity.
  - split; [eauto |]. intros _. eexists. split; [exact H |].
    rewrite (events_of_run_add _ _ _ _ H). reflexivity.
Qed.

Lemma fetch_data_error_boundary_witness :
  exists msg,
    fetch_data (env_of (clock_from 100) (backend_status 500)) "health" fresh_world =
    (Returned (JList []),
     add_events fresh_world
       [EvRequest (GET (API_BASE_URL ++ "/" ++ "health")); EvUI (StError msg)]) /\
    errors_of (events_of_run
                 (fetch_data (env_of (clock_from 100) (backend_status 500)) "health")
                 fresh_world) = [msg].
Proof.
  apply (proj2 (fetch_data_error_boundary
                  (env_of (clock_from 100) (backend_status 500)) "health" fresh_world)).
  unfold fetch_fails. simpl. discriminate.
Defined.

(* ================================================================== *)
(** * The strategy form *)
(* ================================================================== *)

(** What the submit branch does in each of its three cases. *)
Lemma submit_strategy_cases env body w :
  let req := POST (API_BASE_URL ++ "/strategies") body in
  submit_strategy env body w =
  (Returned tt,
   add_events w
     [EvRequest req;
      EvUI (match network env (trace w) req with
            | HttpFailure e => StError ("Error: " ++ str_exn e)
            | HttpResponse resp =>
                if status_code resp =? 201
                then StSuccess "Strategy added successfully!"
                else StError ("Failed to add strategy: " ++ text resp)
            end)]).
Proof.
  intros req.
  unfold submit_strategy, try_except, requests_post, send, st_error, st_success, show, emit.
  fold req. cbn -[String.append].
  destruct (network env (trace w) req) as [resp | e].
  - destruct (status_code resp =? 201);
      cbn -[String.append]; unfold add_events; cbn -[String.append];
      rewrite <- app_assoc; reflexivity.
  - cbn -[String.append]. unfold add_events. cbn -[String.append].
    rewrite <- app_assoc. reflexivity.
Qed.

(** The form shows its seven widgets, then posts if the button was
    clicked. *)
Lemma new_strategy_form_run env u w :
  new_strategy_form env u w =
  if in_submit u
  then submit_strategy env (posted_body u) (add_events w (map EvUI form_widgets))
  else (Returned tt, add_events w (map EvUI form_widgets)).
Proof.
  unfold new_strategy_form, st_text_input, st_number_input, st_form_submit_button.
  cbn -[submit_strategy]. unfold add_events. cbn -[submit_strategy].
  repeat rewrite <- app_assoc. cbn -[submit_strategy].
  destruct (in_submit u); reflexivity.
Qed.

Lemma new_strategy_form_events env u w :
  exists shown,
    is_input_widget shown = false /\
    new_strategy_form env u w =
    (Returned tt,
     add_events w (map EvUI form_widgets ++
                   if in_submit u then [EvRequest (create_request u); EvUI shown] else [])).
Proof.
  rewrite new_strategy_form_run. destruct (in_submit u).
  - rewrite submit_strategy_cases. cbv zeta. rewrite add_events_add.
    eexists. split; [| reflexivity].
    destruct (network env _ _) as [resp | e]; [| reflexivity].
    destruct (status_code resp =? 201); reflexivity.
  - exists (StWrite ""). rewrite app_nil_r. split; reflexivity.
Qed.

Lemma widgets_of_map_EvUI ws : widgets_of (map EvUI ws) = ws.
Proof. induction ws as [| wd ws IH]; simpl; congruence. Qed.

Lemma requests_of_map_EvUI ws : requests_of (map EvUI ws) = [].
Proof. induction ws as [| wd ws IH]; simpl; auto. Qed.

Lemma resets_of_map_EvUI ws : resets_of (map EvUI ws) = [].
Proof. induction ws as [| wd ws IH]; simpl; auto. Qed.

(** The inputs the form shows do not depend on the run: they are the
    two text inputs and the three number inputs. *)
Lemma form_inputs_are_five env u w : form_inputs env u w = strategy_inputs.
Proof.
  unfold form_inputs.
  destruct (new_strategy_form_events env u w) as (shown & Hshown & H).
  rewrite (events_of_run_add _ _ _ _ H), widgets_of_app, widgets_of_map_EvUI.
  rewrite filter_app.
  destruct (in_submit u); simpl; [rewrite Hshown |]; reflexivity.
Qed.

(** C4, as amended.  A submission of the form with valid numeric fields
    issues exactly one create request.  Its body has the six strategy
    fields, [is_active] being true; the other five carry the values of
    the form's five inputs, and the form has no input for the active
    flag. *)
Theorem strategy_form_posts_once :
  forall (env : Env) (u : UserInput) (w : World),
    valid_numeric_fields u ->
    in_submit u = true ->
    requests_of (events_of_run (new_strategy_form env u) w) =
    [POST (API_BASE_URL ++ "/strategies") (posted_body u)] /\
    dict_keys (posted_body u) = strategy_fields /\
    dict_get "is_active" (posted_body u) = Some (VBool true) /\
    dict_get "spot_symbol" (posted_body u) = Some (VStr (in_spot_symbol u)) /\
    dict_get "future_symbol" (posted_body u) = Some (VStr (in_future_symbol u)) /\
    dict_get "target_basis" (posted_body u) = Some (VNum (in_target_basis u)) /\
    dict_get "max_position" (posted_body u) = Some (VNum (in_max_position u)) /\
    dict_get "min_trade_size" (posted_body u) = Some (VNum (in_min_trade_size u)) /\
    form_inputs env u w = strategy_inputs /\
    existsb is_checkbox (form_inputs env u w) = false.
Proof.
  intros env u w _ Hsubmit.
  split.
  - destruct (new_strategy_form_events env u w) as (shown & _ & H).
    rewrite (events_of_run_add _ _ _ _ H), Hsubmit.
    rewrite requests_of_app, requests_of_map_EvUI. reflexivity.
  - rewrite form_inputs_are_five. repeat split; reflexivity.
Qed.

Lemma strategy_form_posts_once_witness :
  requests_of
    (events_of_run
       (new_strategy_form (env_of (clock_from 100) (backend_status 201))
          (with_submit true default_input))
       fresh_world) =
  [POST (API_BASE_URL ++ "/strategies") (posted_body (with_submit true default_input))].
Proof.
  apply (strategy_form_posts_once
           (env_of (clock_from 100) (backend_status 201))
           (with_submit true default_input) fresh_world).
  - unfold valid_numeric_fields. simpl. repeat split; discriminate.
  - reflexivity.
Defined.

(** C4 as worded fails: the form collects five fields, not six, and
    none of its inputs is an active flag. *)
Lemma six_fields_collected_fails :
  ~ six_fields_collected (env_of (clock_from 100) (backend_status 201))
      (with_submit true default_input) fresh_world.
Proof.
  intros H.
  assert (Hvalid : valid_numeric_fields (with_submit true default_input)).
  { unfold valid_numeric_fields. simpl. repeat split; discriminate. }
  destruct (H Hvalid eq_refl) as (_ & Hlen & _).
  vm_compute in Hlen. discriminate Hlen.
Qed.

(** C10.  When the create request of a submission raises, the form
    returns normally, having shown the exception's text as an error
    after its widgets. *)
Theorem submission_failure_is_reported :
  forall (env : Env) (u : UserInput) (w : World) (e : exn),
    in_submit u = true ->
    network env (trace w ++ map EvUI form_widgets) (create_request u) = HttpFailure e ->
    new_strategy_form env u w =
    (Returned tt,
     add_events w
       (map EvUI form_widgets ++
        [EvRequest (create_request u); EvUI (StError ("Error: " ++ str_exn e))])).
Proof.
  intros env u w e Hsubmit Hnet.
  rewrite new_strategy_form_run, Hsubmit, submit_strategy_cases. cbv zeta.
  rewrite add_events_add. unfold create_request in Hnet.
  change (trace (add_events w (map EvUI form_widgets)))
    with (trace w ++ map EvUI form_widgets).
  rewrite Hnet. reflexivity.
Qed.

Lemma submission_failure_is_reported_witness :
  new_strategy_form (env_of (clock_from 100) backend_down)
    (with_submit true default_input) fresh_world =
  (Returned tt,
   add_events fresh_world
     (map EvUI form_widgets ++
      [EvRequest (create_request (with_submit true default_input));
       EvUI (StError ("Error: " ++ str_exn (Exn "ConnectionError" "Connection refused")))])).
Proof.
  apply (submission_failure_is_reported
           (env_of (clock_from 100) backend_down)
           (with_submit true default_input) fresh_world
           (Exn "ConnectionError" "Connection refused")).
  - reflexivity.
  - reflexivity.
Defined.

(* ================================================================== *)
(** * The refresh scheduler and the render cycle *)
(* ================================================================== *)

Lemma Qgt_bool_iff (x y : Q) : Qgt_bool x y = true <-> (y < x)%Q.
Proof.
  unfold Qgt_bool. rewrite negb_true_iff. split.
  - intros H. apply Qnot_le_lt. intros Hle.
    apply Qle_bool_iff in Hle. congruence.
  - intros H. destruct (Qle_bool x y) eqn:E; [| reflexivity].
    apply Qle_bool_iff in E. exfalso. exact (Qlt_not_le _ _ H E).
Qed.

(** With auto-refresh off the scheduler reads the clock only to fill an
    empty session entry; it never asks for a rerun. *)
Lemma scheduler_disabled env interval w :
  refresh_scheduler env false interval w =
  (Returned tt,
   match last_update w with
   | Some _ => w
   | None =>
       {| last_update := Some (clock env (ticks w));
          ticks := S (ticks w);
          trace := trace w ++ [EvSetLastUpdate (clock env (ticks w))] |}
   end).
Proof. destruct w as [[t |] n tr]; reflexivity. Qed.

(** With auto-refresh on and a last refresh recorded, the scheduler
    reads the clock, and asks for a rerun exactly when the time elapsed
    is greater than the interval; it then records the next reading. *)
Lemma scheduler_enabled env interval w last :
  last_update w = Some last ->
  refresh_scheduler env true interval w =
  if Qgt_bool (clock env (ticks w) - last) (inject_Z interval)
  then (RerunRequested,
        {| last_update := Some (clock env (S (ticks w)));
           ticks := S (S (ticks w));
           trace := trace w ++ [EvSetLastUpdate (clock env (S (ticks w)))] |})
  else (Returned tt,
        {| last_update := Some last; ticks := S (ticks w); trace := trace w |}).
Proof.
  destruct w as [lu n tr]. simpl. intros ->.
  unfold refresh_scheduler, session_has_last_update, session_get_last_update,
    session_set_last_update, time_time, st_rerun.
  cbn -[Qgt_bool Qminus inject_Z].
  destruct (Qgt_bool (clock env n - last) (inject_Z interval)); reflexivity.
Qed.

Lemma page_header_run w :
  exists ws, page_header w = (Returned tt, add_events w (map EvUI ws)).
Proof.
  eexists [_; _; _; _]. unfold page_header, show, emit, add_events. simpl.
  repeat rewrite <- app_assoc. reflexivity.
Qed.

(** The sidebar returns the two scheduler settings as the user set
    them; its only request is the form's, if the form was submitted. *)
Lemma sidebar_run env u w :
  exists evs,
    sidebar env u w =
    (Returned (in_auto_refresh u, in_refresh_interval u), add_events w evs) /\
    requests_of evs = (if in_submit u then [create_request u] else []) /\
    resets_of evs = [].
Proof.
  pose (pre := [StHeader "Control Panel";
                StCheckbox "Auto Refresh" true;
                StSlider "Refresh Interval (seconds)" 1 60 5;
                StSubheader "Strategy Management"]).
  destruct (new_strategy_form_events env u (add_events w (map EvUI pre)))
    as (shown & _ & Hform).
  rewrite add_events_add in Hform.
  eexists. split; [| split].
  - transitivity
      (bind (new_strategy_form env u)
            (fun _ => ret (in_auto_refresh u, in_refresh_interval u))
            (add_events w (map EvUI pre))).
    + unfold sidebar, st_checkbox, st_slider, st_subheader, show, emit, add_events.
      cbn -[new_strategy_form]. repeat rewrite <- app_assoc. reflexivity.
    + rewrite (bind_returned _ _ _ _ _ Hform). reflexivity.
  - rewrite !requests_of_app, !requests_of_map_EvUI.
    destruct (in_submit u); reflexivity.
  - rewrite !resets_of_app, !resets_of_map_EvUI.
    destruct (in_submit u); reflexivity.
Qed.

(** The five fetches and the rendering: five GETs in the order of the
    script, no rerun, the session entry untouched. *)
Lemma fetch_and_render_runs env w :
  exists r w' evs,
    runs (fetch_and_render env) w r w' evs /\
    r <> RerunRequested /\
    last_update w' = last_update w /\
    requests_of evs = fetch_requests /\
    resets_of evs = [].
Proof.
  unfold fetch_and_render.
  destruct (fetch_data_runs env "health" w)
    as (j1 & w1 & e1 & [R1 T1] & L1 & _ & Q1 & S1).
  destruct (fetch_data_runs env "basis/snapshots" w1)
    as (j2 & w2 & e2 & [R2 T2] & L2 & _ & Q2 & S2).
  destruct (fetch_data_runs env "strategies" w2)
    as (j3 & w3 & e3 & [R3 T3] & L3 & _ & Q3 & S3).
  destruct (fetch_data_runs env "positions" w3)
    as (j4 & w4 & e4 & [R4 T4] & L4 & _ & Q4 & S4).
  destruct (fetch_data_runs env "trades" w4)
    as (j5 & w5 & e5 & [R5 T5] & L5 & _ & Q5 & S5).
  destruct (passive_render env j1 j2 j3 j4 j5 w5)
    as (r & w6 & e6 & [R6 T6] & Hr & L6 & Q6 & S6).
  exists r, w6, (e1 ++ e2 ++ e3 ++ e4 ++ e5 ++ e6). split; [split |].
  - rewrite (bind_returned _ _ _ _ _ R1), (bind_returned _ _ _ _ _ R2),
      (bind_returned _ _ _ _ _ R3), (bind_returned _ _ _ _ _ R4),
      (bind_returned _ _ _ _ _ R5). exact R6.
  - rewrite T6, T5, T4, T3, T2, T1. repeat rewrite <- app_assoc. reflexivity.
  - split; [exact Hr |]. split; [congruence |].
    rewrite !requests_of_app, !resets_of_app.
    rewrite Q1, Q2, Q3, Q4, Q5, Q6, S1, S2, S3, S4, S5, S6.
    split; reflexivity.
Qed.

(** A run of the script up to the scheduler. *)
Lemma script_until_scheduler env u w :
  exists evs,
    requests_of evs = (if in_submit u then [create_request u] else []) /\
    resets_of evs = [] /\
    script env u w =
    bind (refresh_scheduler env (in_auto_refresh u) (in_refresh_interval u))
         (fun _ => fetch_and_render env) (add_events w evs).
Proof.
  destruct (page_header_run w) as [ws Hh].
  destruct (sidebar_run env u (add_events w (map EvUI ws))) as (evs & Hs & Hq & Hr).
  rewrite add_events_add in Hs.
  exists (map EvUI ws ++ evs). split; [| split].
  - rewrite requests_of_app, requests_of_map_EvUI. exact Hq.
  - rewrite resets_of_app, resets_of_map_EvUI. exact Hr.
  - unfold script.
    rewrite (bind_returned _ _ _ _ _ Hh), (bind_returned _ _ _ _ _ Hs).
    reflexivity.
Qed.

(** A run whose scheduler lets it pass goes on to the five fetches. *)
Lemma script_after_scheduler env u w w0 w1 :
  script env u w =
  bind (refresh_scheduler env (in_auto_refresh u) (in_refresh_interval u))
       (fun _ => fetch_and_render env) w0 ->
  refresh_scheduler env (in_auto_refresh u) (in_refresh_interval u) w0
  = (Returned tt, w1) ->
  exists r w2 evs2,
    script env u w = (r, w2) /\
    r <> RerunRequested /\
    trace w2 = trace w1 ++ evs2 /\
    last_update w2 = last_update w1 /\
    requests_of evs2 = fetch_requests /\
    resets_of evs2 = [].
Proof.
  intros Hscript Hsched.
  destruct (fetch_and_render_runs env w1) as (r & w2 & evs2 & [R T] & Hr & L & Q & S).
  exists r, w2, evs2. rewrite Hscript, (bind_returned _ _ _ _ _ Hsched).
  repeat split; assumption.
Qed.

Lemma events_of_run_trace {A : Type} (m : M A) w r w' evs :
  m w = (r, w') -> trace w' = trace w ++ evs -> events_of_run m w = evs.
Proof. intros H T. apply (events_of_run_runs m w r w'). split; assumption. Qed.

Lemma filter_is_get_fetches (posted : list Request) :
  Forall (fun r => is_get r = false) posted ->
  filter is_get (posted ++ fetch_requests) = fetch_requests.
Proof.
  intros H. rewrite filter_app.
  replace (filter is_get posted) with (@nil Request); [reflexivity |].
  induction H as [| r l Hr _ IH]; simpl; [reflexivity |].
  rewrite Hr. exact IH.
Qed.

Lemma posted_is_not_get (u : UserInput) :
  Forall (fun r => is_get r = false)
    (if in_submit u then [create_request u] else []).
Proof. destruct (in_submit u); repeat constructor. Qed.

(** C2, as amended.  In a render cycle with auto-refresh disabled the
    scheduler asks for no rerun and leaves a recorded last-refresh time
    as it is (an empty session entry is filled with the clock reading),
    whatever time has passed; the cycle goes on to issue its five
    fetches, once each and in the order of the script. *)
Theorem disabled_auto_refresh_cycle :
  forall (env : Env) (u : UserInput) (w : World),
    in_auto_refresh u = false ->
    fst (script env u w) <> RerunRequested /\
    last_update (snd (script env u w)) =
      match last_update w with
      | Some last => Some last
      | None => Some (clock env (ticks w))
      end /\
    resets_of (events_of_run (script env u) w) =
      match last_update w with
      | Some _ => []
      | None => [clock env (ticks w)]
      end /\
    fetches_of_cycle env u w = fetch_requests.
Proof.
  intros env u w Hoff.
  destruct (script_until_scheduler env u w) as (evs & Hq & Hs & Hscript).
  rewrite Hoff in Hscript.
  pose proof (scheduler_disabled env (in_refresh_interval u) (add_events w evs)) as Hsched.
  rewrite <- Hoff in Hscript, Hsched at 1.
  destruct (script_after_scheduler env u w _ _ Hscript Hsched)
    as (r & w2 & evs2 & Hrun & Hr & T & L & Q2 & S2).
  unfold fetches_of_cycle. rewrite Hrun. simpl fst. simpl snd.
  split; [exact Hr |].
  simpl last_update in *. simpl ticks in *.
  destruct (last_update w) as [last |] eqn:Hlast.
  - simpl in T, L.
    rewrite (events_of_run_trace _ _ _ _ (evs ++ evs2) Hrun)
      by (rewrite T; symmetry; apply app_assoc).
    rewrite L, Hlast, resets_of_app, requests_of_app, Hs, S2, Hq, Q2.
    repeat split. apply filter_is_get_fetches, posted_is_not_get.
  - simpl in T, L.
    rewrite (events_of_run_trace _ _ _ _
               (evs ++ [EvSetLastUpdate (clock env (ticks w))] ++ evs2) Hrun)
      by (rewrite T; repeat rewrite <- app_assoc; reflexivity).
    rewrite L, !resets_of_app, !requests_of_app, Hs, S2, Hq, Q2.
    repeat split. simpl. apply filter_is_get_fetches, posted_is_not_get.
Qed.

Lemma disabled_auto_refresh_cycle_witness :
  fetches_of_cycle (env_of (clock_from 100) (backend_status 200))
    (with_auto_refresh false default_input) (world_at 0) = fetch_requests.
Proof.
  apply (disabled_auto_refresh_cycle
           (env_of (clock_from 100) (backend_status 200))
           (with_auto_refresh false default_input) (world_at 0)).
  reflexivity.
Defined.

(** C2 as worded fails: with auto-refresh disabled, a hundred seconds
    after the last refresh, the cycle issues its fetches all the same. *)
Lemma no_fetch_when_disabled_fails :
  ~ no_fetch_when_disabled (env_of (clock_from 100) (backend_status 200))
      (with_auto_refresh false default_input) (world_at 0).
Proof.
  intros H. specialize (H eq_refl). vm_compute in H. discriminate H.
Qed.

(** With auto-refresh on, the run of the script in its two cases. *)
Lemma enabled_auto_refresh_cycle env u w last :
  in_auto_refresh u = true ->
  last_update w = Some last ->
  if Qgt_bool (clock env (ticks w) - last) (inject_Z (in_refresh_interval u))
  then
    fst (script env u w) = RerunRequested /\
    last_update (snd (script env u w)) = Some (clock env (S (ticks w))) /\
    ticks (snd (script env u w)) = S (S (ticks w)) /\
    resets_of (events_of_run (script env u) w) = [clock env (S (ticks w))] /\
    fetches_of_cycle env u w = []
  else
    fst (script env u w) <> RerunRequested /\
    last_update (snd (script env u w)) = Some last /\
    resets_of (events_of_run (script env u) w) = [] /\
    fetches_of_cycle env u w = fetch_requests.
Proof.
  intros Hon Hlast.
  destruct (script_until_scheduler env u w) as (evs & Hq & Hs & Hscript).
  assert (Hlast0 : last_update (add_events w evs) = Some last) by exact Hlast.
  pose proof (scheduler_enabled env (in_refresh_interval u) _ _ Hlast0) as Hsched.
  simpl ticks in Hsched. simpl trace in Hsched.
  rewrite <- Hon in Hsched at 1.
  unfold fetches_of_cycle.
  destruct (Qgt_bool (clock env (ticks w) - last) (inject_Z (in_refresh_interval u))).
  - rewrite (bind_rerun _ _ _ _ Hsched) in Hscript.
    rewrite (events_of_run_trace _ _ _ _
               (evs ++ [EvSetLastUpdate (clock env (S (ticks w)))]) Hscript)
      by (simpl; symmetry; apply app_assoc).
    rewrite Hscript, resets_of_app, requests_of_app, Hs, Hq. simpl.
    repeat split. destruct (in_submit u); reflexivity.
  - destruct (script_after_scheduler env u w _ _ Hscript Hsched)
      as (r & w2 & evs2 & Hrun & Hr & T & L & Q2 & S2).
    simpl in T, L.
    rewrite (events_of_run_trace _ _ _ _ (evs ++ evs2) Hrun)
      by (rewrite T; symmetry; apply app_assoc).
    rewrite Hrun, resets_of_app, requests_of_app, Hs, S2, Hq, Q2. simpl fst. simpl snd.
    repeat split; auto. apply filter_is_get_fetches, posted_is_not_get.
Qed.

(** C3, as amended.  In a render cycle with auto-refresh enabled, an
    interval of 5 seconds and a last refresh recorded, the rerun is
    triggered exactly when more than 5 seconds have passed since the
    last refresh.  A trigger writes the last-refresh time exactly once,
    the value being the next clock reading, and ends the cycle before
    any fetch; the cycle Streamlit then runs issues the five fetches,
    unless more than 5 seconds have passed again.  Without a trigger
    the time is not written and the cycle issues the five fetches. *)
Theorem refetch_after_five_seconds :
  forall (env : Env) (u : UserInput) (w : World) (last : Q),
    in_auto_refresh u = true ->
    in_refresh_interval u = 5%Z ->
    last_update w = Some last ->
    let elapsed := (clock env (ticks w) - last)%Q in
    let w' := snd (script env u w) in
    (fst (script env u w) = RerunRequested <-> (5 < elapsed)%Q) /\
    ((5 < elapsed)%Q ->
     resets_of (events_of_run (script env u) w) = [clock env (S (ticks w))] /\
     last_update w' = Some (clock env (S (ticks w))) /\
     fetches_of_cycle env u w = [] /\
     (~ (5 < clock env (ticks w') - clock env (S (ticks w)))%Q ->
      fst (script env u w') <> RerunRequested /\
      fetches_of_cycle env u w' = fetch_requests)) /\
    (~ (5 < elapsed)%Q ->
     resets_of (events_of_run (script env u) w) = [] /\
     last_update w' = Some last /\
     fetches_of_cycle env u w = fetch_requests).
Proof.
  intros env u w last Hon Hint Hlast elapsed w'.
  pose proof (enabled_auto_refresh_cycle env u w last Hon Hlast) as H.
  rewrite Hint in H. fold elapsed in H.
  destruct (Qgt_bool elapsed (inject_Z 5)) eqn:Hgt.
  - apply Qgt_bool_iff in Hgt.
    destruct H as (Hr & Hl & Ht & Hres & Hf).
    split; [split; auto |]. split.
    + intros _. repeat split; auto.
      * pose proof (enabled_auto_refresh_cycle env u w' _ Hon Hl) as H2.
        rewrite Hint in H2.
        destruct (Qgt_bool _ _) eqn:Hgt2; [| tauto].
        apply Qgt_bool_iff in Hgt2. contradiction.
      * pose proof (enabled_auto_refresh_cycle env u w' _ Hon Hl) as H2.
        rewrite Hint in H2.
        destruct (Qgt_bool _ _) eqn:Hgt2; [| tauto].
        apply Qgt_bool_iff in Hgt2. contradiction.
    + intros Hn. contradiction.
  - assert (Hn : ~ (5 < elapsed)%Q).
    { intros Hlt. apply Qgt_bool_iff in Hlt.
      change (Qgt_bool elapsed (inject_Z 5) = true) in Hlt.
      rewrite Hgt in Hlt. discriminate Hlt. }
    destruct H as (Hr & Hl & Hres & Hf).
    split; [split; [intros E; contradiction | intros Hlt; contradiction] |].
    split; [intros Hlt; contradiction |].
    intros _. repeat split; auto.
Qed.

Lemma refetch_after_five_seconds_witness :
  fst (script (env_of (clock_from 100) (backend_status 200)) default_input (world_at 94))
  = RerunRequested <->
  (5 < clock (env_of (clock_from 100) (backend_status 200)) (ticks (world_at 94)) - 94)%Q.
Proof.
  exact (proj1 (refetch_after_five_seconds
                  (env_of (clock_from 100) (backend_status 200))
                  default_input (world_at 94) 94 eq_refl eq_refl eq_refl)).
Defined.

(** C3 as worded fails: exactly 5 seconds after the last refresh no
    rerun is asked for. *)
Lemma refetch_from_five_seconds_fails :
  ~ refetch_from_five_seconds (env_of (clock_from 100) (backend_status 200))
      default_input (world_at 95).
Proof.
  intros H.
  destruct (H 95%Q eq_refl eq_refl eq_refl) as [_ Hback].
  assert (Hrerun : fst (script (env_of (clock_from 100) (backend_status 200))
                          default_input (world_at 95)) = RerunRequested).
  { apply Hback. unfold Qle. simpl. lia. }
  vm_compute in Hrerun. discriminate Hrerun.
Qed.

(* ================================================================== *)
(** * The basis panel *)
(* ================================================================== *)

(** C7.  With an empty snapshots list the basis panel shows, after its
    heading, the placeholder message and nothing else: no chart. *)
Theorem empty_snapshots_placeholder :
  forall (env : Env) (w : World),
    basis_panel env (JList []) w =
    (Returned tt,
     add_events w [EvUI (StSubheader "📈 Basis Analysis");
                   EvUI (StInfo "No basis data available yet")]) /\
    infos_of (events_of_run (basis_panel env (JList [])) w)
    = ["No basis data available yet"] /\
    charts_of (events_of_run (basis_panel env (JList [])) w) = [].
Proof.
  intros env w.
  assert (H : basis_panel env (JList []) w =
              (Returned tt,
               add_events w [EvUI (StSubheader "📈 Basis Analysis");
                             EvUI (StInfo "No basis data available yet")])).
  { unfold basis_panel, st_subheader, st_info, show, emit, add_events. simpl.
    rewrite <- app_assoc. reflexivity. }
  split; [exact H |].
  rewrite (events_of_run_add _ _ _ _ H). split; reflexivity.
Qed.

(* ================================================================== *)
(** * Frames built from records *)
(* ================================================================== *)

Lemma string_append_assoc (a b c : string) :
  ((a ++ b) ++ c = a ++ (b ++ c))%string.
Proof. induction a as [| ch a IH]; simpl; [reflexivity | rewrite IH; reflexivity]. Qed.

Lemma existsb_eqb_In (k : string) (l : list string) :
  existsb (String.eqb k) l = true <-> In k l.
Proof.
  rewrite existsb_exists. split.
  - intros (x & Hx & E). apply String.eqb_eq in E. subst. exact Hx.
  - intros H. exists k. split; [exact H | apply String.eqb_refl].
Qed.

Lemma unique_keys_from_In (l seen : list string) (k : string) :
  In k l -> ~ In k seen -> In k (unique_keys_from seen l).
Proof.
  revert seen. induction l as [| k0 l IH]; intros seen Hin Hseen; simpl in *.
  - contradiction.
  - destruct (existsb (String.eqb k0) seen) eqn:E.
    + apply existsb_eqb_In in E.
      destruct Hin as [-> | Hin]; [contradiction |]. apply IH; assumption.
    + destruct (String.eqb_spec k0 k) as [-> | Hne]; [left; reflexivity |].
      right. destruct Hin as [E' | Hin]; [contradiction |].
      apply IH; [exact Hin |]. intros [E' | Hs]; [contradiction | contradiction].
Qed.

Lemma assoc_get_map_keys {A : Type} (f : string -> A) (keys : list string) (k : string) :
  In k keys -> assoc_get k (map (fun k' => (k', f k')) keys) = Some (f k).
Proof.
  induction keys as [| k0 keys IH]; intros Hin; simpl in *; [contradiction |].
  destruct (String.eqb_spec k0 k) as [-> | Hne]; [reflexivity |].
  destruct Hin as [E | Hin]; [contradiction | auto].
Qed.

Lemma dict_get_key (k : string) (r : record) (v : value) :
  dict_get k r = Some v -> In k (dict_keys r).
Proof.
  induction r as [| [k0 v0] r IH]; simpl; [discriminate |].
  destruct (String.eqb_spec k0 k) as [-> | Hne]; auto.
Qed.

(** A key that some record has is a column of the frame, holding the
    key's value in every record. *)
Lemma records_frame_getitem (rows : list record) (k : string) (r : record) :
  In r rows -> has_key k r = true ->
  df_getitem k (records_frame rows) = Ok (map (dict_get_default k VNull) rows).
Proof.
  intros Hr Hk. unfold df_getitem, records_frame. simpl.
  rewrite (assoc_get_map_keys (fun k' => map (dict_get_default k' VNull) rows));
    [reflexivity |].
  apply unique_keys_from_In; [| intros []].
  apply in_concat. exists (dict_keys r). split; [apply in_map; exact Hr |].
  unfold has_key in Hk. destruct (dict_get k r) eqn:E; [| discriminate].
  exact (dict_get_key _ _ _ E).
Qed.

Lemma assoc_get_set_eq {A : Type} (k : string) (a : A) (l : list (string * A)) :
  assoc_get k (assoc_set k a l) = Some a.
Proof.
  induction l as [| [k0 v0] l IH]; simpl.
  - rewrite String.eqb_refl. reflexivity.
  - destruct (String.eqb_spec k0 k) as [-> | Hne]; simpl.
    + rewrite String.eqb_refl. reflexivity.
    + destruct (String.eqb_spec k0 k); [contradiction | exact IH].
Qed.

Lemma assoc_get_set_neq {A : Type} (k k' : string) (a : A) (l : list (string * A)) :
  k <> k' -> assoc_get k' (assoc_set k a l) = assoc_get k' l.
Proof.
  intros Hne. induction l as [| [k0 v0] l IH]; simpl.
  - destruct (String.eqb_spec k k'); [contradiction | reflexivity].
  - destruct (String.eqb_spec k0 k) as [-> | Hne0]; simpl.
    + destruct (String.eqb_spec k k'); [contradiction | reflexivity].
    + destruct (String.eqb_spec k0 k'); [reflexivity | exact IH].
Qed.

Lemma df_setitem_ok (k : string) (s : Series) (df : DataFrame) :
  length s = nrows df ->
  df_setitem k s df = Ok {| nrows := nrows df; columns := assoc_set k s (columns df) |}.
Proof. intros H. unfold df_setitem. rewrite H, Nat.eqb_refl. reflexivity. Qed.

Lemma mapM_res_length {A B : Type} (f : A -> res B) (l : list A) (l' : list B) :
  mapM_res f l = Ok l' -> length l' = length l.
Proof.
  revert l'. induction l as [| a l IH]; intros l' H; simpl in H.
  - injection H as <-. reflexivity.
  - destruct (f a); [| discriminate].
    destruct (mapM_res f l); [| discriminate].
    injection H as <-. simpl. f_equal. apply IH. reflexivity.
Qed.

Lemma mapM_res_skipn {A B : Type} (f : A -> res B) (n : nat) (l : list A) (l' : list B) :
  mapM_res f l = Ok l' -> mapM_res f (skipn n l) = Ok (skipn n l').
Proof.
  revert l l'. induction n as [| n IH]; intros l l' H; [exact H |].
  destruct l as [| a l]; simpl in H.
  - injection H as <-. reflexivity.
  - destruct (f a); [| discriminate].
    destruct (mapM_res f l) eqn:E; [| discriminate].
    injection H as <-. simpl. apply IH. exact E.
Qed.

(** Adding a string to a column of strings, and two columns of strings. *)
Lemma series_add_scalar_strings {A : Type} (f : A -> string) (c : string) (l : list A) :
  series_add_scalar (map (fun a => VStr (f a)) l) (VStr c)
  = Ok (map (fun a => VStr (f a ++ c)) l).
Proof.
  unfold series_add_scalar. induction l as [| a l IH]; simpl; [reflexivity |].
  rewrite IH. reflexivity.
Qed.

Lemma series_add_strings {A : Type} (f g : A -> string) (l : list A) :
  series_add (map (fun a => VStr (f a)) l) (map (fun a => VStr (g a)) l)
  = Ok (map (fun a => VStr (f a ++ g a)) l).
Proof.
  induction l as [| a l IH]; simpl; [reflexivity |]. rewrite IH. reflexivity.
Qed.

Lemma string_column (key : string) (rows : list record) :
  Forall (fun r => is_str (dict_get key r) = true) rows ->
  map (dict_get_default key VNull) rows = map (fun r => VStr (str_field key r)) rows.
Proof.
  intros H. apply map_ext_in. intros r Hr.
  rewrite Forall_forall in H. specialize (H r Hr).
  unfold dict_get_default, str_field.
  destruct (dict_get key r) as [[] |]; simpl in H; try discriminate. reflexivity.
Qed.

Lemma df_getitem_set_eq (k : string) (s : Series) (n : nat) (cols : list (string * Series)) :
  df_getitem k {| nrows := n; columns := assoc_set k s cols |} = Ok s.
Proof. unfold df_getitem. simpl. rewrite assoc_get_set_eq. reflexivity. Qed.

Lemma df_getitem_set_neq (k k' : string) (s : Series) (df : DataFrame) :
  k <> k' ->
  df_getitem k' {| nrows := nrows df; columns := assoc_set k s (columns df) |}
  = df_getitem k' df.
Proof. intros H. unfold df_getitem. simpl. rewrite assoc_get_set_neq; auto. Qed.

Lemma res_bind_ok {A B : Type} (a : A) (k : A -> res B) : bind (Ok a) k = k a.
Proof. reflexivity. Qed.

Lemma snapshot_records_fields (rows : list record) :
  forallb is_snapshot_record rows = true ->
  Forall (fun r => has_key "timestamp" r = true) rows /\
  Forall (fun r => has_key "basis_percent" r = true) rows /\
  Forall (fun r => is_str (dict_get "spot_symbol" r) = true) rows /\
  Forall (fun r => is_str (dict_get "future_symbol" r) = true) rows.
Proof.
  intros H. rewrite forallb_forall in H.
  repeat split; apply Forall_forall; intros r Hr; specialize (H r Hr);
    unfold is_snapshot_record in H; rewrite !andb_true_iff in H; tauto.
Qed.

Lemma is_str_has_key (key : string) (r : record) :
  is_str (dict_get key r) = true -> has_key key r = true.
Proof. unfold has_key. destruct (dict_get key r); [reflexivity | discriminate]. Qed.

(** The frame of the basis panel, for snapshot records whose timestamps
    parse: the records' columns, the timestamps parsed, and the pair
    column last. *)
Lemma snapshots_frame_columns env (rows : list record) (parsed : Series) :
  rows <> [] ->
  forallb is_snapshot_record rows = true ->
  pd_to_datetime env (map (dict_get_default "timestamp" VNull) rows) = Ok parsed ->
  snapshots_frame env rows =
  Ok {| nrows := length rows;
        columns :=
          assoc_set "pair"
            (map (fun r => VStr ((str_field "spot_symbol" r ++ "/")
                                 ++ str_field "future_symbol" r)) rows)
            (assoc_set "timestamp" parsed (columns (records_frame rows))) |}.
Proof.
  intros Hne Hrec Hparse.
  destruct rows as [| r0 rest] eqn:Erows; [contradiction |]. rewrite <- Erows in *.
  assert (Hr0 : In r0 rows) by (rewrite Erows; left; reflexivity).
  destruct (snapshot_records_fields rows Hrec) as (Hts & Hbp & Hsp & Hfu).
  pose proof (proj1 (Forall_forall _ _) Hts r0 Hr0) as Hts0.
  pose proof (is_str_has_key _ _ (proj1 (Forall_forall _ _) Hsp r0 Hr0)) as Hsp0.
  pose proof (is_str_has_key _ _ (proj1 (Forall_forall _ _) Hfu r0 Hr0)) as Hfu0.
  unfold snapshots_frame. simpl pd_DataFrame. rewrite res_bind_ok.
  unfold derive_snapshot_columns.
  rewrite (records_frame_getitem rows "timestamp" r0 Hr0 Hts0), res_bind_ok.
  rewrite Hparse, res_bind_ok.
  rewrite df_setitem_ok
    by (rewrite (mapM_res_length _ _ _ Hparse), length_map; reflexivity).
  rewrite res_bind_ok.
  rewrite df_getitem_set_neq by discriminate.
  rewrite (records_frame_getitem rows "spot_symbol" r0 Hr0 Hsp0), res_bind_ok.
  rewrite (string_column "spot_symbol" rows Hsp).
  rewrite series_add_scalar_strings, res_bind_ok.
  rewrite df_getitem_set_neq by discriminate.
  rewrite (records_frame_getitem rows "future_symbol" r0 Hr0 Hfu0), res_bind_ok.
  rewrite (string_column "future_symbol" rows Hfu).
  rewrite (series_add_strings (fun r => (str_field "spot_symbol" r ++ "/")%string)),
    res_bind_ok.
  rewrite df_setitem_ok by (simpl; rewrite length_map; reflexivity).
  reflexivity.
Qed.

(** C5.  For snapshot records whose timestamps parse, the frame of the
    basis panel has a pair column, one cell per record, and the cell of
    each record is its spot symbol, a slash, and its future symbol. *)
Theorem pair_is_concatenation :
  forall (env : Env) (rows : list record),
    rows <> [] ->
    forallb is_snapshot_record rows = true ->
    column_parses env "timestamp" rows ->
    exists snapshots_df pair,
      snapshots_frame env rows = Ok snapshots_df /\
      df_getitem "pair" snapshots_df = Ok pair /\
      length pair = length rows /\
      forall (i : nat) (r : record) (spot future : string),
        nth_error rows i = Some r ->
        dict_get "spot_symbol" r = Some (VStr spot) ->
        dict_get "future_symbol" r = Some (VStr future) ->
        nth_error pair i = Some (VStr (spot ++ "/" ++ future)).
Proof.
  intros env rows Hne Hrec [parsed Hparse].
  eexists _, _. split; [apply (snapshots_frame_columns env rows parsed); assumption |].
  split; [apply df_getitem_set_eq |].
  split; [apply length_map |].
  intros i r spot future Hi Hs Hf.
  rewrite nth_error_map, Hi. simpl. unfold str_field. rewrite Hs, Hf.
  rewrite string_append_assoc. reflexivity.
Qed.

Lemma pair_is_concatenation_witness :
  exists snapshots_df pair,
    snapshots_frame (env_of (clock_from 100) (backend_status 200)) example_snapshots
    = Ok snapshots_df /\
    df_getitem "pair" snapshots_df = Ok pair /\
    length pair = length example_snapshots /\
    forall (i : nat) (r : record) (spot future : string),
      nth_error example_snapshots i = Some r ->
      dict_get "spot_symbol" r = Some (VStr spot) ->
      dict_get "future_symbol" r = Some (VStr future) ->
      nth_error pair i = Some (VStr (spot ++ "/" ++ future)).
Proof.
  apply (pair_is_concatenation
           (env_of (clock_from 100) (backend_status 200)) example_snapshots).
  - discriminate.
  - reflexivity.
  - eexists. reflexivity.
Defined.

(* ================================================================== *)
(** * The basis chart *)
(* ================================================================== *)

Lemma assoc_get_map_snd {A B : Type} (g : A -> B) (k : string) (l : list (string * A)) :
  assoc_get k (map (fun kc => (fst kc, g (snd kc))) l)
  = option_map g (assoc_get k l).
Proof.
  induction l as [| [k0 v0] l IH]; simpl; [reflexivity |].
  destruct (String.eqb k0 k); [reflexivity | exact IH].
Qed.

Lemma df_getitem_mask (k : string) (mask : list bool) (df : DataFrame) (col : Series) :
  df_getitem k df = Ok col ->
  df_getitem k (df_mask mask df) = Ok (series_take mask col).
Proof.
  unfold df_getitem, df_mask. simpl. rewrite assoc_get_map_snd.
  destruct (assoc_get k (columns df)); [| discriminate].
  intros H. injection H as ->. reflexivity.
Qed.

(** Taking the masked cells of the time and basis columns gives the
    points of the rows the mask selects, in the order of the rows. *)
Lemma masked_points (symbol_pair : value) (pairs times bases : Series) :
  length times = length pairs ->
  length bases = length pairs ->
  combine (series_take (series_eq_scalar pairs symbol_pair) times)
          (series_take (series_eq_scalar pairs symbol_pair) bases)
  = points_of_pair symbol_pair (chart_rows pairs times bases).
Proof.
  revert times bases.
  induction pairs as [| v pairs IH]; intros times bases Ht Hb.
  - destruct times; [| discriminate]. reflexivity.
  - destruct times as [| t times]; [discriminate |].
    destruct bases as [| b bases]; [discriminate |].
    simpl in Ht, Hb. injection Ht as Ht. injection Hb as Hb.
    unfold points_of_pair, chart_rows in *. simpl.
    destruct (value_eqb v symbol_pair); simpl; rewrite IH; auto.
Qed.

(** Cells already seen give no new key. *)
Lemma unique_from_all_seen (seen : list value) (s : Series) :
  Forall (fun v => existsb (same_key v) seen = true) s ->
  unique_from seen s = [].
Proof.
  induction 1 as [| v s Hv _ IH]; simpl; [reflexivity |].
  rewrite Hv. exact IH.
Qed.

Lemma same_key_str (a b : string) : same_key (VStr a) (VStr b) = String.eqb a b.
Proof. reflexivity. Qed.

(** After [p], a column of [p]s and [q]s that holds a [q] gives the one
    further key [q]. *)
Lemma unique_from_second (p q : string) (s : Series) :
  p <> q ->
  Forall (fun v => v = VStr p \/ v = VStr q) s ->
  In (VStr q) s ->
  unique_from [VStr p] s = [VStr q].
Proof.
  intros Hne Hall. induction Hall as [| v s Hv Hall IH]; intros Hin.
  - contradiction.
  - simpl. destruct Hv as [-> | ->].
    + rewrite same_key_str, String.eqb_refl. simpl.
      destruct Hin as [E | Hin]; [injection E as E; contradiction | auto].
    + rewrite same_key_str.
      destruct (String.eqb_spec q p) as [E | _]; [symmetry in E; contradiction |].
      simpl. f_equal. apply unique_from_all_seen.
      apply Forall_impl with (2 := Hall). intros v [-> | ->]; cbn [existsb].
      * rewrite !same_key_str, String.eqb_refl. simpl. apply orb_true_r.
      * rewrite !same_key_str, String.eqb_refl. reflexivity.
Qed.

(** A column of exactly two pairs has exactly these two keys, the pair
    of the first row first. *)
Lemma two_pairs_unique (pairs : Series) (p q : string) :
  two_pairs pairs p q ->
  series_unique pairs = [VStr p; VStr q] \/ series_unique pairs = [VStr q; VStr p].
Proof.
  intros (Hne & Hp & Hq & Hall).
  destruct pairs as [| v rest]; [contradiction |].
  inversion Hall as [| ? ? Hv Hrest]; subst.
  unfold series_unique. simpl.
  destruct Hv as [-> | ->].
  - left. f_equal. apply unique_from_second; auto.
    destruct Hq as [E | Hq]; [injection E as E; contradiction | exact Hq].
  - right. f_equal. apply unique_from_second; auto.
    + apply Forall_impl with (2 := Hrest). tauto.
    + destruct Hp as [E | Hp]; [injection E as E; symmetry in E; contradiction | exact Hp].
Qed.

(** The chart of a frame whose pair column has the two keys [p], [q]. *)
Lemma create_basis_chart_two env (df : DataFrame) (pairs times bases : Series)
  (p q : string) :
  df_getitem "pair" df = Ok pairs ->
  df_getitem "timestamp" df = Ok times ->
  df_getitem "basis_percent" df = Ok bases ->
  series_unique pairs = [VStr p; VStr q] ->
  exists l,
    create_basis_chart env df =
    Ok {| traces :=
            [ basis_scatter (series_take (series_eq_scalar pairs (VStr p)) times)
                            (series_take (series_eq_scalar pairs (VStr p)) bases)
                            (VStr p);
              basis_scatter (series_take (series_eq_scalar pairs (VStr q)) times)
                            (series_take (series_eq_scalar pairs (VStr q)) bases)
                            (VStr q) ];
          layout := l |}.
Proof.
  intros Hp Ht Hb Hu. eexists.
  unfold create_basis_chart. rewrite Hp, res_bind_ok, Hu.
  cbn [add_pair_traces]. rewrite Hp.
  cbn [bind ret Monad_res scatter_name].
  rewrite !(df_getitem_mask _ _ _ _ Ht), !(df_getitem_mask _ _ _ _ Hb).
  reflexivity.
Qed.

(** C6.  For a frame whose pair column holds exactly two distinct
    pairs, [create_basis_chart] gives a figure of exactly two traces,
    one named after each pair, and the points of each trace are the
    (time, basis) points of the rows of its pair, in the order of the
    rows of the frame. *)
Theorem basis_chart_two_series :
  forall (env : Env) (snapshots_df : DataFrame) (pairs times bases : Series)
         (p q : string),
    df_getitem "pair" snapshots_df = Ok pairs ->
    df_getitem "timestamp" snapshots_df = Ok times ->
    df_getitem "basis_percent" snapshots_df = Ok bases ->
    length times = length pairs ->
    length bases = length pairs ->
    two_pairs pairs p q ->
    exists fig,
      create_basis_chart env snapshots_df = Ok fig /\
      length (traces fig) = 2 /\
      (map name (traces fig) = [VStr p; VStr q] \/
       map name (traces fig) = [VStr q; VStr p]) /\
      Forall (fun tr =>
                kind tr = Scatter /\
                points tr = points_of_pair (name tr) (chart_rows pairs times bases))
             (traces fig).
Proof.
  intros env df pairs times bases p q Hp Ht Hb Hlt Hlb Htwo.
  destruct (two_pairs_unique pairs p q Htwo) as [Hu | Hu];
    destruct (create_basis_chart_two env df pairs times bases _ _ Hp Ht Hb Hu)
      as [l Hfig];
    eexists; (split; [exact Hfig |]); simpl;
    (split; [reflexivity |]); (split; [auto |]);
    repeat constructor; unfold points; simpl; apply masked_points; assumption.
Qed.

Lemma basis_chart_two_series_witness :
  exists fig,
    create_basis_chart (env_of (clock_from 100) (backend_status 200))
      example_snapshots_df = Ok fig /\
    length (traces fig) = 2 /\
    (map name (traces fig) = [VStr "BTC-USD/BTC-PERP"; VStr "ETH-USD/ETH-PERP"] \/
     map name (traces fig) = [VStr "ETH-USD/ETH-PERP"; VStr "BTC-USD/BTC-PERP"]) /\
    Forall (fun tr =>
              kind tr = Scatter /\
              points tr =
              points_of_pair (name tr)
                (chart_rows
                   [VStr "BTC-USD/BTC-PERP"; VStr "ETH-USD/ETH-PERP";
                    VStr "BTC-USD/BTC-PERP"]
                   [VTime 120; VTime 60; VTime 0]
                   [VNum (24 # 100); VNum (50 # 100); VNum (23 # 100)]))
           (traces fig).
Proof.
  apply (basis_chart_two_series (env_of (clock_from 100) (backend_status 200))
           example_snapshots_df
           [VStr "BTC-USD/BTC-PERP"; VStr "ETH-USD/ETH-PERP"; VStr "BTC-USD/BTC-PERP"]
           [VTime 120; VTime 60; VTime 0]
           [VNum (24 # 100); VNum (50 # 100); VNum (23 # 100)]
           "BTC-USD/BTC-PERP" "ETH-USD/ETH-PERP").
  - reflexivity.
  - reflexivity.
  - reflexivity.
  - reflexivity.
  - reflexivity.
  - unfold two_pairs. split; [discriminate |]. split; [simpl; auto |].
    split; [simpl; auto |].
    repeat (apply Forall_cons; [auto |]). apply Forall_nil.
Defined.

(* ================================================================== *)
(** * The trades table *)
(* ================================================================== *)

Lemma truthy_nonempty (rows : list record) : rows <> [] -> truthy (JList rows) = true.
Proof. destruct rows; [contradiction | reflexivity]. Qed.

Lemma df_select_ok (keys : list string) (df : DataFrame) (f : string -> Series) :
  (forall k, In k keys -> df_getitem k df = Ok (f k)) ->
  df_select keys df = Ok {| nrows := nrows df; columns := map (fun k => (k, f k)) keys |}.
Proof.
  intros H. unfold df_select.
  assert (E : mapM_res (fun k => match df_getitem k df with
                                 | Ok s => Ok (k, s)
                                 | Err e => Err e
                                 end) keys
              = Ok (map (fun k => (k, f k)) keys)).
  { induction keys as [| k keys IH]; simpl; [reflexivity |].
    rewrite (H k) by (left; reflexivity).
    rewrite IH by (intros k' Hk'; apply H; right; exact Hk'). reflexivity. }
  rewrite E. reflexivity.
Qed.

Lemma df_getitem_map_keys (n : nat) (keys : list string) (f : string -> Series)
  (k : string) :
  In k keys ->
  df_getitem k {| nrows := n; columns := map (fun k' => (k', f k')) keys |} = Ok (f k).
Proof.
  intros H. unfold df_getitem. cbn [columns].
  rewrite (assoc_get_map_keys f keys k H). reflexivity.
Qed.

Lemma last_n_map {A B : Type} (g : A -> B) (n : nat) (l : list A) :
  last_n n (map g l) = map g (last_n n l).
Proof. unfold last_n. rewrite length_map. apply skipn_map. Qed.

Lemma last_n_length {A : Type} (n : nat) (l : list A) :
  length (last_n n l) = Nat.min n (length l).
Proof. unfold last_n. rewrite length_skipn. lia. Qed.

(** The last [n] of a list are its end. *)
Lemma last_n_suffix {A : Type} (n : nat) (l : list A) :
  exists earlier, l = earlier ++ last_n n l.
Proof.
  exists (firstn (length l - n) l). unfold last_n.
  symmetry. apply firstn_skipn.
Qed.

Lemma trade_record_has_key (r : record) (k : string) :
  is_trade_record r = true -> In k trade_columns -> has_key k r = true.
Proof.
  unfold is_trade_record. rewrite forallb_forall. intros H Hk. exact (H k Hk).
Qed.

(** The frame of the trades table for trade records whose times parse:
    the nine columns of the table, each cut to its last ten cells. *)
Lemma recent_trades_columns env (rows : list record) (parsed : Series) :
  rows <> [] ->
  forallb is_trade_record rows = true ->
  pd_to_datetime env (map (dict_get_default "created_at" VNull) rows) = Ok parsed ->
  recent_trades env (records_frame rows) =
  Ok {| nrows := Nat.min 10 (length rows);
        columns :=
          map (fun k => (k, last_n 10
                              (if String.eqb "created_at" k then parsed
                               else map (dict_get_default k VNull) rows)))
              trade_columns |}.
Proof.
  intros Hne Hrec Hparse.
  destruct rows as [| r0 rest] eqn:Erows; [contradiction |]. rewrite <- Erows in *.
  assert (Hr0 : In r0 rows) by (rewrite Erows; left; reflexivity).
  assert (Hkeys : forall k, In k trade_columns -> has_key k r0 = true).
  { intros k Hk. apply trade_record_has_key; [| exact Hk].
    rewrite forallb_forall in Hrec. exact (Hrec r0 Hr0). }
  unfold recent_trades.
  rewrite (records_frame_getitem rows "created_at" r0 Hr0)
    by (apply Hkeys; simpl; tauto).
  rewrite res_bind_ok, Hparse, res_bind_ok.
  rewrite df_setitem_ok
    by (rewrite (mapM_res_length _ _ _ Hparse), length_map; reflexivity).
  rewrite res_bind_ok.
  rewrite (df_select_ok trade_columns _
             (fun k => if String.eqb "created_at" k then parsed
                       else map (dict_get_default k VNull) rows)).
  - rewrite res_bind_ok. unfold df_tail. cbn [nrows columns].
    rewrite map_map. reflexivity.
  - intros k Hk. destruct (String.eqb_spec "created_at" k) as [<- | Hneq].
    + apply df_getitem_set_eq.
    + rewrite df_getitem_set_neq by exact Hneq.
      apply (records_frame_getitem rows k r0 Hr0). apply Hkeys. exact Hk.
Qed.

(** C9.  For a non-empty list of trade records whose times parse, the
    trades panel shows one table.  It has as many rows as the list has
    records, but at most 10, and its cells are those of the last
    records of the list, in their order, the times parsed. *)
Theorem trades_table_last_ten :
  forall (env : Env) (rows : list record),
    rows <> [] ->
    forallb is_trade_record rows = true ->
    column_parses env "created_at" rows ->
    exists table,
      (forall w,
          trades_panel env (JList rows) w =
          (Returned tt,
           add_events w [EvUI (StSubheader "💹 Recent Trades");
                         EvUI (StDataframe table)])) /\
      nrows table = length (last_n 10 rows) /\
      nrows table <= 10 /\
      (exists earlier, rows = earlier ++ last_n 10 rows) /\
      map fst (columns table) = trade_columns /\
      (forall key,
          In key trade_columns -> key <> "created_at"%string ->
          df_getitem key table
          = Ok (map (dict_get_default key VNull) (last_n 10 rows))) /\
      (exists parsed,
          pd_to_datetime env (map (dict_get_default "created_at" VNull) (last_n 10 rows))
          = Ok parsed /\
          df_getitem "created_at" table = Ok parsed).
Proof.
  intros env rows Hne Hrec [parsed Hparse].
  pose proof (recent_trades_columns env rows parsed Hne Hrec Hparse) as Htable.
  exists {| nrows := Nat.min 10 (length rows);
            columns :=
              map (fun k => (k, last_n 10
                                  (if String.eqb "created_at" k then parsed
                                   else map (dict_get_default k VNull) rows)))
                  trade_columns |}.
  split; [| split; [| split; [| split; [| split; [| split]]]]].
  - intros w. unfold trades_panel, st_subheader, st_dataframe, show, emit.
    rewrite (truthy_nonempty rows Hne).
    change (pd_DataFrame (JList rows)) with (Ok (records_frame rows)).
    cbn -[recent_trades records_frame].
    rewrite Htable. unfold add_events. simpl. rewrite <- app_assoc. reflexivity.
  - cbn [nrows]. rewrite last_n_length. reflexivity.
  - cbn [nrows]. apply Nat.le_min_l.
  - apply last_n_suffix.
  - simpl. reflexivity.
  - intros key Hk Hneq.
    etransitivity; [apply df_getitem_map_keys; exact Hk |]. cbv beta.
    destruct (String.eqb_spec "created_at" key) as [E | _];
      [symmetry in E; contradiction |].
    rewrite last_n_map. reflexivity.
  - exists (last_n 10 parsed). split.
    + rewrite <- last_n_map. unfold last_n.
      rewrite (mapM_res_length _ _ _ Hparse).
      apply mapM_res_skipn. exact Hparse.
    + etransitivity; [apply df_getitem_map_keys; simpl; tauto |]. reflexivity.
Qed.

Lemma trades_table_last_ten_witness :
  exists table,
    (forall w,
        trades_panel (env_of (clock_from 100) (backend_status 200))
          (JList example_trades) w =
        (Returned tt,
         add_events w [EvUI (StSubheader "💹 Recent Trades");
                       EvUI (StDataframe table)])) /\
    nrows table = length (last_n 10 example_trades) /\
    nrows table <= 10 /\
    (exists earlier, example_trades = earlier ++ last_n 10 example_trades) /\
    map fst (columns table) = trade_columns /\
    (forall key,
        In key trade_columns -> key <> "created_at"%string ->
        df_getitem key table
        = Ok (map (dict_get_default key VNull) (last_n 10 example_trades))) /\
    (exists parsed,
        pd_to_datetime (env_of (clock_from 100) (backend_status 200))
          (map (dict_get_default "created_at" VNull) (last_n 10 example_trades))
        = Ok parsed /\
        df_getitem "created_at" table = Ok parsed).
Proof.
  apply (trades_table_last_ten
           (env_of (clock_from 100) (backend_status 200)) example_trades).
  - discriminate.
  - reflexivity.
  - eexists. reflexivity.
Defined.

(* ================================================================== *)
(** * Columns of strings *)
(* ================================================================== *)

Lemma value_eqb_str_iff (v u : value) :
  is_str (Some v) = true -> (value_eqb v u = true <-> u = v).
Proof.
  destruct v as [| b | q | a | t]; simpl; try discriminate. intros _.
  destruct u as [| b | q | c | t]; simpl; split; try discriminate; try congruence.
  - intros H. apply String.eqb_eq in H. congruence.
  - intros H. injection H as ->. apply String.eqb_refl.
Qed.

Lemma same_key_str_iff (v u : value) :
  is_str (Some v) = true -> (same_key v u = true <-> u = v).
Proof.
  intros Hv. destruct v as [| b | q | a | t]; simpl in Hv; try discriminate.
  change (same_key (VStr a) u) with (value_eqb (VStr a) u).
  apply value_eqb_str_iff. reflexivity.
Qed.

Lemma existsb_same_key_In (v : value) (seen : list value) :
  is_str (Some v) = true -> (existsb (same_key v) seen = true <-> In v seen).
Proof.
  intros Hv. rewrite existsb_exists. split.
  - intros (u & Hu & E). apply (same_key_str_iff v u Hv) in E. subst. exact Hu.
  - intros H. exists v. split; [exact H | apply (same_key_str_iff v v Hv); reflexivity].
Qed.

Lemma unique_from_In (s : Series) (seen : list value) (v : value) :
  Forall (fun c => is_str (Some c) = true) s ->
  (In v (unique_from seen s) <-> In v s /\ ~ In v seen).
Proof.
  intros Hs. revert seen. induction Hs as [| c s Hc Hs IH]; intros seen; simpl.
  - tauto.
  - destruct (existsb (same_key c) seen) eqn:E.
    + apply (existsb_same_key_In c seen Hc) in E. rewrite IH. split.
      * tauto.
      * intros [[-> | Hin] Hn]; [contradiction | tauto].
    + assert (Hnc : ~ In c seen).
      { intros Hin. apply (existsb_same_key_In c seen Hc) in Hin. congruence. }
      simpl. rewrite IH. simpl. split.
      * intros [-> | [Hin Hn]]; [tauto |]. split; [tauto |]. tauto.
      * intros [[-> | Hin] Hn]; [tauto |].
        destruct (existsb (same_key v) [c]) eqn:Ev.
        -- simpl in Ev. rewrite orb_false_r in Ev.
           left.
           assert (Hvs : is_str (Some v) = true).
           { rewrite Forall_forall in Hs. exact (Hs v Hin). }
           apply (same_key_str_iff v c Hvs) in Ev. exact Ev.
        -- right. split; [exact Hin |]. intros [-> | Hseen]; [| contradiction].
           simpl in Ev. rewrite orb_false_r in Ev.
           assert (same_key v v = true)
             by (apply same_key_str_iff; [| reflexivity];
                 rewrite Forall_forall in Hs; exact (Hs v Hin)).
           congruence.
Qed.

Lemma unique_from_NoDup (s : Series) (seen : list value) :
  Forall (fun c => is_str (Some c) = true) s ->
  NoDup (unique_from seen s).
Proof.
  intros Hs. revert seen. induction Hs as [| c s Hc Hs IH]; intros seen; simpl.
  - constructor.
  - destruct (existsb (same_key c) seen); [apply IH |].
    constructor; [| apply IH].
    rewrite (unique_from_In s (c :: seen) c Hs). simpl. tauto.
Qed.

Lemma series_take_length (mask : list bool) (col : Series) :
  length col = length mask -> length (series_take mask col) = count_true mask.
Proof.
  revert col. induction mask as [| b mask IH]; intros col H.
  - reflexivity.
  - destruct col as [| c col]; [discriminate |]. injection H as H.
    destruct b; simpl; unfold count_true in *; simpl; rewrite IH; auto.
Qed.

Lemma list_sum_map_add {A : Type} (f g : A -> nat) (l : list A) :
  list_sum (map (fun a => f a + g a) l) = list_sum (map f l) + list_sum (map g l).
Proof. induction l as [| a l IH]; simpl; [reflexivity | rewrite IH; lia]. Qed.

Lemma one_key_matches (c : value) (keys : list value) :
  is_str (Some c) = true -> NoDup keys -> In c keys ->
  list_sum (map (fun key => if value_eqb c key then 1 else 0) keys) = 1.
Proof.
  intros Hc Hnd. induction Hnd as [| k keys Hk Hnd IH]; intros Hin; [contradiction |].
  simpl. destruct (value_eqb c k) eqn:E.
  - apply (value_eqb_str_iff c k Hc) in E. subst k.
    assert (Hz : list_sum (map (fun key => if value_eqb c key then 1 else 0) keys) = 0).
    { clear IH Hin Hnd. induction keys as [| k keys IH]; [reflexivity |]. simpl.
      destruct (value_eqb c k) eqn:E.
      - apply (value_eqb_str_iff c k Hc) in E. subst. exfalso. apply Hk. left. reflexivity.
      - apply IH. intros H. apply Hk. right. exact H. }
    rewrite Hz. reflexivity.
  - destruct Hin as [-> | Hin].
    + assert (value_eqb c c = true) by (apply value_eqb_str_iff; auto). congruence.
    + rewrite IH; auto.
Qed.

(** Counted by key, the rows add up to the rows. *)
Lemma masks_partition (pairs : Series) (keys : list value) :
  Forall (fun c => is_str (Some c) = true) pairs ->
  NoDup keys ->
  (forall c, In c pairs -> In c keys) ->
  list_sum (map (fun key => count_true (series_eq_scalar pairs key)) keys)
  = length pairs.
Proof.
  intros Hs Hnd Hall. induction Hs as [| c pairs Hc Hs IH].
  - simpl. induction keys; simpl; auto. apply IHkeys. inversion Hnd; auto.
    intros ? [].
  - transitivity
      (list_sum (map (fun key => (if value_eqb c key then 1 else 0)
                                 + count_true (series_eq_scalar pairs key)) keys)).
    + f_equal. apply map_ext. intros key. unfold count_true, series_eq_scalar. simpl.
      destruct (value_eqb c key); reflexivity.
    + rewrite list_sum_map_add, IH by (intros c' Hc'; apply Hall; right; exact Hc').
      rewrite (one_key_matches c keys Hc Hnd) by (apply Hall; left; reflexivity).
      reflexivity.
Qed.

(* ================================================================== *)
(** * The position chart *)
(* ================================================================== *)

Lemma px_column_getitem (arg key : string) (df : DataFrame) (col : Series) :
  df_getitem key df = Ok col -> px_column arg key df = Ok col.
Proof.
  unfold df_getitem, px_column. destruct (assoc_get key (columns df)); congruence.
Qed.

Lemma val_map_get_app (v : value) (c : string) (m extra : list (value * string)) :
  val_map_get v m = Some c -> val_map_get v (m ++ extra) = Some c.
Proof.
  induction m as [| [k c0] m IH]; simpl; [discriminate |].
  destruct (same_key k v); auto.
Qed.

(** Giving a colour to a value keeps the colours already given. *)
Lemma px_assign_colour_keeps (sequence : list string) (val : value)
  (val_map : list (value * string)) :
  sequence <> [] ->
  exists val_map',
    px_assign_colour sequence val val_map = Ok val_map' /\
    forall v c, val_map_get v val_map = Some c -> val_map_get v val_map' = Some c.
Proof.
  intros Hseq. unfold px_assign_colour.
  destruct (val_map_get val val_map).
  - exists val_map. auto.
  - destruct sequence as [| c0 rest]; [contradiction |].
    eexists. split; [reflexivity |]. intros v c. apply val_map_get_app.
Qed.

(** The bars of the groups: one per group, in the order of the groups,
    each holding the rows of its group, the colours of the fixed map
    kept. *)
Lemma px_bar_traces_ok (sequence : list string) (symbols sizes sides : Series)
  (groups : list value) (val_map : list (value * string)) :
  sequence <> [] ->
  val_map_get (VStr "long") val_map = Some "#00CC88"%string ->
  val_map_get (VStr "short") val_map = Some "#FF4444"%string ->
  exists bars,
    px_bar_traces sequence symbols sizes sides groups val_map = Ok bars /\
    map name bars = groups /\
    Forall (position_bar_ok symbols sizes sides) bars.
Proof.
  intros Hseq. revert val_map.
  induction groups as [| val groups IH]; intros val_map Hlong Hshort.
  - exists []. repeat split. constructor.
  - destruct (px_assign_colour_keeps sequence val val_map Hseq) as (vm' & Hvm & Hkeep).
    destruct (IH vm' (Hkeep _ _ Hlong) (Hkeep _ _ Hshort)) as (bars & Hbars & Hnames & Hall).
    eexists. cbn [px_bar_traces]. rewrite Hvm, res_bind_ok, Hbars, res_bind_ok.
    split; [reflexivity |]. split; [simpl; rewrite Hnames; reflexivity |].
    constructor; [| exact Hall].
    unfold position_bar_ok. cbn [kind name xs ys marker_color].
    repeat split.
    + intros ->. apply Hkeep. exact Hlong.
    + intros ->. apply Hkeep. exact Hshort.
Qed.

(** ** Code that does not look at the state it is run from *)

Lemma steady_ret {A : Type} (a : A) : steady (ret a : M A).
Proof.
  exists (Returned a), []. intros w. rewrite add_events_nil. reflexivity.
Qed.

Lemma steady_lift {A : Type} (r : res A) : steady (lift r).
Proof.
  destruct r as [a | e]; [apply steady_ret |].
  exists (Raised e), []. intros w. rewrite add_events_nil. reflexivity.
Qed.

Lemma steady_show wd : steady (show wd).
Proof. exists (Returned tt), [EvUI wd]. intros w. reflexivity. Qed.

Lemma steady_bind {A B : Type} (m : M A) (k : A -> M B) :
  steady m -> (forall a, steady (k a)) -> steady (bind m k).
Proof.
  intros (r & evs & Hm) Hk. destruct r as [a | e |].
  - destruct (Hk a) as (r2 & evs2 & Hk2).
    exists r2, (evs ++ evs2). intros w.
    rewrite (bind_returned _ _ _ _ _ (Hm w)), Hk2. rewrite add_events_add. reflexivity.
  - exists (Raised e), evs. intros w. apply bind_raised, Hm.
  - exists RerunRequested, evs. intros w. apply bind_rerun, Hm.
Qed.

Lemma steady_if {A : Type} (b : bool) (m1 m2 : M A) :
  steady m1 -> steady m2 -> steady (if b then m1 else m2).
Proof. destruct b; auto. Qed.

(** What the positions panel shows does not depend on the state it is
    run from. *)
Lemma steady_positions_panel env (positions : json) :
  steady (positions_panel env positions).
Proof.
  unfold positions_panel, st_subheader, st_info, st_plotly_chart, st_dataframe.
  repeat first
    [ apply steady_ret | apply steady_lift | apply steady_show | apply steady_if
    | apply steady_bind; [| intros ? ] ].
Qed.

Lemma value_eqb_eq_str (v : value) (side : string) :
  value_eqb v (VStr side) = eq_str v side.
Proof. destruct v as [| [] | q | a | t]; reflexivity. Qed.

(** Taking the masked cells of the symbol and size columns gives the
    bars of the rows of the side, in the order of the rows. *)
Lemma masked_bars (side : string) (sides symbols sizes : Series) :
  length symbols = length sides ->
  length sizes = length sides ->
  combine (series_take (series_eq_scalar sides (VStr side)) symbols)
          (series_take (series_eq_scalar sides (VStr side)) sizes)
  = bars_of_side side (position_rows sides symbols sizes).
Proof.
  revert symbols sizes.
  induction sides as [| v sides IH]; intros symbols sizes Hx Hy.
  - destruct symbols; [| discriminate]. reflexivity.
  - destruct symbols as [| x symbols]; [discriminate |].
    destruct sizes as [| y sizes]; [discriminate |].
    simpl in Hx, Hy. injection Hx as Hx. injection Hy as Hy.
    unfold bars_of_side, position_rows in *. cbn [series_eq_scalar map].
    rewrite value_eqb_eq_str. cbn [combine filter fst].
    destruct (eq_str v side); cbn [series_take combine map snd];
      [f_equal |]; apply IH; assumption.
Qed.

Lemma string_column_cells_true (sides : Series) :
  sides <> [] ->
  Forall (fun c => is_str (Some c) = true) sides ->
  string_column_cells sides = true.
Proof.
  intros Hne Hs. destruct sides as [| c sides]; [contradiction |].
  unfold string_column_cells. apply forallb_forall. intros v Hv.
  rewrite Forall_forall in Hs. specialize (Hs v Hv).
  destruct v; simpl in *; congruence.
Qed.

(** The chart of a frame whose side column holds strings. *)
Lemma create_position_chart_strings env (df : DataFrame) (symbols sizes sides : Series) :
  df_getitem "symbol" df = Ok symbols ->
  df_getitem "size" df = Ok sizes ->
  df_getitem "side" df = Ok sides ->
  sides <> [] ->
  Forall (fun c => is_str (Some c) = true) sides ->
  color_discrete_sequence env <> [] ->
  exists bars l,
    create_position_chart env df = Ok {| traces := bars; layout := l |} /\
    map name bars = series_unique sides /\
    Forall (position_bar_ok symbols sizes sides) bars.
Proof.
  intros Hx Hy Hc Hne Hs Hseq.
  destruct (px_bar_traces_ok (color_discrete_sequence env) symbols sizes sides
              (series_unique sides) position_color_map Hseq eq_refl eq_refl)
    as (bars & Hbars & Hnames & Hall).
  exists bars. eexists. split; [| split; [exact Hnames | exact Hall]].
  unfold create_position_chart, px_bar.
  rewrite (px_column_getitem "x" _ _ _ Hx), res_bind_ok.
  rewrite (px_column_getitem "y" _ _ _ Hy), res_bind_ok.
  rewrite (px_column_getitem "color" _ _ _ Hc), res_bind_ok.
  rewrite (string_column_cells_true sides Hne Hs).
  rewrite Hbars, res_bind_ok. reflexivity.
Qed.

(** C8.  For a positions frame with its symbol, size and side columns,
    the sides being strings, [create_position_chart] groups the
    positions by side: it gives bar traces named after the sides of the
    frame, one trace for each side and no two for the same; each trace
    holds the (symbol, size) bars of exactly the rows of its side, in
    their order, so that every position is in one trace; the trace of
    side long is coloured [#00CC88], a green, and the trace of side
    short [#FF4444], a red, whatever other sides the frame holds.  The
    chart is a value computed from the frame alone, and what the
    positions panel shows is the same from whatever state it is run. *)
Theorem position_chart_grouped_by_side :
  forall (env : Env) (positions_df : DataFrame) (symbols sizes sides : Series),
    df_getitem "symbol" positions_df = Ok symbols ->
    df_getitem "size" positions_df = Ok sizes ->
    df_getitem "side" positions_df = Ok sides ->
    length symbols = length sides ->
    length sizes = length sides ->
    sides <> [] ->
    Forall (fun c => is_str (Some c) = true) sides ->
    color_discrete_sequence env <> [] ->
    exists fig,
      create_position_chart env positions_df = Ok fig /\
      NoDup (map name (traces fig)) /\
      (forall c, In c sides <-> In c (map name (traces fig))) /\
      Forall (bar_of_a_side symbols sizes sides) (traces fig) /\
      list_sum (map (fun tr => length (ys tr)) (traces fig)) = length sides /\
      is_green "#00CC88" = true /\
      is_red "#FF4444" = true /\
      (forall (positions : json) (w1 w2 : World),
          events_of_run (positions_panel env positions) w1
          = events_of_run (positions_panel env positions) w2).
Proof.
  intros env df symbols sizes sides Hx Hy Hc Hlx Hly Hne Hs Hseq.
  destruct (create_position_chart_strings env df symbols sizes sides
              Hx Hy Hc Hne Hs Hseq) as (bars & l & Hfig & Hnames & Hall).
  eexists. split; [exact Hfig |]. cbn [traces]. rewrite Hnames.
  split; [apply unique_from_NoDup; exact Hs |].
  split.
  { intros c. unfold series_unique. rewrite (unique_from_In sides [] c Hs).
    simpl. tauto. }
  split.
  { apply Forall_forall. intros tr Htr.
    rewrite Forall_forall in Hall.
    destruct (Hall tr Htr) as (Hk & Hxs & Hys & Hlong & Hshort).
    assert (Hin : In (name tr) sides).
    { assert (In (name tr) (series_unique sides))
        by (rewrite <- Hnames; apply in_map; exact Htr).
      unfold series_unique in H. apply (unique_from_In sides [] _ Hs) in H. tauto. }
    rewrite Forall_forall in Hs. pose proof (Hs _ Hin) as Hstr.
    destruct (name tr) as [| b | q | side | t] eqn:En; simpl in Hstr; try discriminate.
    split; [exact Hk |]. exists side. split; [exact En |].
    split; [rewrite Hxs, Hys; apply masked_bars; assumption |].
    split; intros ->; auto. }
  split.
  { rewrite <- (masks_partition sides (series_unique sides) Hs).
    - rewrite <- Hnames, map_map. apply f_equal. apply map_ext_in.
      intros tr Htr. rewrite Forall_forall in Hall.
      destruct (Hall tr Htr) as (_ & _ & Hys & _). rewrite Hys.
      apply series_take_length. unfold series_eq_scalar. rewrite length_map.
      exact Hly.
    - apply unique_from_NoDup. exact Hs.
    - intros c Hc'. unfold series_unique. rewrite (unique_from_In sides [] c Hs).
      simpl. tauto. }
  repeat split.
  intros positions w1 w2.
  destruct (steady_positions_panel env positions) as (r & evs & H).
  rewrite (events_of_run_add _ _ _ _ (H w1)), (events_of_run_add _ _ _ _ (H w2)).
  reflexivity.
Qed.

Lemma position_chart_grouped_by_side_witness :
  exists fig,
    create_position_chart (env_of (clock_from 100) (backend_status 200))
      example_positions_df = Ok fig /\
    NoDup (map name (traces fig)) /\
    (forall c, In c [VStr "long"; VStr "short"; VStr "long"]
               <-> In c (map name (traces fig))) /\
    Forall (bar_of_a_side
              [VStr "BTC-PERP"; VStr "ETH-PERP"; VStr "SOL-PERP"]
              [VNum 1; VNum 2; VNum 3]
              [VStr "long"; VStr "short"; VStr "long"]) (traces fig) /\
    list_sum (map (fun tr => length (ys tr)) (traces fig))
    = length [VStr "long"; VStr "short"; VStr "long"] /\
    is_green "#00CC88" = true /\
    is_red "#FF4444" = true /\
    (forall (positions : json) (w1 w2 : World),
        events_of_run
          (positions_panel (env_of (clock_from 100) (backend_status 200)) positions) w1
        = events_of_run
            (positions_panel (env_of (clock_from 100) (backend_status 200)) positions) w2).
Proof.
  apply (position_chart_grouped_by_side
           (env_of (clock_from 100) (backend_status 200)) example_positions_df).
  - reflexivity.
  - reflexivity.
  - reflexivity.
  - reflexivity.
  - reflexivity.
  - discriminate.
  - repeat (apply Forall_cons; [reflexivity |]). apply Forall_nil.
  - discriminate.
Defined.

(** The chart of the three example positions: the long bars of BTC and
    SOL in green, the short bar of ETH in red. *)
Example position_chart_example :
  option_map traces
    (match create_position_chart (env_of (clock_from 100) (backend_status 200))
             example_positions_df with
     | Ok fig => Some fig
     | Err _ => None
     end)
  = Some
      [ {| kind := Bar; name := VStr "long";
           xs := [VStr "BTC-PERP"; VStr "SOL-PERP"]; ys := [VNum 1; VNum 3];
           mode := None; line_width := None; marker_size := None;
           marker_color := Some "#00CC88"%string |};
        {| kind := Bar; name := VStr "short";
           xs := [VStr "ETH-PERP"]; ys := [VNum 2];
           mode := None; line_width := None; marker_size := None;
           marker_color := Some "#FF4444"%string |} ].
Proof. reflexivity. Qed.

(* ================================================================== *)
(** * The script on examples *)
(* ================================================================== *)

(** A backend that answers 500: one GET, one error message, an empty
    list. *)
Example fetch_data_status_500 :
  fetch_data (env_of (clock_from 100) (backend_status 500)) "health" fresh_world
  = (Returned (JList []),
     {| last_update := None; ticks := 0;
        trace := [EvRequest (GET "http://localhost:8080/api/health");
                  EvUI (StError "Failed to fetch health: 500")] |}).
Proof. reflexivity. Qed.

(** A backend that cannot be reached. *)
Example fetch_data_connection_refused :
  fetch_data (env_of (clock_from 100) backend_down) "trades" fresh_world
  = (Returned (JList []),
     {| last_update := None; ticks := 0;
        trace := [EvRequest (GET "http://localhost:8080/api/trades");
                  EvUI (StError "Error fetching trades: Connection refused")] |}).
Proof. reflexivity. Qed.

(** Six seconds after the last refresh the cycle ends in a rerun, the
    time written once and nothing fetched. *)
Example cycle_six_seconds_later :
  let run := script (env_of (clock_from 100) (backend_status 200)) default_input
               (world_at 94) in
  fst run = RerunRequested /\
  last_update (snd run) = Some (inject_Z 101) /\
  resets_of (trace (snd run)) = [inject_Z 101] /\
  requests_of (trace (snd run)) = [].
Proof. vm_compute. repeat split. Qed.

(** Exactly five seconds after the last refresh the cycle runs to its
    end and fetches. *)
Example cycle_five_seconds_later :
  let run := script (env_of (clock_from 100) (backend_status 200)) default_input
               (world_at 95) in
  fst run = Returned tt /\
  last_update (snd run) = Some 95%Q /\
  resets_of (trace (snd run)) = [] /\
  requests_of (trace (snd run)) = fetch_requests.
Proof. vm_compute. repeat split. Qed.

(** Of twelve trades the table shows the ten with ids 3 to 12. *)
Example twelve_trades_table_ids :
  match recent_trades (env_of (clock_from 100) (backend_status 200))
          (records_frame example_trades) with
  | Ok table => df_getitem "id" table
  | Err e => Err e
  end
  = Ok (map (fun id => VNum (inject_Z id)) [3; 4; 5; 6; 7; 8; 9; 10; 11; 12]%Z).
Proof. reflexivity. Qed.

(** The pair column of the three example snapshots. *)
Example example_snapshots_pairs :
  match snapshots_frame (env_of (clock_from 100) (backend_status 200))
          example_snapshots with
  | Ok snapshots_df => df_getitem "pair" snapshots_df
  | Err e => Err e
  end
  = Ok [VStr "BTC-USD/BTC-PERP"; VStr "ETH-USD/ETH-PERP"; VStr "BTC-USD/BTC-PERP"].
Proof. reflexivity. Qed.

(* ================================================================== *)
(** * Further properties of the fetcher and the form *)
(* ================================================================== *)

(** X1.  On status 200 [fetch_data] hands back what [response.json()]
    gives, having issued its one GET and shown nothing; when the body
    does not decode, the decoder's exception is caught like a network
    failure: an error message is shown and the empty list returned. *)
Theorem fetch_data_status_200 :
  forall (env : Env) (endpoint : string) (w : World) (resp : Response),
    network env (trace w) (GET (API_BASE_URL ++ "/" ++ endpoint)) = HttpResponse resp ->
    status_code resp = 200 ->
    fetch_data env endpoint w =
    match json_body resp with
    | Ok payload =>
        (Returned payload,
         add_events w [EvRequest (GET (API_BASE_URL ++ "/" ++ endpoint))])
    | Err e =>
        (Returned (JList []),
         add_events w
           [EvRequest (GET (API_BASE_URL ++ "/" ++ endpoint));
            EvUI (StError ("Error fetching " ++ endpoint ++ ": " ++ str_exn e))])
    end.
Proof.
  intros env endpoint w resp Hnet Hcode.
  pose proof (fetch_data_cases env endpoint w) as H. cbv zeta in H.
  rewrite Hnet, Hcode in H. cbn [Nat.eqb] in H.
  destruct (json_body resp); exact H.
Qed.

Lemma fetch_data_status_200_witness :
  fetch_data (env_of (clock_from 100) (backend_status 200)) "trades" fresh_world =
  (Returned (JList []),
   add_events fresh_world [EvRequest (GET (API_BASE_URL ++ "/" ++ "trades"))]).
Proof.
  apply (fetch_data_status_200 (env_of (clock_from 100) (backend_status 200))
           "trades" fresh_world
           {| status_code := 200; text := "Internal Server Error";
              json_body := Ok (JList []) |}).
  - reflexivity.
  - reflexivity.
Defined.

(** X2.  A run of the form in which the button was not clicked shows
    the seven widgets of the form and sends nothing to the backend. *)
Theorem no_request_without_click :
  forall (env : Env) (u : UserInput) (w : World),
    in_submit u = false ->
    new_strategy_form env u w = (Returned tt, add_events w (map EvUI form_widgets)) /\
    requests_of (events_of_run (new_strategy_form env u) w) = [].
Proof.
  intros env u w Hno.
  assert (H : new_strategy_form env u w
              = (Returned tt, add_events w (map EvUI form_widgets))).
  { rewrite new_strategy_form_run, Hno. reflexivity. }
  split; [exact H |].
  rewrite (events_of_run_add _ _ _ _ H). apply requests_of_map_EvUI.
Qed.

Lemma no_request_without_click_witness :
  requests_of
    (events_of_run
       (new_strategy_form (env_of (clock_from 100) (backend_status 201)) default_input)
       fresh_world) = [].
Proof.
  apply (no_request_without_click
           (env_of (clock_from 100) (backend_status 201)) default_input fresh_world).
  reflexivity.
Defined.

(** X3.  When the backend answers the create request, the form shows
    the success message exactly on status 201; on any other status,
    200 included, it shows an error carrying the body of the response.
    Either way the one request is followed by the one message. *)
Theorem submission_response_is_reported :
  forall (env : Env) (u : UserInput) (w : World) (resp : Response),
    in_submit u = true ->
    network env (trace w ++ map EvUI form_widgets) (create_request u) = HttpResponse resp ->
    new_strategy_form env u w =
    (Returned tt,
     add_events w
       (map EvUI form_widgets ++
        [EvRequest (create_request u);
         EvUI (if status_code resp =? 201
               then StSuccess "Strategy added successfully!"
               else StError ("Failed to add strategy: " ++ text resp))])).
Proof.
  intros env u w resp Hsubmit Hnet.
  rewrite new_strategy_form_run, Hsubmit, submit_strategy_cases. cbv zeta.
  rewrite add_events_add. unfold create_request in Hnet.
  change (trace (add_events w (map EvUI form_widgets)))
    with (trace w ++ map EvUI form_widgets).
  rewrite Hnet. reflexivity.
Qed.

Lemma submission_response_is_reported_witness :
  new_strategy_form (env_of (clock_from 100) (backend_status 200))
    (with_submit true default_input) fresh_world =
  (Returned tt,
   add_events fresh_world
     (map EvUI form_widgets ++
      [EvRequest (create_request (with_submit true default_input));
       EvUI (StError ("Failed to add strategy: " ++ "Internal Server Error"))])).
Proof.
  apply (submission_response_is_reported
           (env_of (clock_from 100) (backend_status 200))
           (with_submit true default_input) fresh_world
           {| status_code := 200; text := "Internal Server Error";
              json_body := Ok (JList []) |}).
  - reflexivity.
  - reflexivity.
Defined.

(* ================================================================== *)
(** * Further properties of the scheduler and the cycle *)
(* ================================================================== *)

(** The scheduler in all its cases: it returns or asks for a rerun, it
    sends nothing and shows nothing, and it leaves a time recorded. *)
Lemma scheduler_runs env (auto_refresh : bool) (interval : Z) w :
  exists r w1 evs,
    runs (refresh_scheduler env auto_refresh interval) w r w1 evs /\
    (r = Returned tt \/ r = RerunRequested) /\
    requests_of evs = [] /\
    widgets_of evs = [] /\
    last_update w1 <> None.
Proof.
  destruct w as [[last |] n tr]; destruct auto_refresh;
    unfold runs, refresh_scheduler, session_has_last_update, session_get_last_update,
      session_set_last_update, time_time, st_rerun;
    cbn -[Qgt_bool Qminus inject_Z].
  - destruct (Qgt_bool _ _).
    + eexists _, _, [_]. split; [split; reflexivity |].
      repeat split; auto; discriminate.
    + eexists _, _, []. split; [split; [reflexivity | symmetry; apply app_nil_r] |].
      repeat split; auto; discriminate.
  - eexists _, _, []. split; [split; [reflexivity | symmetry; apply app_nil_r] |].
    repeat split; auto; discriminate.
  - destruct (Qgt_bool _ _).
    + eexists _, _, [_; _].
      split; [split; [reflexivity | cbn; rewrite <- app_assoc; reflexivity] |].
      repeat split; auto; discriminate.
    + eexists _, _, [_]. split; [split; reflexivity |].
      repeat split; auto; discriminate.
  - eexists _, _, [_]. split; [split; reflexivity |].
    repeat split; auto; discriminate.
Qed.

(** X4.  Whatever interval the slider is set to, a cycle with
    auto-refresh enabled and a last refresh recorded ends in a rerun
    exactly when the time elapsed is greater than the interval: the
    interval itself is not yet due. *)
Theorem rerun_iff_interval_exceeded :
  forall (env : Env) (u : UserInput) (w : World) (last : Q),
    in_auto_refresh u = true ->
    last_update w = Some last ->
    (fst (script env u w) = RerunRequested <->
     (inject_Z (in_refresh_interval u) < clock env (ticks w) - last)%Q).
Proof.
  intros env u w last Hon Hlast.
  pose proof (enabled_auto_refresh_cycle env u w last Hon Hlast) as H.
  destruct (Qgt_bool (clock env (ticks w) - last) (inject_Z (in_refresh_interval u)))
    eqn:Hgt.
  - split; [intros _; apply Qgt_bool_iff; exact Hgt | intros _; apply H].
  - destruct H as (Hr & _). split; [intros E; contradiction |].
    intros Hlt. apply Qgt_bool_iff in Hlt. congruence.
Qed.

Lemma rerun_iff_interval_exceeded_witness :
  fst (script (env_of (clock_from 100) (backend_status 200)) default_input (world_at 40))
  = RerunRequested <->
  (inject_Z (in_refresh_interval default_input)
   < clock (env_of (clock_from 100) (backend_status 200)) (ticks (world_at 40)) - 40)%Q.
Proof.
  exact (rerun_iff_interval_exceeded
           (env_of (clock_from 100) (backend_status 200))
           default_input (world_at 40) 40 eq_refl eq_refl).
Defined.

(** X5.  The scheduler never raises: the read of
    [st.session_state.last_update] on line 139 always finds the entry,
    which line 137 has filled if it was missing.  And after a cycle,
    however it ends, the session holds a last-refresh time. *)
Theorem session_time_always_recorded :
  forall (env : Env) (u : UserInput) (w : World),
    (forall auto_refresh interval w0,
        fst (refresh_scheduler env auto_refresh interval w0) = Returned tt \/
        fst (refresh_scheduler env auto_refresh interval w0) = RerunRequested) /\
    last_update (snd (script env u w)) <> None.
Proof.
  intros env u w. split.
  - intros a i w0.
    destruct (scheduler_runs env a i w0) as (r & w1 & evs & [Hrun _] & Hr & _).
    rewrite Hrun. exact Hr.
  - destruct (script_until_scheduler env u w) as (evs0 & _ & _ & Hscript).
    destruct (scheduler_runs env (in_auto_refresh u) (in_refresh_interval u)
                (add_events w evs0))
      as (r & w1 & evs1 & [Hrun _] & [-> | ->] & _ & _ & Hset).
    + destruct (script_after_scheduler env u w _ _ Hscript Hrun)
        as (r2 & w2 & evs2 & Hrun2 & _ & _ & L & _).
      rewrite Hrun2. simpl. rewrite L. exact Hset.
    + rewrite Hscript, (bind_rerun _ _ _ _ Hrun). exact Hset.
Qed.

(** X6.  The requests of a render cycle, in order: first the create
    request, if the form was submitted; then, unless the cycle ends in
    a rerun, the five fetches.  So a submitted strategy is posted
    before the strategies are fetched, and it is posted even in a cycle
    that the scheduler cuts short; such a cycle fetches nothing. *)
Theorem requests_of_cycle :
  forall (env : Env) (u : UserInput) (w : World),
    requests_of (events_of_run (script env u) w) =
    (if in_submit u then [create_request u] else []) ++
    match fst (script env u w) with
    | RerunRequested => []
    | _ => fetch_requests
    end.
Proof.
  intros env u w.
  destruct (script_until_scheduler env u w) as (evs0 & Hq0 & _ & Hscript).
  destruct (scheduler_runs env (in_auto_refresh u) (in_refresh_interval u)
              (add_events w evs0))
    as (r & w1 & evs1 & [Hrun Htr1] & [-> | ->] & Hq1 & _ & _).
  - destruct (script_after_scheduler env u w _ _ Hscript Hrun)
      as (r2 & w2 & evs2 & Hrun2 & Hr2 & T & _ & Q2 & _).
    rewrite (events_of_run_trace _ _ _ _ (evs0 ++ evs1 ++ evs2) Hrun2)
      by (rewrite T, Htr1; simpl; repeat rewrite <- app_assoc; reflexivity).
    rewrite Hrun2, !requests_of_app, Hq0, Hq1, Q2. simpl fst.
    destruct r2; [reflexivity | reflexivity | contradiction].
  - rewrite (bind_rerun _ _ _ _ Hrun) in Hscript.
    rewrite (events_of_run_trace _ _ _ _ (evs0 ++ evs1) Hscript)
      by (rewrite Htr1; simpl; rewrite <- app_assoc; reflexivity).
    rewrite Hscript, !requests_of_app, Hq0, Hq1. reflexivity.
Qed.

Lemma fetch_data_failure env endpoint w e :
  network env (trace w) (GET (API_BASE_URL ++ "/" ++ endpoint)) = HttpFailure e ->
  fetch_data env endpoint w =
  (Returned (JList []),
   add_events w
     [EvRequest (GET (API_BASE_URL ++ "/" ++ endpoint));
      EvUI (StError ("Error fetching " ++ endpoint ++ ": " ++ str_exn e))]).
Proof.
  intros Hnet. pose proof (fetch_data_cases env endpoint w) as H. cbv zeta in H.
  rewrite Hnet in H. exact H.
Qed.

(** The rendering of five empty payloads: the headings and the four
    placeholders, then the rule and the caption. *)
Lemma render_nothing env w :
  render env (JList []) (JList []) (JList []) (JList []) (JList []) w =
  (Returned tt,
   {| last_update := last_update w;
      ticks := S (ticks w);
      trace :=
        trace w ++
        map EvUI
          [ StSubheader "📈 Basis Analysis"; StInfo "No basis data available yet";
            StSubheader "📊 Active Positions"; StInfo "No active positions";
            StSubheader "🎯 Active Strategies"; StInfo "No active strategies";
            StSubheader "💹 Recent Trades"; StInfo "No trades executed yet";
            StMarkdown "---";
            StCaption ("Last updated: " ++ strftime env (clock env (ticks w))) ] |}).
Proof.
  unfold render, health_panel, metrics_panel, basis_panel, positions_panel,
    strategies_panel, trades_panel, st_subheader, st_info, show, emit, time_time.
  cbn -[String.append]. repeat rewrite <- app_assoc. reflexivity.
Qed.

(** X7.  When every request raises, whatever the exceptions are, a
    cycle still runs its fetches and its rendering to the end: all five
    endpoints are asked, in order; each fetch shows its own error
    message, carrying the text of an exception the backend raised for
    that endpoint; every panel shows its placeholder, and no chart and
    no table is shown.  One failing endpoint does not keep the others
    from being asked. *)
Theorem backend_down_shows_placeholders :
  forall (env : Env) (w : World),
    (forall tr r, exists e, network env tr r = HttpFailure e) ->
    fst (fetch_and_render env w) = Returned tt /\
    requests_of (events_of_run (fetch_and_render env) w) = fetch_requests /\
    Forall2
      (fun endpoint msg =>
         exists tr e,
           network env tr (GET (API_BASE_URL ++ "/" ++ endpoint)) = HttpFailure e /\
           msg = ("Error fetching " ++ endpoint ++ ": " ++ str_exn e)%string)
      endpoints
      (errors_of (events_of_run (fetch_and_render env) w)) /\
    infos_of (events_of_run (fetch_and_render env) w) =
      ["No basis data available yet"; "No active positions";
       "No active strategies"; "No trades executed yet"]%string /\
    charts_of (events_of_run (fetch_and_render env) w) = [] /\
    tables_of (events_of_run (fetch_and_render env) w) = [].
Proof.
  intros env w Hdown.
  destruct (Hdown (trace w) (GET (API_BASE_URL ++ "/" ++ "health"))) as [e1 H1].
  pose proof (fetch_data_failure env "health" w e1 H1) as F1.
  set (w1 := add_events w _) in F1.
  destruct (Hdown (trace w1) (GET (API_BASE_URL ++ "/" ++ "basis/snapshots")))
    as [e2 H2].
  pose proof (fetch_data_failure env "basis/snapshots" w1 e2 H2) as F2.
  set (w2 := add_events w1 _) in F2.
  destruct (Hdown (trace w2) (GET (API_BASE_URL ++ "/" ++ "strategies"))) as [e3 H3].
  pose proof (fetch_data_failure env "strategies" w2 e3 H3) as F3.
  set (w3 := add_events w2 _) in F3.
  destruct (Hdown (trace w3) (GET (API_BASE_URL ++ "/" ++ "positions"))) as [e4 H4].
  pose proof (fetch_data_failure env "positions" w3 e4 H4) as F4.
  set (w4 := add_events w3 _) in F4.
  destruct (Hdown (trace w4) (GET (API_BASE_URL ++ "/" ++ "trades"))) as [e5 H5].
  pose proof (fetch_data_failure env "trades" w4 e5 H5) as F5.
  set (w5 := add_events w4 _) in F5.
  assert (Hrun : fetch_and_render env w =
                 render env (JList []) (JList []) (JList []) (JList []) (JList []) w5).
  { unfold fetch_and_render.
    rewrite (bind_returned _ _ _ _ _ F1), (bind_returned _ _ _ _ _ F2),
      (bind_returned _ _ _ _ _ F3), (bind_returned _ _ _ _ _ F4),
      (bind_returned _ _ _ _ _ F5). reflexivity. }
  rewrite render_nothing in Hrun.
  assert (Htr : trace (snd (fetch_and_render env w)) =
                trace w ++
                ([EvRequest (GET (API_BASE_URL ++ "/" ++ "health"));
                  EvUI (StError ("Error fetching " ++ "health" ++ ": " ++ str_exn e1));
                  EvRequest (GET (API_BASE_URL ++ "/" ++ "basis/snapshots"));
                  EvUI (StError ("Error fetching " ++ "basis/snapshots" ++ ": "
                                 ++ str_exn e2));
                  EvRequest (GET (API_BASE_URL ++ "/" ++ "strategies"));
                  EvUI (StError ("Error fetching " ++ "strategies" ++ ": "
                                 ++ str_exn e3));
                  EvRequest (GET (API_BASE_URL ++ "/" ++ "positions"));
                  EvUI (StError ("Error fetching " ++ "positions" ++ ": "
                                 ++ str_exn e4));
                  EvRequest (GET (API_BASE_URL ++ "/" ++ "trades"));
                  EvUI (StError ("Error fetching " ++ "trades" ++ ": " ++ str_exn e5))]
                 ++ map EvUI
                      [ StSubheader "📈 Basis Analysis";
                        StInfo "No basis data available yet";
                        StSubheader "📊 Active Positions"; StInfo "No active positions";
                        StSubheader "🎯 Active Strategies";
                        StInfo "No active strategies";
                        StSubheader "💹 Recent Trades"; StInfo "No trades executed yet";
                        StMarkdown "---";
                        StCaption ("Last updated: "
                                   ++ strftime env (clock env (ticks w))) ])).
  { rewrite Hrun. unfold w5, w4, w3, w2, w1, add_events.
    cbn -[String.append]. repeat rewrite <- app_assoc. reflexivity. }
  unfold events_of_run. rewrite Htr, skipn_length_app, Hrun.
  split; [reflexivity |]. split; [reflexivity |].
  split; [| repeat split].
  cbn -[String.append].
  repeat (apply Forall2_cons; [eexists _, _; split; [eassumption | reflexivity] |]).
  apply Forall2_nil.
Qed.

Lemma backend_down_shows_placeholders_witness :
  fst (fetch_and_render (env_of (clock_from 100) backend_unreachable) fresh_world)
  = Returned tt.
Proof.
  apply (backend_down_shows_placeholders
           (env_of (clock_from 100) backend_unreachable) fresh_world).
  intros tr r. eexists. reflexivity.
Defined.

(** The messages a cycle shows when the backend is out of reach: each
    carries the address of its own endpoint. *)
Example backend_unreachable_messages :
  errors_of (events_of_run
               (fetch_and_render (env_of (clock_from 100) backend_unreachable))
               fresh_world)
  = [ "Error fetching health: Max retries exceeded with url: http://localhost:8080/api/health";
      "Error fetching basis/snapshots: Max retries exceeded with url: http://localhost:8080/api/basis/snapshots";
      "Error fetching strategies: Max retries exceeded with url: http://localhost:8080/api/strategies";
      "Error fetching positions: Max retries exceeded with url: http://localhost:8080/api/positions";
      "Error fetching trades: Max retries exceeded with url: http://localhost:8080/api/trades"
    ]%string.
Proof. reflexivity. Qed.

(* ================================================================== *)
(** * Further properties of the health and metrics panels *)
(* ================================================================== *)

Lemma health_panel_dict env (r : record) (w : World) :
  r <> [] ->
  health_panel env (JDict r) w =
  match dict_get "status" r with
  | Some (VStr s) =>
      (Returned tt,
       add_events w
         [EvUI (StMetric "System Status" (py_upper env s)
                  (Some (if String.eqb s "healthy" then "Online" else "Offline")))])
  | None =>
      (Returned tt,
       add_events w [EvUI (StMetric "System Status" "UNKNOWN" (Some "Offline"))])
  | Some _ => (Raised (AttributeError "object has no attribute 'upper'"), w)
  end.
Proof.
  intros Hne. destruct r as [| kv r']; [contradiction |].
  unfold health_panel, st_metric, show, emit, json_get, dict_get_default, add_events.
  cbn [truthy]. set (d := kv :: r').
  destruct (dict_get "status" d) as [[| b | q | s | t] |]; reflexivity.
Qed.

(** X8.  The health metric of a status record.  A string status is
    shown as its [upper()], which for a plain ASCII status is the
    status with its letters a to z in capitals, and the delta is Online
    exactly when the status is the lower-case word healthy, Offline for
    every other string; a record without status shows UNKNOWN and
    Offline; a status that is not a string (null, a number) makes the
    panel raise [AttributeError], nothing being shown. *)
Theorem health_status_shown :
  forall (env : Env) (r : record) (w : World),
    r <> [] ->
    match dict_get "status" r with
    | Some (VStr s) =>
        health_panel env (JDict r) w =
        (Returned tt,
         add_events w
           [EvUI (StMetric "System Status"
                    (if is_ascii s then upper s else upper_non_ascii env s)
                    (Some (if String.eqb s "healthy" then "Online" else "Offline")))])
    | None =>
        health_panel env (JDict r) w =
        (Returned tt,
         add_events w [EvUI (StMetric "System Status" "UNKNOWN" (Some "Offline"))])
    | Some _ =>
        exists msg,
          health_panel env (JDict r) w = (Raised (Exn "AttributeError" msg), w)
    end.
Proof.
  intros env r w Hne. pose proof (health_panel_dict env r w Hne) as H.
  destruct (dict_get "status" r) as [[| b | q | s | t] |];
    try (eexists; exact H); exact H.
Qed.

Lemma health_status_shown_witness :
  health_panel (env_of (clock_from 100) (backend_status 200))
    (JDict [("status", VStr "healthy")]) fresh_world =
  (Returned tt,
   add_events fresh_world [EvUI (StMetric "System Status" "HEALTHY" (Some "Online"))]).
Proof.
  apply (health_status_shown (env_of (clock_from 100) (backend_status 200))
           [("status", VStr "healthy")] fresh_world).
  discriminate.
Defined.

(** X9.  Nothing guards the rendering: when the health record carries
    a status that is not a string, the exception of the health panel
    ends the rendering at once, before any other panel has shown
    anything, whatever the other four payloads are. *)
Theorem bad_health_status_stops_rendering :
  forall (env : Env) (r : record) (v : value)
         (snapshots strategies positions trades : json) (w : World),
    dict_get "status" r = Some v ->
    is_str (Some v) = false ->
    render env (JDict r) snapshots strategies positions trades w =
    (Raised (AttributeError "object has no attribute 'upper'"), w).
Proof.
  intros env r v snapshots strategies positions trades w Hget Hstr.
  assert (Hne : r <> []) by (intros ->; discriminate Hget).
  unfold render. apply bind_raised.
  rewrite (health_panel_dict env r w Hne), Hget.
  destruct v; try reflexivity. discriminate Hstr.
Qed.

Lemma bad_health_status_stops_rendering_witness :
  render (env_of (clock_from 100) (backend_status 200))
    (JDict [("status", VNull)]) (JList example_snapshots) (JList []) (JList [])
    (JList example_trades) fresh_world =
  (Raised (AttributeError "object has no attribute 'upper'"), fresh_world).
Proof.
  apply (bad_health_status_stops_rendering
           (env_of (clock_from 100) (backend_status 200))
           [("status", VNull)] VNull).
  - reflexivity.
  - reflexivity.
Defined.

(** X10.  The three key metrics are read from the first record of the
    snapshots list and from no other; a field the record lacks counts
    as 0. *)
Theorem metrics_show_first_snapshot :
  forall (env : Env) (first : record) (others : list record) (w : World)
         (basis spot future : string),
    format_2f env (dict_get_default "basis_percent" (VNum 0) first) = Ok basis ->
    format_comma_2f env (dict_get_default "spot_price" (VNum 0) first) = Ok spot ->
    format_comma_2f env (dict_get_default "future_price" (VNum 0) first) = Ok future ->
    metrics_panel env (JList (first :: others)) w =
    (Returned tt,
     add_events w
       [ EvUI (StMetric "Latest Basis" (basis ++ "%") None);
         EvUI (StMetric "Spot Price" ("$" ++ spot) None);
         EvUI (StMetric "Future Price" ("$" ++ future) None) ]).
Proof.
  intros env first others w basis spot future Hb Hs Hf.
  unfold metrics_panel, st_metric, show, emit, add_events.
  cbn [truthy json_first]. cbn -[String.append dict_get_default].
  rewrite Hb. cbn -[String.append dict_get_default].
  rewrite Hs. cbn -[String.append dict_get_default].
  rewrite Hf. cbn -[String.append dict_get_default].
  repeat rewrite <- app_assoc. reflexivity.
Qed.

Lemma metrics_show_first_snapshot_witness :
  metrics_panel (env_of (clock_from 100) (backend_status 200))
    (JList ([] :: example_snapshots)) fresh_world =
  (Returned tt,
   add_events fresh_world
     [ EvUI (StMetric "Latest Basis" ("0.00" ++ "%") None);
       EvUI (StMetric "Spot Price" ("$" ++ "0.00") None);
       EvUI (StMetric "Future Price" ("$" ++ "0.00") None) ]).
Proof.
  apply (metrics_show_first_snapshot
           (env_of (clock_from 100) (backend_status 200)) [] example_snapshots
           fresh_world "0.00" "0.00" "0.00").
  - reflexivity.
  - reflexivity.
  - reflexivity.
Defined.

(* ================================================================== *)
(** * Further properties of the basis chart *)
(* ================================================================== *)

(** The loop of [create_basis_chart] adds, for each pair given, the
    trace of the rows of that pair, in the order of the pairs. *)
Lemma add_pair_traces_ok (other : value -> res value) (df : DataFrame)
  (pairs times bases : Series) :
  df_getitem "pair" df = Ok pairs ->
  df_getitem "timestamp" df = Ok times ->
  df_getitem "basis_percent" df = Ok bases ->
  forall (keys : list value) (fig : Figure),
    Forall (fun c => is_str (Some c) = true) keys ->
    add_pair_traces other df keys fig =
    Ok {| traces :=
            traces fig ++
            map (fun key =>
                   basis_scatter (series_take (series_eq_scalar pairs key) times)
                                 (series_take (series_eq_scalar pairs key) bases) key)
                keys;
          layout := layout fig |}.
Proof.
  intros Hp Ht Hb keys. induction keys as [| key keys IH]; intros fig Hkeys.
  - simpl. rewrite app_nil_r. destruct fig. reflexivity.
  - inversion Hkeys as [| ? ? Hkey Hrest]; subst.
    cbn [add_pair_traces]. rewrite Hp, res_bind_ok.
    rewrite (df_getitem_mask _ _ _ _ Ht), (df_getitem_mask _ _ _ _ Hb), !res_bind_ok.
    destruct key as [| b | q | name_ | t]; simpl in Hkey; try discriminate.
    cbn [scatter_name]. rewrite res_bind_ok.
    rewrite (IH _ Hrest). unfold add_trace. cbn [traces layout map].
    rewrite <- app_assoc. reflexivity.
Qed.

Lemma series_unique_strings (pairs : Series) :
  Forall (fun c => is_str (Some c) = true) pairs ->
  Forall (fun c => is_str (Some c) = true) (series_unique pairs).
Proof.
  intros Hs. apply Forall_forall. intros c Hc.
  unfold series_unique in Hc. apply (unique_from_In pairs [] c Hs) in Hc.
  rewrite Forall_forall in Hs. apply Hs. tauto.
Qed.

Lemma create_basis_chart_traces env (df : DataFrame) (pairs times bases : Series) :
  df_getitem "pair" df = Ok pairs ->
  df_getitem "timestamp" df = Ok times ->
  df_getitem "basis_percent" df = Ok bases ->
  Forall (fun c => is_str (Some c) = true) pairs ->
  create_basis_chart env df =
  Ok {| traces :=
          map (fun key =>
                 basis_scatter (series_take (series_eq_scalar pairs key) times)
                               (series_take (series_eq_scalar pairs key) bases) key)
              (series_unique pairs);
        layout := {| title := Some "Basis Percentage Over Time"%string;
                     xaxis_title := Some "Time"%string;
                     yaxis_title := Some "Basis %"%string;
                     height := Some 400;
                     hovermode := Some "x unified"%string |} |}.
Proof.
  intros Hp Ht Hb Hs. unfold create_basis_chart.
  rewrite Hp, res_bind_ok.
  rewrite (add_pair_traces_ok _ df pairs times bases Hp Ht Hb _ _
             (series_unique_strings pairs Hs)).
  reflexivity.
Qed.

(** X11.  For a frame with its pair, timestamp and basis columns, the
    pairs being strings, of whatever number of rows and pairs,
    [create_basis_chart] gives one lines-and-markers trace per distinct
    pair, named after it, the pairs in the order of their first row;
    each trace holds the points of the rows of its pair in the order of
    the frame; the figure is 400 high.  A frame without rows gives a
    figure without traces. *)
Theorem basis_chart_one_trace_per_pair :
  forall (env : Env) (snapshots_df : DataFrame) (pairs times bases : Series),
    df_getitem "pair" snapshots_df = Ok pairs ->
    df_getitem "timestamp" snapshots_df = Ok times ->
    df_getitem "basis_percent" snapshots_df = Ok bases ->
    length times = length pairs ->
    length bases = length pairs ->
    Forall (fun c => is_str (Some c) = true) pairs ->
    exists fig,
      create_basis_chart env snapshots_df = Ok fig /\
      map name (traces fig) = series_unique pairs /\
      Forall (fun tr =>
                kind tr = Scatter /\
                mode tr = Some "lines+markers"%string /\
                points tr = points_of_pair (name tr) (chart_rows pairs times bases))
             (traces fig) /\
      height (layout fig) = Some 400 /\
      (pairs = [] -> traces fig = []).
Proof.
  intros env df pairs times bases Hp Ht Hb Hlt Hlb Hs.
  eexists.
  split; [apply (create_basis_chart_traces env df pairs times bases Hp Ht Hb Hs) |].
  cbn [traces layout height]. split; [| split; [| split]].
  - rewrite map_map. cbn [name basis_scatter]. apply map_id.
  - apply Forall_forall. intros tr Hin. apply in_map_iff in Hin.
    destruct Hin as (key & <- & _). cbn [kind mode name basis_scatter].
    repeat split. unfold points. cbn [xs ys basis_scatter].
    apply masked_points; assumption.
  - reflexivity.
  - intros ->. reflexivity.
Qed.

Lemma basis_chart_one_trace_per_pair_witness :
  exists fig,
    create_basis_chart (env_of (clock_from 100) (backend_status 200))
      example_snapshots_df = Ok fig /\
    map name (traces fig)
    = series_unique [VStr "BTC-USD/BTC-PERP"; VStr "ETH-USD/ETH-PERP";
                     VStr "BTC-USD/BTC-PERP"] /\
    Forall (fun tr =>
              kind tr = Scatter /\
              mode tr = Some "lines+markers"%string /\
              points tr =
              points_of_pair (name tr)
                (chart_rows
                   [VStr "BTC-USD/BTC-PERP"; VStr "ETH-USD/ETH-PERP";
                    VStr "BTC-USD/BTC-PERP"]
                   [VTime 120; VTime 60; VTime 0]
                   [VNum (24 # 100); VNum (50 # 100); VNum (23 # 100)]))
           (traces fig) /\
    height (layout fig) = Some 400 /\
    ([VStr "BTC-USD/BTC-PERP"; VStr "ETH-USD/ETH-PERP"; VStr "BTC-USD/BTC-PERP"] = [] ->
     traces fig = []).
Proof.
  apply (basis_chart_one_trace_per_pair
           (env_of (clock_from 100) (backend_status 200)) example_snapshots_df
           [VStr "BTC-USD/BTC-PERP"; VStr "ETH-USD/ETH-PERP"; VStr "BTC-USD/BTC-PERP"]
           [VTime 120; VTime 60; VTime 0]
           [VNum (24 # 100); VNum (50 # 100); VNum (23 # 100)]);
    try reflexivity.
  repeat (apply Forall_cons; [reflexivity |]). apply Forall_nil.
Defined.

(** X12.  When the pairs of the frame are strings, the traces of the
    basis chart partition its rows: no two traces have the same name,
    every pair of the frame names a trace and every trace a pair of the
    frame, and the points of all traces together are as many as the
    rows.  No snapshot is left out and none is drawn twice. *)
Theorem basis_chart_partitions_rows :
  forall (env : Env) (snapshots_df : DataFrame) (pairs times bases : Series),
    df_getitem "pair" snapshots_df = Ok pairs ->
    df_getitem "timestamp" snapshots_df = Ok times ->
    df_getitem "basis_percent" snapshots_df = Ok bases ->
    length times = length pairs ->
    length bases = length pairs ->
    Forall (fun c => is_str (Some c) = true) pairs ->
    exists fig,
      create_basis_chart env snapshots_df = Ok fig /\
      NoDup (map name (traces fig)) /\
      (forall c, In c pairs <-> In c (map name (traces fig))) /\
      list_sum (map (fun tr => length (points tr)) (traces fig)) = length pairs.
Proof.
  intros env df pairs times bases Hp Ht Hb Hlt Hlb Hs.
  eexists.
  split; [apply (create_basis_chart_traces env df pairs times bases Hp Ht Hb Hs) |].
  cbn [traces].
  assert (Hnames :
            map name
              (map (fun key =>
                      basis_scatter (series_take (series_eq_scalar pairs key) times)
                        (series_take (series_eq_scalar pairs key) bases) key)
                   (series_unique pairs)) = series_unique pairs).
  { rewrite map_map. cbn [name basis_scatter]. apply map_id. }
  rewrite Hnames. split; [apply unique_from_NoDup; exact Hs |]. split.
  - intros c. unfold series_unique. rewrite (unique_from_In pairs [] c Hs).
    simpl. tauto.
  - rewrite map_map.
    rewrite <- (masks_partition pairs (series_unique pairs) Hs).
    + f_equal. apply map_ext. intros key. unfold points. cbn [xs ys basis_scatter].
      rewrite length_combine, !series_take_length
        by (unfold series_eq_scalar; rewrite length_map; assumption).
      apply Nat.min_id.
    + apply unique_from_NoDup. exact Hs.
    + intros c Hc. unfold series_unique. rewrite (unique_from_In pairs [] c Hs).
      simpl. tauto.
Qed.

Lemma basis_chart_partitions_rows_witness :
  exists fig,
    create_basis_chart (env_of (clock_from 100) (backend_status 200))
      example_snapshots_df = Ok fig /\
    NoDup (map name (traces fig)) /\
    (forall c,
        In c [VStr "BTC-USD/BTC-PERP"; VStr "ETH-USD/ETH-PERP"; VStr "BTC-USD/BTC-PERP"]
        <-> In c (map name (traces fig))) /\
    list_sum (map (fun tr => length (points tr)) (traces fig))
    = length [VStr "BTC-USD/BTC-PERP"; VStr "ETH-USD/ETH-PERP"; VStr "BTC-USD/BTC-PERP"].
Proof.
  apply (basis_chart_partitions_rows
           (env_of (clock_from 100) (backend_status 200)) example_snapshots_df
           [VStr "BTC-USD/BTC-PERP"; VStr "ETH-USD/ETH-PERP"; VStr "BTC-USD/BTC-PERP"]
           [VTime 120; VTime 60; VTime 0]
           [VNum (24 # 100); VNum (50 # 100); VNum (23 # 100)]);
    try reflexivity.
  repeat (apply Forall_cons; [reflexivity |]). apply Forall_nil.
Defined.

(* ================================================================== *)
(** * Further properties of the basis panel *)
(* ================================================================== *)

Lemma unique_keys_from_sub (l seen : list string) (k : string) :
  In k (unique_keys_from seen l) -> In k l.
Proof.
  revert seen. induction l as [| k0 l IH]; intros seen H; simpl in *; [exact H |].
  destruct (existsb (String.eqb k0) seen).
  - right. exact (IH _ H).
  - destruct H as [-> | H]; [left; reflexivity | right; exact (IH _ H)].
Qed.

Lemma assoc_get_map_keys_none {A : Type} (f : string -> A) (keys : list string)
  (k : string) :
  ~ In k keys -> assoc_get k (map (fun k' => (k', f k')) keys) = None.
Proof.
  induction keys as [| k0 keys IH]; intros Hn; simpl; [reflexivity |].
  destruct (String.eqb_spec k0 k) as [-> | Hne].
  - exfalso. apply Hn. left. reflexivity.
  - apply IH. intros H. apply Hn. right. exact H.
Qed.

Lemma dict_key_get (k : string) (r : record) :
  In k (dict_keys r) -> has_key k r = true.
Proof.
  unfold has_key. induction r as [| [k0 v0] r IH]; simpl; [contradiction |].
  destruct (String.eqb_spec k0 k) as [-> | Hne]; [reflexivity |].
  intros [E | H]; [contradiction | exact (IH H)].
Qed.

(** A key that no record has is no column of the frame. *)
Lemma records_frame_getitem_missing (rows : list record) (k : string) :
  (forall r, In r rows -> has_key k r = false) ->
  df_getitem k (records_frame rows) = Err (KeyError k).
Proof.
  intros Hnone. unfold df_getitem, records_frame. cbn [columns].
  rewrite assoc_get_map_keys_none; [reflexivity |].
  intros Hin. apply unique_keys_from_sub in Hin. apply in_concat in Hin.
  destruct Hin as (ks & Hks & Hk). apply in_map_iff in Hks.
  destruct Hks as (r & <- & Hr). apply dict_key_get in Hk.
  rewrite (Hnone r Hr) in Hk. discriminate.
Qed.

(** A frame built from records of which one has a key is not empty. *)
Lemma records_frame_not_empty (rows : list record) (r : record) (k : string) :
  In r rows -> has_key k r = true -> df_empty (records_frame rows) = false.
Proof.
  intros Hr Hk. unfold df_empty, records_frame. cbn [nrows columns].
  rewrite length_map.
  assert (Hin : In k (unique_keys_from [] (concat (map dict_keys rows)))).
  { apply unique_keys_from_In; [| intros []].
    apply in_concat. exists (dict_keys r). split; [apply in_map; exact Hr |].
    unfold has_key in Hk. destruct (dict_get k r) eqn:E; [| discriminate].
    exact (dict_get_key _ _ _ E). }
  destruct rows as [| r0 rows]; [contradiction |].
  destruct (unique_keys_from [] (concat (map dict_keys (r0 :: rows))));
    [contradiction | reflexivity].
Qed.

(** X13.  For a non-empty list of snapshot records whose timestamps
    parse, the basis panel shows, after its heading, exactly one chart
    and no placeholder; the chart has one trace per distinct
    spot/future pair of the records, in the order of first appearance. *)
Theorem basis_panel_shows_chart :
  forall (env : Env) (rows : list record) (w : World),
    rows <> [] ->
    forallb is_snapshot_record rows = true ->
    column_parses env "timestamp" rows ->
    exists fig,
      basis_panel env (JList rows) w =
      (Returned tt,
       add_events w [EvUI (StSubheader "📈 Basis Analysis"); EvUI (StPlotlyChart fig)]) /\
      map name (traces fig) =
      series_unique
        (map (fun r => VStr (str_field "spot_symbol" r ++ "/"
                             ++ str_field "future_symbol" r)) rows).
Proof.
  intros env rows w Hne Hrec [parsed Hparse].
  pose proof (snapshots_frame_columns env rows parsed Hne Hrec Hparse) as Hframe.
  change (snapshots_frame env rows)
    with (derive_snapshot_columns env (records_frame rows)) in Hframe.
  destruct rows as [| r0 rest] eqn:Erows; [contradiction |]. rewrite <- Erows in *.
  assert (Hr0 : In r0 rows) by (rewrite Erows; left; reflexivity).
  destruct (snapshot_records_fields rows Hrec) as (Hts & Hbp & _ & _).
  pose proof (proj1 (Forall_forall _ _) Hts r0 Hr0) as Hts0.
  pose proof (proj1 (Forall_forall _ _) Hbp r0 Hr0) as Hbp0.
  set (pairs := map (fun r => VStr ((str_field "spot_symbol" r ++ "/")
                                    ++ str_field "future_symbol" r)) rows) in *.
  assert (Hchart :
            create_basis_chart env
              {| nrows := length rows;
                 columns := assoc_set "pair" pairs
                              (assoc_set "timestamp" parsed
                                 (columns (records_frame rows))) |} =
            Ok {| traces :=
                    map (fun key =>
                           basis_scatter
                             (series_take (series_eq_scalar pairs key) parsed)
                             (series_take (series_eq_scalar pairs key)
                                (map (dict_get_default "basis_percent" VNull) rows))
                             key)
                        (series_unique pairs);
                  layout := {| title := Some "Basis Percentage Over Time"%string;
                               xaxis_title := Some "Time"%string;
                               yaxis_title := Some "Basis %"%string;
                               height := Some 400;
                               hovermode := Some "x unified"%string |} |}).
  { apply create_basis_chart_traces;
      [| | | apply Forall_forall; intros c Hc; apply in_map_iff in Hc;
             destruct Hc as (r & <- & _); reflexivity].
    - apply df_getitem_set_eq.
    - unfold df_getitem. cbn [columns].
      rewrite assoc_get_set_neq by discriminate.
      rewrite assoc_get_set_eq. reflexivity.
    - unfold df_getitem. cbn [columns].
      rewrite !assoc_get_set_neq by discriminate.
      exact (records_frame_getitem rows "basis_percent" r0 Hr0 Hbp0). }
  eexists. split.
  - unfold basis_panel, st_subheader, st_plotly_chart, show, emit.
    rewrite (truthy_nonempty rows Hne).
    change (pd_DataFrame (JList rows)) with (Ok (records_frame rows)).
    cbn -[records_frame derive_snapshot_columns create_basis_chart df_empty].
    rewrite (records_frame_not_empty rows r0 "timestamp" Hr0 Hts0).
    cbn -[records_frame derive_snapshot_columns create_basis_chart].
    rewrite Hframe.
    cbn -[records_frame create_basis_chart].
    rewrite Hchart. unfold add_events. cbn. rewrite <- app_assoc. reflexivity.
  - cbn [traces]. rewrite map_map. cbn [name basis_scatter]. rewrite map_id.
    unfold pairs. f_equal. apply map_ext. intros r.
    rewrite string_append_assoc. reflexivity.
Qed.

Lemma basis_panel_shows_chart_witness :
  exists fig,
    basis_panel (env_of (clock_from 100) (backend_status 200))
      (JList example_snapshots) fresh_world =
    (Returned tt,
     add_events fresh_world
       [EvUI (StSubheader "📈 Basis Analysis"); EvUI (StPlotlyChart fig)]) /\
    map name (traces fig) =
    series_unique
      (map (fun r => VStr (str_field "spot_symbol" r ++ "/"
                           ++ str_field "future_symbol" r)) example_snapshots).
Proof.
  apply (basis_panel_shows_chart
           (env_of (clock_from 100) (backend_status 200)) example_snapshots fresh_world).
  - discriminate.
  - reflexivity.
  - eexists. reflexivity.
Defined.

(** X14.  Records that carry fields but no timestamp make the basis
    panel raise [KeyError] on line 172: the heading is shown, then the
    exception leaves the panel, and neither chart nor placeholder is
    shown. *)
Theorem missing_timestamp_raises :
  forall (env : Env) (rows : list record) (r0 : record) (k0 : string) (w : World),
    In r0 rows ->
    has_key k0 r0 = true ->
    (forall r, In r rows -> has_key "timestamp" r = false) ->
    basis_panel env (JList rows) w =
    (Raised (KeyError "timestamp"),
     add_events w [EvUI (StSubheader "📈 Basis Analysis")]).
Proof.
  intros env rows r0 k0 w Hr0 Hk0 Hnone.
  assert (Hne : rows <> []) by (intros ->; contradiction).
  unfold basis_panel, st_subheader, st_plotly_chart, show, emit.
  rewrite (truthy_nonempty rows Hne).
  change (pd_DataFrame (JList rows)) with (Ok (records_frame rows)).
  cbn -[records_frame derive_snapshot_columns create_basis_chart df_empty].
  rewrite (records_frame_not_empty rows r0 k0 Hr0 Hk0).
  cbn -[records_frame derive_snapshot_columns create_basis_chart].
  unfold derive_snapshot_columns.
  rewrite (records_frame_getitem_missing rows "timestamp" Hnone).
  reflexivity.
Qed.

Lemma missing_timestamp_raises_witness :
  basis_panel (env_of (clock_from 100) (backend_status 200))
    (JList [[("spot_symbol", VStr "BTC-USD"); ("future_symbol", VStr "BTC-PERP")]])
    fresh_world =
  (Raised (KeyError "timestamp"),
   add_events fresh_world [EvUI (StSubheader "📈 Basis Analysis")]).
Proof.
  apply (missing_timestamp_raises
           (env_of (clock_from 100) (backend_status 200))
           [[("spot_symbol", VStr "BTC-USD"); ("future_symbol", VStr "BTC-PERP")]]
           [("spot_symbol", VStr "BTC-USD"); ("future_symbol", VStr "BTC-PERP")]
           "spot_symbol" fresh_world).
  - left. reflexivity.
  - reflexivity.
  - intros r [<- | []]. reflexivity.
Defined.

(** X15.  A non-empty list of empty records is truthy, yet its frame is
    empty: the basis panel shows its heading and nothing else, neither
    the chart nor the placeholder. *)
Theorem empty_records_show_nothing :
  forall (env : Env) (rows : list record) (w : World),
    rows <> [] ->
    (forall r, In r rows -> r = []) ->
    basis_panel env (JList rows) w =
    (Returned tt, add_events w [EvUI (StSubheader "📈 Basis Analysis")]).
Proof.
  intros env rows w Hne Hempty.
  assert (Hkeys : concat (map dict_keys rows) = []).
  { clear Hne. induction rows as [| r rows IH]; [reflexivity |]. simpl.
    rewrite (Hempty r) by (left; reflexivity). simpl.
    apply IH. intros r' Hr'. apply Hempty. right. exact Hr'. }
  unfold basis_panel, st_subheader, st_plotly_chart, show, emit.
  rewrite (truthy_nonempty rows Hne).
  change (pd_DataFrame (JList rows)) with (Ok (records_frame rows)).
  cbn -[records_frame derive_snapshot_columns create_basis_chart df_empty].
  assert (He : df_empty (records_frame rows) = true).
  { unfold df_empty, records_frame. cbn [nrows columns]. rewrite Hkeys.
    simpl. apply orb_true_r. }
  rewrite He. reflexivity.
Qed.

Lemma empty_records_show_nothing_witness :
  basis_panel (env_of (clock_from 100) (backend_status 200)) (JList [[]; []])
    fresh_world =
  (Returned tt, add_events fresh_world [EvUI (StSubheader "📈 Basis Analysis")]).
Proof.
  apply (empty_records_show_nothing
           (env_of (clock_from 100) (backend_status 200)) [[]; []] fresh_world).
  - discriminate.
  - intros r [<- | [<- | []]]; reflexivity.
Defined.

(* ================================================================== *)
(** * Further properties of the tables *)
(* ================================================================== *)

Lemma records_have_key (keys : list string) (rows : list record) (r : record)
  (k : string) :
  forallb (fun r' => forallb (fun k' => has_key k' r') keys) rows = true ->
  In r rows -> In k keys -> has_key k r = true.
Proof.
  intros H Hr Hk. rewrite forallb_forall in H. specialize (H r Hr).
  rewrite forallb_forall in H. exact (H k Hk).
Qed.

(** X16.  For a non-empty list of strategy records that carry the six
    displayed fields, the strategies panel shows one table with a row
    for every record of the list (the table is not cut as the trades
    table is) and with the six displayed columns, in their order; a
    field outside the six, such as min_trade_size, is not shown. *)
Theorem strategies_table_shows_all :
  forall (rows : list record) (w : World),
    rows <> [] ->
    forallb (fun r => forallb (fun k => has_key k r) strategy_columns) rows = true ->
    strategies_panel (JList rows) w =
    (Returned tt,
     add_events w
       [EvUI (StSubheader "🎯 Active Strategies");
        EvUI (StDataframe
                {| nrows := length rows;
                   columns := map (fun k => (k, map (dict_get_default k VNull) rows))
                                  strategy_columns |})]).
Proof.
  intros rows w Hne Hrec.
  destruct rows as [| r0 rest] eqn:Erows; [contradiction |]. rewrite <- Erows in *.
  assert (Hr0 : In r0 rows) by (rewrite Erows; left; reflexivity).
  unfold strategies_panel, st_subheader, st_dataframe, show, emit.
  rewrite (truthy_nonempty rows Hne).
  change (pd_DataFrame (JList rows)) with (Ok (records_frame rows)).
  cbn -[records_frame df_select].
  rewrite (df_select_ok strategy_columns (records_frame rows)
             (fun k => map (dict_get_default k VNull) rows)).
  - unfold add_events. cbn -[records_frame strategy_columns].
    rewrite <- app_assoc. unfold records_frame. cbn [nrows]. reflexivity.
  - intros k Hk. apply (records_frame_getitem rows k r0 Hr0).
    exact (records_have_key strategy_columns rows r0 k Hrec Hr0 Hk).
Qed.

Lemma strategies_table_shows_all_witness :
  strategies_panel
    (JList [ [("id", VNum 1); ("spot_symbol", VStr "BTC-USD");
              ("future_symbol", VStr "BTC-PERP"); ("target_basis", VNum 5);
              ("max_position", VNum 1); ("min_trade_size", VNum (1 # 100));
              ("is_active", VBool true)] ]) fresh_world =
  (Returned tt,
   add_events fresh_world
     [EvUI (StSubheader "🎯 Active Strategies");
      EvUI (StDataframe
              {| nrows := 1;
                 columns :=
                   [ ("id", [VNum 1]); ("spot_symbol", [VStr "BTC-USD"]);
                     ("future_symbol", [VStr "BTC-PERP"]); ("target_basis", [VNum 5]);
                     ("max_position", [VNum 1]); ("is_active", [VBool true]) ] |})]).
Proof.
  apply (strategies_table_shows_all
           [ [("id", VNum 1); ("spot_symbol", VStr "BTC-USD");
              ("future_symbol", VStr "BTC-PERP"); ("target_basis", VNum 5);
              ("max_position", VNum 1); ("min_trade_size", VNum (1 # 100));
              ("is_active", VBool true)] ] fresh_world).
  - discriminate.
  - reflexivity.
Defined.

Lemma last_n_all {A : Type} (n : nat) (l : list A) :
  length l <= n -> last_n n l = l.
Proof.
  intros H. unfold last_n. replace (length l - n) with 0 by lia. reflexivity.
Qed.

(** X17.  With ten trades or fewer the trades table leaves none out:
    it has a row for every record of the list, and each displayed
    column holds the field of all the records, in their order. *)
Theorem few_trades_all_shown :
  forall (env : Env) (rows : list record),
    rows <> [] ->
    length rows <= 10 ->
    forallb is_trade_record rows = true ->
    column_parses env "created_at" rows ->
    exists table,
      recent_trades env (records_frame rows) = Ok table /\
      nrows table = length rows /\
      map fst (columns table) = trade_columns /\
      forall key,
        In key trade_columns -> key <> "created_at"%string ->
        df_getitem key table = Ok (map (dict_get_default key VNull) rows).
Proof.
  intros env rows Hne Hlen Hrec [parsed Hparse].
  eexists. split; [apply (recent_trades_columns env rows parsed Hne Hrec Hparse) |].
  cbn [nrows columns]. split; [apply Nat.min_r; exact Hlen |].
  split; [reflexivity |].
  intros key Hk Hneq.
  etransitivity; [apply df_getitem_map_keys; exact Hk |]. cbv beta.
  destruct (String.eqb_spec "created_at" key) as [E | _];
    [symmetry in E; contradiction |].
  f_equal. apply last_n_all. rewrite length_map. exact Hlen.
Qed.

Lemma few_trades_all_shown_witness :
  exists table,
    recent_trades (env_of (clock_from 100) (backend_status 200))
      (records_frame [example_trade 1; example_trade 2]) = Ok table /\
    nrows table = length [example_trade 1; example_trade 2] /\
    map fst (columns table) = trade_columns /\
    forall key,
      In key trade_columns -> key <> "created_at"%string ->
      df_getitem key table
      = Ok (map (dict_get_default key VNull) [example_trade 1; example_trade 2]).
Proof.
  apply (few_trades_all_shown
           (env_of (clock_from 100) (backend_status 200))
           [example_trade 1; example_trade 2]).
  - discriminate.
  - simpl. lia.
  - reflexivity.
  - eexists. reflexivity.
Defined.




(* ================================================================== *)
(** * Further properties of a cycle *)
(* ================================================================== *)

(** X19.  Once the five payloads are fetched, the rendering talks to
    the backend no more: whatever the payloads are, and whether a panel
    raises or not, it sends no request, asks for no rerun and leaves
    the recorded last-refresh time as it is. *)
Theorem rendering_sends_nothing :
  forall (env : Env) (health snapshots strategies positions trades : json) (w : World),
    let run := render env health snapshots strategies positions trades w in
    fst run <> RerunRequested /\
    last_update (snd run) = last_update w /\
    requests_of
      (events_of_run (render env health snapshots strategies positions trades) w) = [] /\
    resets_of
      (events_of_run (render env health snapshots strategies positions trades) w) = [].
Proof.
  intros env health snapshots strategies positions trades w run.
  destruct (passive_render env health snapshots strategies positions trades w)
    as (r & w' & evs & Hruns & Hr & Hl & Hq & Hs).
  rewrite (events_of_run_runs _ _ _ _ _ Hruns).
  destruct Hruns as [Hrun _]. unfold run. rewrite Hrun.
  repeat split; assumption.
Qed.

(** The scheduler on a session that starts, auto-refresh on. *)
Lemma scheduler_enabled_fresh env interval w :
  last_update w = None ->
  refresh_scheduler env true interval w =
  if Qgt_bool (clock env (S (ticks w)) - clock env (ticks w)) (inject_Z interval)
  then (RerunRequested,
        {| last_update := Some (clock env (S (S (ticks w))));
           ticks := S (S (S (ticks w)));
           trace := trace w ++ [EvSetLastUpdate (clock env (ticks w));
                                EvSetLastUpdate (clock env (S (S (ticks w))))] |})
  else (Returned tt,
        {| last_update := Some (clock env (ticks w));
           ticks := S (S (ticks w));
           trace := trace w ++ [EvSetLastUpdate (clock env (ticks w))] |}).
Proof.
  destruct w as [lu n tr]. simpl. intros ->.
  unfold refresh_scheduler, session_has_last_update, session_get_last_update,
    session_set_last_update, time_time, st_rerun.
  cbn -[Qgt_bool Qminus inject_Z].
  destruct (Qgt_bool (clock env (S n) - clock env n) (inject_Z interval));
    [cbn [ticks trace]; rewrite <- app_assoc |]; reflexivity.
Qed.

(** X20.  In the first cycle of a session no last-refresh time is
    recorded yet: the scheduler records the clock reading and measures
    the elapsed time from it.  With auto-refresh enabled the cycle ends
    in a rerun exactly when the next reading of the clock is later than
    that by more than the interval; otherwise the cycle fetches and the
    time recorded is the first reading. *)
Theorem first_cycle_measures_from_start :
  forall (env : Env) (u : UserInput) (w : World),
    last_update w = None ->
    in_auto_refresh u = true ->
    let elapsed := (clock env (S (ticks w)) - clock env (ticks w))%Q in
    (fst (script env u w) = RerunRequested <->
     (inject_Z (in_refresh_interval u) < elapsed)%Q) /\
    (~ (inject_Z (in_refresh_interval u) < elapsed)%Q ->
     last_update (snd (script env u w)) = Some (clock env (ticks w)) /\
     fetches_of_cycle env u w = fetch_requests).
Proof.
  intros env u w Hnone Hon elapsed.
  destruct (script_until_scheduler env u w) as (evs & Hq & _ & Hscript).
  assert (Hnone0 : last_update (add_events w evs) = None) by exact Hnone.
  pose proof (scheduler_enabled_fresh env (in_refresh_interval u) _ Hnone0) as Hsched.
  simpl ticks in Hsched. simpl trace in Hsched. fold elapsed in Hsched.
  rewrite <- Hon in Hsched at 1.
  destruct (Qgt_bool elapsed (inject_Z (in_refresh_interval u))) eqn:Hgt.
  - apply Qgt_bool_iff in Hgt.
    rewrite (bind_rerun _ _ _ _ Hsched) in Hscript. rewrite Hscript.
    split; [split; auto |]. intros Hn. contradiction.
  - assert (Hn : ~ (inject_Z (in_refresh_interval u) < elapsed)%Q).
    { intros Hlt. apply Qgt_bool_iff in Hlt. congruence. }
    destruct (script_after_scheduler env u w _ _ Hscript Hsched)
      as (r & w2 & evs2 & Hrun & Hr & T & L & Q2 & _).
    simpl in T, L. unfold fetches_of_cycle.
    rewrite (events_of_run_trace _ _ _ _
               (evs ++ [EvSetLastUpdate (clock env (ticks w))] ++ evs2) Hrun)
      by (rewrite T; repeat rewrite <- app_assoc; reflexivity).
    rewrite Hrun. simpl fst. simpl snd.
    split; [split; [intros E; contradiction | intros Hlt; contradiction] |].
    intros _. split; [exact L |].
    rewrite !requests_of_app, Hq, Q2. simpl.
    apply filter_is_get_fetches, posted_is_not_get.
Qed.

Lemma first_cycle_measures_from_start_witness :
  fst (script (env_of (clock_from 100) (backend_status 200)) default_input fresh_world)
  = RerunRequested <->
  (inject_Z (in_refresh_interval default_input)
   < clock (env_of (clock_from 100) (backend_status 200)) (S (ticks fresh_world))
     - clock (env_of (clock_from 100) (backend_status 200)) (ticks fresh_world))%Q.
Proof.
  exact (proj1 (first_cycle_measures_from_start
                  (env_of (clock_from 100) (backend_status 200))
                  default_input fresh_world eq_refl eq_refl)).
Defined.
